(** * simple-sql: a guarded SQL execution layer

    A shallow embedding of the Go packages [sql] (src/sql/sql.go with its
    constants and helpers) and [ssql] (src/ssql/orm.go), and the properties
    of the validator, the plan auditor, the result materializer, the
    transaction coordinator and the update builder.

    Conventions of the embedding:
    - a Go [string] is a byte string ([string] of 8-bit [ascii]);
    - a Go [any] is the inductive [any]; a Go [error] is [error];
    - [panic]/[recover] and the calls into database/sql are effects of the
      monad [M]: a computation reads the history of driver calls (the trace),
      extends it, and either returns or panics;
    - what lives outside the repository (the driver, the clock, the Unicode
      tables of strings.ToLower, database/sql's conversions, encoding/json)
      is a field of the environment [Env]. *)

From Stdlib Require Import String Ascii List ZArith Lia Bool DecimalString.
From Stdlib Require Import Permutation Sorted OrderedTypeEx.
From stdpp Require Import base gmap strings sorting.
Import ListNotations.
Open Scope string_scope.
Set Warnings "-register-all".

(** ** Values *)

(** time.Time, as an instant on the clock. *)
Definition instant := Z.

(** Go errors: the three values the package declares, pgx's
    ErrTxCommitRollback, any other error value (by its Error() text), and an
    error that wraps another one (what errors.Is walks through). *)
Inductive error : Type :=
| ErrLockNotAvailable
| ErrUniqConstraint
| ErrDeadLock
| ErrTxCommitRollback
| ErrOther (msg : string)
| ErrWrap (msg : string) (inner : error).

Definition ErrorText (e : error) : string :=
  match e with
  | ErrLockNotAvailable => "lock not available"
  | ErrUniqConstraint => "violate uniq constraint"
  | ErrDeadLock => "dead lock"
  | ErrTxCommitRollback => "commit unexpectedly resulted in rollback"
  | ErrOther msg => msg
  | ErrWrap msg _ => msg
  end.

Fixpoint error_eqb (a b : error) : bool :=
  match a, b with
  | ErrLockNotAvailable, ErrLockNotAvailable => true
  | ErrUniqConstraint, ErrUniqConstraint => true
  | ErrDeadLock, ErrDeadLock => true
  | ErrTxCommitRollback, ErrTxCommitRollback => true
  | ErrOther m, ErrOther n => String.eqb m n
  | ErrWrap m x, ErrWrap n y => String.eqb m n && error_eqb x y
  | _, _ => false
  end.

(** errors.Is(err, target): err or one of the errors it wraps is target. *)
Fixpoint errorsIs (err target : error) : bool :=
  error_eqb err target ||
  match err with
  | ErrWrap _ inner => errorsIs inner target
  | _ => false
  end.

(** A value of type [any] (interface{}): query arguments, column values and
    field values. [AOpaque] stands for any value of another dynamic type. *)
Inductive any : Type :=
| ANil
| AString (s : string)
| AInt (n : Z)
| ABool (b : bool)
| ATime (t : instant)
| AStrings (l : list string)
| AOpaque (tag : nat).

(** What a panic carries. The module is built with go 1.23 (go.mod), where
    panic(nil) raises a runtime.PanicNilError: recover() never yields nil
    while panicking, so the type has no nil. *)
Inductive PanicValue : Type :=
| PanicString (s : string)
| PanicError (e : error)
| PanicOther (v : any).

(** ** The package's constants (src/unnamed/part_000, src/sql/sql.go) *)

Definition PanicPlaceHolderNumberNotMatch := "the number of PlaceHolder must match the number of args".
Definition PanicDeleteSQLMustUseWhere := "delete sql must use where keyword".
Definition PanicSelectSQLMustUseWhere := "select sql must use where keyword".
Definition PanicUpdateSQLMustUseWhere := "update sql must use where keyword".
Definition PanicUpdateSQLMustHaveUpdatedAt := "update sql must have updated_at field".
Definition PanicLockingReadMustUseNowait := "locking read must use nowait".
Definition PanicCommitDespiteErrInTx := "you have executed commit despite there is error in transaction".
Definition PanicQueryNotContanSelect := "select does not contain select".
(** PanicSQLIsSeqScan is the format "sql executed by Seq Scan: %s"; this is
    fmt.Sprintf(PanicSQLIsSeqScan, query). *)
Definition PanicSQLIsSeqScan (query : string) : string := "sql executed by Seq Scan: " ++ query.

Definition PostgresErrCodeLockNotAvailable := "55P03".
Definition PostgresErrCodeInvalidSyntax := "22P02".
Definition PostgresErrCodeUniqConstraint := "23505".
Definition PostgresErrCodeDeadLock := "40P01".

Definition MODE_PRODUCTION := "production".
Definition MODE_DEBUG := "debug".
Definition seqScanCheckDisableClause := "seq scan check disable".
Definition disableWhereCheckClause := "where check disable".

(** The package-level variables the checks read. *)
Record Config : Type := {
  Mode : string;
  useSeqScanCheck : bool;
  useWhereCheck : bool;
  forceNowaitOnLockingRead : bool;
  forceUpdatedAtCheck : bool;
  (** orm.go: log every generated statement *)
  DebugSQL : bool
}.

(** The values the variables are initialised with. *)
Definition defaultConfig : Config := {|
  Mode := MODE_DEBUG;
  useSeqScanCheck := true;
  useWhereCheck := true;
  forceNowaitOnLockingRead := true;
  forceUpdatedAtCheck := true;
  DebugSQL := false
|}.

(** ** The driver and the trace of calls into it *)

Definition TxId := nat.

(** What a HasQuery/HasExec value stands for once it is not nil: the pool
    (the package variable DB) or a transaction. *)
Inductive Conn : Type :=
| Pool
| InTx (tx : TxId).

Inductive LogLevel : Type := LInfo | LDebug | LWarn | LError.

(** One call that leaves the package. *)
Inductive Event : Type :=
| EvBegin
| EvQuery (c : Conn) (query : string) (args : list any)
| EvExec (c : Conn) (query : string) (args : list any)
| EvRowsClose
| EvRollback (tx : TxId)
| EvCommit (tx : TxId)
| EvLog (level : LogLevel) (message : string)
| EvNow.

Definition Trace := list Event.

(** A *sql.Rows cursor: what ColumnTypes() answers, the rows Next() delivers
    before it returns false, and what Err() answers after the loop. *)
Record Rows : Type := {
  rowsColumns : error + list string;
  rowsData : list (list any);
  rowsErr : option error
}.

(** sql.Result. *)
Record ExecResult : Type := {
  LastInsertId : Z;
  RowsAffected : Z
}.

(** The plan explanation as the database prints it: a tree of any depth. *)
Inductive PlanJSON : Type :=
| PlanNode (nodeType : string) (plans : list PlanJSON).

(** Everything outside the repository. The driver's answers may depend on
    the whole history of calls. *)
Record Env : Type := {
  (** strings.ToLower on a text that is not pure ASCII (unicode tables) *)
  unicodeToLower : string -> string;
  (** DB.Begin() *)
  dbBegin : Trace -> error + TxId;
  (** Query and Exec of *sql.DB and *sql.Tx *)
  connQuery : Trace -> Conn -> string -> list any -> error + Rows;
  connExec : Trace -> Conn -> string -> list any -> error + ExecResult;
  txRollback : Trace -> TxId -> option error;
  txCommit : Trace -> TxId -> option error;
  (** database/sql's convertAssign: the destination's current value (it
      carries the destination's type) and the column value *)
  convertAssign : any -> any -> error + any;
  (** the same for a destination of type *string *)
  convertString : any -> error + string;
  (** json.Unmarshal of EXPLAIN's document, before it is cut to the Go type *)
  jsonPlans : string -> error + list PlanJSON;
  (** time.Now() *)
  timeNow : Trace -> instant
}.

(** ** The monad of effects: trace passing with panics *)

Inductive Res (A : Type) : Type :=
| Returned (a : A)
| Panicked (v : PanicValue).
Arguments Returned {A} a.
Arguments Panicked {A} v.

Definition M (A : Type) : Type := Trace -> Res A * Trace.

Definition ret {A} (a : A) : M A := fun t => (Returned a, t).

Definition bind {A B} (c : M A) (k : A -> M B) : M B :=
  fun t =>
    match c t with
    | (Returned a, t') => k a t'
    | (Panicked v, t') => (Panicked v, t')
    end.

Definition panic {A} (v : PanicValue) : M A := fun t => (Panicked v, t).

(** A call that leaves the package: answered from the history so far, then
    recorded. *)
Definition call {A} (ev : Event) (answer : Trace -> A) : M A :=
  fun t => (Returned (answer t), (t ++ [ev])%list).

(** [defer d] around [c]: [d] runs when [c] returns and when it panics. *)
Definition defer {A} (d : M unit) (c : M A) : M A :=
  fun t =>
    match c t with
    | (r, t') =>
      match d t' with
      | (Returned _, t'') => (r, t'')
      | (Panicked v, t'') => (Panicked v, t'')
      end
    end.

Declare Scope go_scope.
Delimit Scope go_scope with go.
Notation "'let*' x ':=' c 'in' k" := (bind c (fun x => k))
  (at level 10, x name, c at level 100, k at level 200) : go_scope.
Open Scope go_scope.

(** ** Go's strings and strconv, as far as the repository calls them *)

Definition isUpperByte (c : ascii) : bool :=
  (65 <=? nat_of_ascii c)%nat && (nat_of_ascii c <=? 90)%nat.

Definition isLowerOrDigitByte (c : ascii) : bool :=
  ((97 <=? nat_of_ascii c)%nat && (nat_of_ascii c <=? 122)%nat) ||
  ((48 <=? nat_of_ascii c)%nat && (nat_of_ascii c <=? 57)%nat).

Definition lowerByte (c : ascii) : ascii :=
  if isUpperByte c then ascii_of_nat (nat_of_ascii c + 32) else c.

Fixpoint isASCII (s : string) : bool :=
  match s with
  | EmptyString => true
  | String c rest => (nat_of_ascii c <? 128)%nat && isASCII rest
  end.

Fixpoint mapBytes (f : ascii -> ascii) (s : string) : string :=
  match s with
  | EmptyString => EmptyString
  | String c rest => String (f c) (mapBytes f rest)
  end.

(** strings.HasPrefix and strings.Contains (byte-wise, case-sensitive). *)
Fixpoint HasPrefix (s prefix : string) : bool :=
  match prefix with
  | EmptyString => true
  | String p prefix' =>
    match s with
    | EmptyString => false
    | String c s' => Ascii.eqb c p && HasPrefix s' prefix'
    end
  end.

Fixpoint Contains (s substr : string) : bool :=
  HasPrefix s substr ||
  match s with
  | EmptyString => false
  | String _ s' => Contains s' substr
  end.

(** strings.Count(s, sep) for a separator of one byte. *)
Fixpoint Count (s : string) (sep : ascii) : nat :=
  match s with
  | EmptyString => 0
  | String c rest => (if Ascii.eqb c sep then 1 else 0) + Count rest sep
  end.

(** strings.Join. *)
Fixpoint Join (elems : list string) (sep : string) : string :=
  match elems with
  | [] => ""
  | [e] => e
  | e :: rest => e ++ sep ++ Join rest sep
  end.

(** strconv.Itoa on a non-negative int. *)
Definition Itoa (n : nat) : string := NilEmpty.string_of_uint (Nat.to_uint n).

(** regexp `\?` with ReplaceAllStringFunc: the closure counts the matches
    from left to right and writes "$" and the count. *)
Fixpoint replaceFrom (query : string) (idx : nat) : string :=
  match query with
  | EmptyString => EmptyString
  | String c rest =>
    if Ascii.eqb c "?"%char
    then ("$" ++ Itoa (S idx)) ++ replaceFrom rest (S idx)
    else String c (replaceFrom rest idx)
  end.

Definition replacePlaceholders (query : string) (startIdx : nat) : string :=
  replaceFrom query startIdx.

(** regexp "([a-z0-9])([A-Z])" with ReplaceAllString(str, "${1}_${2}"):
    leftmost matches that do not overlap. *)
Fixpoint camelToSnake (str : string) : string :=
  match str with
  | EmptyString => EmptyString
  | String a rest =>
    match rest with
    | EmptyString => String a EmptyString
    | String b rest' =>
      if isLowerOrDigitByte a && isUpperByte b
      then String a (String "_"%char (String b (camelToSnake rest')))
      else String a (camelToSnake rest)
    end
  end.

(** ** Records handed to the package by reflection *)

(** One field of a struct: its name, what Tag.Get("database") answers (the
    empty string when the tag is absent), whether the field is exported, and
    its value. *)
Record Field : Type := {
  fieldName : string;
  fieldTag : string;
  fieldExported : bool;
  fieldValue : any
}.

Definition setFieldValue (f : Field) (v : any) : Field :=
  {| fieldName := fieldName f; fieldTag := fieldTag f;
     fieldExported := fieldExported f; fieldValue := v |}.

(** A Go value as reflect sees it: a struct of a named type, a pointer (nil
    or not), or a value of any other kind. *)
Inductive GoValue : Type :=
| VStruct (typeName : string) (fields : list Field)
| VPtr (target : option GoValue)
| VOther (v : any).

(** A slice: nil, or a (possibly empty) sequence. *)
Definition slice (A : Type) : Type := option (list A).

Definition append1 {A} (s : slice A) (x : A) : slice A :=
  match s with
  | None => Some [x]
  | Some l => Some (l ++ [x])%list
  end.

(** ** The Go type Plan (sql.go): a root and ten nested levels of Plans; the
    innermost level has a NodeType only. [PlanLevel 10] is Plan.Plan, and
    [PlanLevel 0] the innermost struct. *)
Fixpoint PlanLevel (n : nat) : Type :=
  match n with
  | O => string
  | S k => (string * list (PlanLevel k))%type
  end.

Definition NodeType {n : nat} : PlanLevel n -> string :=
  match n with
  | O => fun p => p
  | S _ => fun p => fst p
  end.

Definition Plans {n : nat} (p : PlanLevel (S n)) : list (PlanLevel n) := snd p.

Abbreviation Plan := (PlanLevel 10).

(** json.Unmarshal into the Go type: a key the type does not declare is
    dropped, so the Plans under the innermost level are lost. *)
Fixpoint cutPlan (n : nat) (j : PlanJSON) : PlanLevel n :=
  match n with
  | O => match j with PlanNode t _ => t end
  | S k => match j with PlanNode t ps => (t, map (cutPlan k) ps) end
  end.

(** A `for _, x := range l` loop over a mutable local: the body is a state
    transformer, run on each element in order. *)
Definition forRange {A S : Type} (l : list A) (body : A -> S -> S) (s : S) : S :=
  fold_left (fun s a => body a s) l s.

(** slices.Sort on strings: ascending in Go's string order (byte-wise
    lexicographic), the order of [String.leb]. *)
Fixpoint insertSorted (k : string) (l : list string) : list string :=
  match l with
  | [] => [k]
  | x :: rest => if String.leb k x then k :: l else x :: insertSorted k rest
  end.

Definition slicesSort (l : list string) : list string :=
  fold_right insertSorted [] l.

(** * The package, over an environment and a configuration *)

Section Defs.

Variable env : Env.
Variable cfg : Config.

(** strings.ToLower: the ASCII path of the library written out, the Unicode
    path left to the environment. *)
Definition ToLower (s : string) : string :=
  if isASCII s then mapBytes lowerByte s else unicodeToLower env s.

(** src/unnamed/part_001 *)
Definition StrContainWithIgnoreCase (target str : string) : bool :=
  Contains (ToLower target) (ToLower str).

(** ** Calls that leave the package *)

Definition Begin : M (error + TxId) := call EvBegin (dbBegin env).

Definition ConnQuery (c : Conn) (query : string) (args : list any) : M (error + Rows) :=
  call (EvQuery c query args) (fun t => connQuery env t c query args).

Definition ConnExec (c : Conn) (query : string) (args : list any) : M (error + ExecResult) :=
  call (EvExec c query args) (fun t => connExec env t c query args).

Definition Rollback (tx : TxId) : M (option error) :=
  call (EvRollback tx) (fun t => txRollback env t tx).

Definition Commit (tx : TxId) : M (option error) :=
  call (EvCommit tx) (fun t => txCommit env t tx).

Definition RowsClose : M unit := call EvRowsClose (fun _ => tt).

Definition Log (level : LogLevel) (message : string) : M unit :=
  call (EvLog level message) (fun _ => tt).

Definition Now : M instant := call EvNow (timeNow env).

Definition liftRes {A} (r : Res A) : M A := fun t => (r, t).

(** `if tx == nil { tx = DB }` *)
Definition orDB (tx : option Conn) : Conn :=
  match tx with
  | None => Pool
  | Some c => c
  end.

(** ** sql.go *)

Definition isDebugMode : M bool :=
  if String.eqb (Mode cfg) MODE_PRODUCTION then ret false
  else if String.eqb (Mode cfg) MODE_DEBUG then ret true
  else panic (PanicString "invalid Mode").

Definition isAssumedSQLError (err : error) : option error :=
  if Contains (ErrorText err) PostgresErrCodeLockNotAvailable then Some ErrLockNotAvailable
  else if Contains (ErrorText err) PostgresErrCodeUniqConstraint then Some ErrUniqConstraint
  else if Contains (ErrorText err) PostgresErrCodeDeadLock then Some ErrDeadLock
  else None.

(** fmt.Sprintf("query failed: %s, failed query: %s", err, query) *)
Definition queryFailed (err : error) (query : string) : string :=
  "query failed: " ++ ErrorText err ++ ", failed query: " ++ query.

(** Query, first loop: the map from column name to the address of the
    field (its index in the struct); a later field with the same tag
    overwrites the entry. Interface() panics on a field that is not
    exported. *)
Fixpoint buildFieldMap (fields : list Field) (i : nat) (m : gmap string nat)
  : Res (gmap string nat) :=
  match fields with
  | [] => Returned m
  | f :: rest =>
    if String.eqb (fieldTag f) ""
    then Panicked (PanicString (fieldName f ++ " has no database label."))
    else if negb (fieldExported f)
    then Panicked (PanicString "reflect.Value.Interface: cannot return value obtained from unexported field or method")
    else buildFieldMap rest (S i) (<[fieldTag f := i]> m)
  end.

(** Query, second loop: one destination per result column, in the
    driver's order. *)
Fixpoint resolveColumns (m : gmap string nat) (ct : list string) : Res (list nat) :=
  match ct with
  | [] => Returned []
  | c :: rest =>
    match m !! c with
    | None => Panicked (PanicString ("model does not have result field: " ++ c))
    | Some addr =>
      match resolveColumns m rest with
      | Returned ptrs => Returned (addr :: ptrs)
      | Panicked v => Panicked v
      end
    end
  end.

(** rows.Scan(dest...): the destinations are written one after the other,
    through their addresses; the first conversion that fails ends the scan.
    (database/sql's error text goes on with the column's name.) *)
Fixpoint scanColumns (dest : list nat) (row : list any) (i : nat)
  (structValue : list Field) : error + list Field :=
  match dest, row with
  | d :: dest', sv :: row' =>
    match structValue !! d with
    | None => inr structValue
    | Some f =>
      match convertAssign env (fieldValue f) sv with
      | inl err => inl (ErrWrap ("sql: Scan error on column index " ++ Itoa i) err)
      | inr v => scanColumns dest' row' (S i) (<[d := setFieldValue f v]> structValue)
      end
    end
  | _, _ => inr structValue
  end.

Definition Scan (dest : list nat) (row : list any) (structValue : list Field)
  : error + list Field :=
  if (length dest =? length row)%nat
  then scanColumns dest row 0 structValue
  else inl (ErrOther ("sql: expected " ++ Itoa (length row) ++
                      " destination arguments in Scan, not " ++ Itoa (length dest))).

(** Query, the loop over rows.Next(): [structValue] and [r] are the two
    locals the body updates. *)
Fixpoint rowsLoop (typeName : string) (mp : list Field) (dest : list nat)
  (data : list (list any)) (structValue : list Field) (r : slice GoValue)
  : Res (slice GoValue) :=
  match data with
  | [] => Returned r
  | row :: rest =>
    let structValue := mp in
    match Scan dest row structValue with
    | inl err => Panicked (PanicError err)
    | inr structValue =>
      rowsLoop typeName mp dest rest structValue (append1 r (VStruct typeName structValue))
    end
  end.

(** CheckSeqScan, the loop over rows.Next() with rows.Scan(&s). *)
Definition ScanString (row : list any) : error + string :=
  match row with
  | [sv] =>
    match convertString env sv with
    | inl err => inl (ErrWrap "sql: Scan error on column index 0" err)
    | inr s => inr s
    end
  | _ => inl (ErrOther ("sql: expected " ++ Itoa (length row) ++
                        " destination arguments in Scan, not 1"))
  end.

Fixpoint explainLoop (data : list (list any)) (r : list string) : Res (list string) :=
  match data with
  | [] => Returned r
  | row :: rest =>
    match ScanString row with
    | inl err => Panicked (PanicError err)
    | inr s => explainLoop rest (r ++ [s])%list
    end
  end.

(** CheckSeqScan, the ten nested loops; [plansHaveSeqScan] is the flag they
    set. [loop1] ranges over p[0].Plan.Plans (ps1), [loop10] over ps9.Plans. *)
Definition markSeqScan (nodeType : string) (plansHaveSeqScan : bool) : bool :=
  if StrContainWithIgnoreCase nodeType "Seq Scan" then true else plansHaveSeqScan.

Definition loop10 (plans : list (PlanLevel 0)) : bool -> bool :=
  forRange plans (fun ps10 flag => markSeqScan (NodeType ps10) flag).
Definition loop9 (plans : list (PlanLevel 1)) : bool -> bool :=
  forRange plans (fun ps9 flag => loop10 (Plans ps9) (markSeqScan (NodeType ps9) flag)).
Definition loop8 (plans : list (PlanLevel 2)) : bool -> bool :=
  forRange plans (fun ps8 flag => loop9 (Plans ps8) (markSeqScan (NodeType ps8) flag)).
Definition loop7 (plans : list (PlanLevel 3)) : bool -> bool :=
  forRange plans (fun ps7 flag => loop8 (Plans ps7) (markSeqScan (NodeType ps7) flag)).
Definition loop6 (plans : list (PlanLevel 4)) : bool -> bool :=
  forRange plans (fun ps6 flag => loop7 (Plans ps6) (markSeqScan (NodeType ps6) flag)).
Definition loop5 (plans : list (PlanLevel 5)) : bool -> bool :=
  forRange plans (fun ps5 flag => loop6 (Plans ps5) (markSeqScan (NodeType ps5) flag)).
Definition loop4 (plans : list (PlanLevel 6)) : bool -> bool :=
  forRange plans (fun ps4 flag => loop5 (Plans ps4) (markSeqScan (NodeType ps4) flag)).
Definition loop3 (plans : list (PlanLevel 7)) : bool -> bool :=
  forRange plans (fun ps3 flag => loop4 (Plans ps3) (markSeqScan (NodeType ps3) flag)).
Definition loop2 (plans : list (PlanLevel 8)) : bool -> bool :=
  forRange plans (fun ps2 flag => loop3 (Plans ps2) (markSeqScan (NodeType ps2) flag)).
Definition loop1 (plans : list (PlanLevel 9)) : bool -> bool :=
  forRange plans (fun ps1 flag => loop2 (Plans ps1) (markSeqScan (NodeType ps1) flag)).

(** The decision at the end of CheckSeqScan, on the decoded p[0]. *)
Definition planHasSeqScan (p0 : Plan) : bool :=
  let plansHaveSeqScan := loop1 (Plans p0) false in
  StrContainWithIgnoreCase (NodeType p0) "Seq Scan" || plansHaveSeqScan.

Definition CheckSeqScan (query : string) (args : list any) : M bool :=
  if negb (useSeqScanCheck cfg) || StrContainWithIgnoreCase query seqScanCheckDisableClause
  then ret true
  else
  let* debug := isDebugMode in
  if negb debug then panic (PanicString "not use this function without debug mode") else
  let* began := Begin in
  match began with
  | inl err => panic (PanicError err)
  | inr tx =>
    let* set := ConnExec (InTx tx) "SET LOCAL enable_seqscan TO 'off'" [] in
    match set with
    | inl err => panic (PanicString ("SET exec failed: " ++ ErrorText err))
    | inr _ =>
      let* explained :=
        ConnQuery (InTx tx) ("EXPLAIN (ANALYZE false, FORMAT json) " ++ query) args in
      match explained with
      | inl err => panic (PanicString (queryFailed err query))
      | inr rows =>
        defer RowsClose (
          let* r := liftRes (explainLoop (rowsData rows) []) in
          match rowsErr rows with
          | Some err => panic (PanicError err)
          | None =>
            let* rolled := Rollback tx in
            match rolled with
            | Some err => panic (PanicError err)
            | None =>
              match r with
              | [doc] =>
                match jsonPlans env doc with
                | inl err => panic (PanicError err)
                | inr [j] =>
                  (* the second Unmarshal, into []map[string]any, reads the
                     document the first one accepted (an array of objects):
                     it succeeds, and its result is dropped *)
                  if planHasSeqScan (cutPlan 10 j) then ret false else ret true
                | inr _ => panic (PanicString "explain result json is not 1 child")
                end
              | _ => panic (PanicString "explain result is not 1 row")
              end
            end
          end)
      end
    end
  end.

(** Query[M](tx, mp, query, args...): the pair is Go's ([]M, error). *)
Definition Query (tx : option Conn) (mp : option GoValue) (query : string)
  (args : list any) : M (slice GoValue * option error) :=
  match mp with
  | None => panic (PanicString "arg mp must not be null")
  | Some model =>
    if negb (Count query "$"%char =? length args)%nat
    then panic (PanicString PanicPlaceHolderNumberNotMatch)
    else if negb (StrContainWithIgnoreCase query "SELECT ")
    then panic (PanicString PanicQueryNotContanSelect)
    else if useWhereCheck cfg
            && negb (StrContainWithIgnoreCase query " WHERE ")
            && negb (StrContainWithIgnoreCase query disableWhereCheckClause)
    then panic (PanicString PanicSelectSQLMustUseWhere)
    else if forceNowaitOnLockingRead cfg
            && (StrContainWithIgnoreCase query " FOR SELECT"
                || StrContainWithIgnoreCase query " FOR UPDATE")
            && negb (StrContainWithIgnoreCase query " NOWAIT")
    then panic (PanicString PanicLockingReadMustUseNowait)
    else
    let* answer := ConnQuery (orDB tx) query args in
    match answer with
    | inl err =>
      match isAssumedSQLError err with
      | Some e => ret (None, Some e)
      | None => panic (PanicString (queryFailed err query))
      end
    | inr rows =>
      defer RowsClose (
        match model with
        | VStruct typeName fields =>
          let structValue := fields in
          let* structFieldNameToTypeMap := liftRes (buildFieldMap structValue 0 ∅) in
          match rowsColumns rows with
          | inl err => panic (PanicError err)
          | inr ct =>
            let* structFieldValuePtrInterfaces :=
              liftRes (resolveColumns structFieldNameToTypeMap ct) in
            let* r := liftRes (rowsLoop typeName fields structFieldValuePtrInterfaces
                                 (rowsData rows) structValue (Some [])) in
            match rowsErr rows with
            | Some err => panic (PanicError err)
            | None =>
              let* debug := isDebugMode in
              if debug
              then
                let* ok := CheckSeqScan query args in
                if negb ok
                then panic (PanicString (PanicSQLIsSeqScan query))
                else ret (r, None)
              else ret (r, None)
            end
          end
        | _ => panic (PanicString "model mubt be struct.")
        end)
    end
  end.

(** QueryFirst: the pointer result is nil ([None]) or the first record. *)
Definition QueryFirst (tx : option Conn) (mp : option GoValue) (query : string)
  (args : list any) : M (option GoValue * option error) :=
  let* answer := Query tx mp query args in
  match answer with
  | (_, Some err) => ret (None, Some err)
  | (result, None) =>
    match result with
    | Some (first :: _) => ret (Some first, None)
    | _ => ret (None, None)
    end
  end.

(** Exec, from `if tx == nil` on: the statement goes to the driver, then to
    the plan audit. *)
Definition execStatement (tx : option Conn) (query : string) (args : list any)
  : M (option ExecResult * option error) :=
  let* answer := ConnExec (orDB tx) query args in
  match answer with
  | inl err =>
    match isAssumedSQLError err with
    | Some e => ret (None, Some e)
    | None => panic (PanicString (queryFailed err query))
    end
  | inr result =>
    let* debug := isDebugMode in
    if debug
    then
      let* ok := CheckSeqScan query args in
      if negb ok
      then panic (PanicString (PanicSQLIsSeqScan query))
      else ret (Some result, None)
    else ret (Some result, None)
  end.

(** Exec(tx, query, args...): the pair is Go's (sql.Result, error). *)
Definition Exec (tx : option Conn) (query : string) (args : list any)
  : M (option ExecResult * option error) :=
  if negb (Count query "$"%char =? length args)%nat
  then panic (PanicString PanicPlaceHolderNumberNotMatch)
  else if useWhereCheck cfg
          && StrContainWithIgnoreCase query "DELETE "
          && negb (StrContainWithIgnoreCase query " WHERE ")
          && negb (StrContainWithIgnoreCase query disableWhereCheckClause)
  then panic (PanicString PanicDeleteSQLMustUseWhere)
  else if StrContainWithIgnoreCase query "UPDATE "
  then
    if useWhereCheck cfg
       && negb (StrContainWithIgnoreCase query " WHERE ")
       && negb (StrContainWithIgnoreCase query disableWhereCheckClause)
    then panic (PanicString PanicUpdateSQLMustUseWhere)
    else if forceUpdatedAtCheck cfg
            && negb (StrContainWithIgnoreCase query "updated_at")
    then panic (PanicString PanicUpdateSQLMustHaveUpdatedAt)
    else execStatement tx query args
  else execStatement tx query args.

(** A deferred function that calls recover(): [handler] runs on the value
    of a panic of [c]; without a panic recover() yields nil and the deferred
    function does nothing. *)
Definition deferRecover {A} (c : M A) (handler : PanicValue -> M A) : M A :=
  fun t =>
    match c t with
    | (Returned a, t') => (Returned a, t')
    | (Panicked r, t') => handler r t'
    end.

Definition doAndRecover (tx : TxId) (f : TxId -> M (option error)) : M (option error) :=
  deferRecover (f tx) (fun r =>
    let* _ := Log LWarn "rollback start because panic occured" in
    let* rolled := Rollback tx in
    match rolled with
    | Some err => panic (PanicError err)
    | None =>
      let* _ := Log LWarn "rollback end" in
      panic r
    end).

Definition Transaction (f : TxId -> M (option error)) : M (option error) :=
  let* began := Begin in
  match began with
  | inl err => panic (PanicError err)
  | inr tx =>
    let* result := doAndRecover tx f in
    match result with
    | Some err =>
      let* _ := Log LInfo "rollback start" in
      let* rolled := Rollback tx in
      match rolled with
      | Some err' => panic (PanicError err')
      | None =>
        let* _ := Log LInfo "rollback end" in
        ret (Some err)
      end
    | None =>
      let* committed := Commit tx in
      match committed with
      | Some err =>
        if errorsIs err ErrTxCommitRollback
        then panic (PanicString PanicCommitDespiteErrInTx)
        else panic (PanicError err)
      | None => ret None
      end
    end
  end.

(** ** orm.go *)

(** toTableName: CamelCase to snake_case, lower-cased, with "s" appended. *)
Definition toTableName (str : string) : string :=
  ToLower (camelToSnake str) ++ "s".

(** checkAndGetStructValue: one pointer is followed; the result is the
    struct's type name and fields. *)
Definition checkAndGetStructValue (s : GoValue) : Res (string * list Field) :=
  let rv :=
    match s with
    | VPtr (Some target) => target
    | VPtr None => VOther ANil
    | _ => s
    end in
  match rv with
  | VStruct typeName fields => Returned (typeName, fields)
  | _ => Panicked (PanicString "must be a struct")
  end.

Definition debugSQL (sql : string) (values : list any) : M unit :=
  if DebugSQL cfg then Log LDebug sql else ret tt.

(** getOrderedKeys: the keys as `range` delivers them ([rangeOrder], which
    the runtime chooses), then slices.Sort. *)
Definition getOrderedKeys (s : gmap string any) (rangeOrder : list string) : list string :=
  let keys := forRange rangeOrder (fun key keys => (keys ++ [key])%list) [] in
  slicesSort keys.

(** getUpdateSQL, the loop `for i, setValue := range setValues`. *)
Definition rewriteNow (now : instant) (setValues : list any) (values : list any) : list any :=
  forRange (combine (seq 0 (length setValues)) setValues)
    (fun '(i, setValue) values =>
       match setValue with
       | AString strVal => if String.eqb strVal "NOW" then <[i := ATime now]> values else values
       | _ => values
       end) values.

Definition getUpdateSQL (s : GoValue) (whereClauses : list string) (whereValues : list any)
  (setClauses : list string) (setValues : list any) : M (string * list any) :=
  let* rv := liftRes (checkAndGetStructValue s) in
  let* now := Now in
  let setClauses2 := setClauses in
  let values := setValues in
  let values := rewriteNow now setValues values in
  let setClauses2 := (setClauses2 ++ ["updated_at = ?"])%list in
  let values := (values ++ [ATime now])%list in
  let values := (values ++ whereValues)%list in
  let whereClause :=
    if (0 <? length whereClauses)%nat
    then " WHERE " ++ Join whereClauses " AND "
    else "" in
  let tableName := toTableName (fst rv) in
  let query := "UPDATE " ++ tableName ++ " SET " ++ Join setClauses2 ", " ++ whereClause in
  let query := replacePlaceholders query 0 in
  ret (query, values).

(** Update, up to the call of getUpdateSQL: the set-clauses and set-values
    in the order of the sorted keys (a missing key reads as nil). *)
Definition updateSets (setMaps : gmap string any) (rangeOrder : list string)
  : list string * list any :=
  let setField := getOrderedKeys setMaps rangeOrder in
  forRange setField
    (fun field '(setClauses, setValues) =>
       ((setClauses ++ [(field ++ " = ?")%string])%list,
        (setValues ++ [default ANil (setMaps !! field)])%list))
    ([], []).

Definition Update (tx : option Conn) (s : GoValue) (whereClauses : list string)
  (whereValues : list any) (setMaps : gmap string any) (rangeOrder : list string)
  : M (option ExecResult * option error) :=
  let '(setClauses, setValues) := updateSets setMaps rangeOrder in
  let* built := getUpdateSQL s whereClauses whereValues setClauses setValues in
  let '(sql, setValues) := built in
  let* _ := debugSQL sql setValues in
  Exec tx sql setValues.

Definition UpdateWithClauses (tx : option Conn) (s : GoValue) (whereClauses : list string)
  (whereValues : list any) (setClauses : list string) (setValues : list any)
  : M (option ExecResult * option error) :=
  let* built := getUpdateSQL s whereClauses whereValues setClauses setValues in
  let '(sql, values) := built in
  let* _ := debugSQL sql values in
  Exec tx sql values.

End Defs.

(** * The rest of orm.go and of the helpers *)

(** slices.Contains on strings. *)
Definition slicesContains (s : list string) (v : string) : bool :=
  existsb (String.eqb v) s.

(** The one-byte string of a double quote, which the builders put around
    a column name. *)
Definition doubleQuote : string :=
  String (Ascii false true false false false true false false) EmptyString.

(** ** Records as the insert builders read them

    getInsertSQL and getBulkInsertSQL ask reflect for the Kind() of each
    field: a field of pointer kind is nil or points to a value, a field of
    any other kind holds its value. *)
Inductive FieldContent : Type :=
| Plain (v : any)
| Pointer (target : option any).

(** One field of a struct handed to an insert builder: what
    Tag.Get("database") answers, whether the field is exported, and its
    content. *)
Record InsertField : Type := {
  insertTag : string;
  insertExported : bool;
  insertContent : FieldContent
}.

(** A value handed to an insert builder, as reflect sees it. *)
Inductive Item : Type :=
| ItemStruct (typeName : string) (fields : list InsertField)
| ItemPtr (target : option Item)
| ItemOther (v : any).

(** checkAndGetStructValue, on a value handed to an insert builder. *)
Definition checkAndGetStructValue' (s : Item) : Res (string * list InsertField) :=
  let rv :=
    match s with
    | ItemPtr (Some target) => target
    | ItemPtr None => ItemOther ANil
    | _ => s
    end in
  match rv with
  | ItemStruct typeName fields => Returned (typeName, fields)
  | _ => Panicked (PanicString "must be a struct")
  end.

(** The value the builders bind for rv.Field(i): nil for a nil pointer,
    Elem().Interface() for another pointer, Interface() for another kind.
    Interface() panics on a value obtained from a field that is not
    exported. *)
Definition fieldInterface (f : InsertField) : Res any :=
  match insertContent f with
  | Pointer target =>
    match target with
    | None => Returned ANil
    | Some v =>
      if insertExported f then Returned v
      else Panicked (PanicString "reflect.Value.Interface: cannot return value obtained from unexported field or method")
    end
  | Plain v =>
    if insertExported f then Returned v
    else Panicked (PanicString "reflect.Value.Interface: cannot return value obtained from unexported field or method")
  end.

(** getInsertSQL, the loop `for i := range rt.NumField()`: [fields] and
    [values] are the two locals it appends to. *)
Fixpoint insertLoop (ignores : list string) (rest : list InsertField)
  (fields : list string) (values : list any) : Res (list string * list any) :=
  match rest with
  | [] => Returned (fields, values)
  | f :: rest' =>
    let fieldName := insertTag f in
    if slicesContains ignores fieldName
    then insertLoop ignores rest' fields values
    else
      let fields := (fields ++ [(doubleQuote ++ fieldName ++ doubleQuote)%string])%list in
      match fieldInterface f with
      | Panicked v => Panicked v
      | Returned v => insertLoop ignores rest' fields (values ++ [v])%list
      end
  end.

(** getBulkInsertSQL, the loop `for i := 0; i < rt.NumField(); i++`. *)
Fixpoint bulkColumns (ignores : list string) (rest : list InsertField) (i : nat)
  (fields : list string) (fieldIndices : list nat) : list string * list nat :=
  match rest with
  | [] => (fields, fieldIndices)
  | f :: rest' =>
    let fieldName := insertTag f in
    if slicesContains ignores fieldName
    then bulkColumns ignores rest' (S i) fields fieldIndices
    else bulkColumns ignores rest' (S i)
           (fields ++ [(doubleQuote ++ fieldName ++ doubleQuote)%string])%list
           (fieldIndices ++ [i])%list
  end.

(** getBulkInsertSQL, the loop `for _, idx := range fieldIndices` on one
    item: [placeholders], [values] and [paramCount] are the locals it
    updates. rv.Field(idx) panics when the struct has no such field. *)
Fixpoint bulkFields (rv : list InsertField) (fieldIndices : list nat)
  (placeholders : list string) (values : list any) (paramCount : nat)
  : Res (list string * list any * nat) :=
  match fieldIndices with
  | [] => Returned (placeholders, values, paramCount)
  | idx :: rest =>
    let placeholders := (placeholders ++ [("$" ++ Itoa paramCount)%string])%list in
    let paramCount := S paramCount in
    match rv !! idx with
    | None => Panicked (PanicString "reflect: Field index out of range")
    | Some f =>
      match fieldInterface f with
      | Panicked v => Panicked v
      | Returned v => bulkFields rv rest placeholders (values ++ [v])%list paramCount
      end
    end
  end.

(** getBulkInsertSQL, the loop `for _, item := range items`. *)
Fixpoint bulkItems (fieldIndices : list nat) (items : list Item)
  (valueGroups : list string) (values : list any) (paramCount : nat)
  : Res (list string * list any * nat) :=
  match items with
  | [] => Returned (valueGroups, values, paramCount)
  | item :: rest =>
    match checkAndGetStructValue' item with
    | Panicked v => Panicked v
    | Returned rv =>
      let placeholders := [] in
      match bulkFields (snd rv) fieldIndices placeholders values paramCount with
      | Panicked v => Panicked v
      | Returned (placeholders, values, paramCount) =>
        bulkItems fieldIndices rest
          (valueGroups ++ [("(" ++ Join placeholders ", " ++ ")")%string])%list values paramCount
      end
    end
  end.

Section Builders.

Variable env : Env.
Variable cfg : Config.

(** src/unnamed/part_001 *)
Fixpoint StrContainListWithIgnoreCase (target : string) (str : list string) : bool :=
  match str with
  | [] => false
  | s :: rest =>
    if StrContainWithIgnoreCase env target s then true
    else StrContainListWithIgnoreCase target rest
  end.

(** getQuerySQL: [limitOffset] is a map or nil ([None]); a nil slice of
    clauses is the empty list. *)
Definition getQuerySQL (s : GoValue) (whereClauses : list string) (whereValues : list any)
  (orderByClauses : list string) (limitOffset : option (gmap string Z))
  : Res (string * list any) :=
  match checkAndGetStructValue s with
  | Panicked v => Panicked v
  | Returned rv =>
    let values := [] in
    let values := (values ++ whereValues)%list in
    let whereClause :=
      if (0 <? length whereClauses)%nat
      then " WHERE " ++ Join whereClauses " AND "
      else "" in
    let orderByClause :=
      if (0 <? length orderByClauses)%nat
      then " ORDER BY " ++ Join orderByClauses ", "
      else "" in
    let '(limitClause, offsetClause, values) :=
      match limitOffset with
      | None => ("", "", values)
      | Some m =>
        let '(limitClause, values) :=
          match m !! "limit" with
          | Some limit => (" LIMIT ?", (values ++ [AInt limit])%list)
          | None => ("", values)
          end in
        let '(offsetClause, values) :=
          match m !! "offset" with
          | Some offset => (" OFFSET ?", (values ++ [AInt offset])%list)
          | None => ("", values)
          end in
        (limitClause, offsetClause, values)
      end in
    let tableName := toTableName env (fst rv) in
    let query := "SELECT * FROM " ++ tableName ++ whereClause ++ orderByClause
                 ++ limitClause ++ offsetClause in
    let query := replacePlaceholders query 0 in
    Returned (query, values)
  end.

(** First, FirstLimit, Find, FindLimit: the builders get the pointer [mp]
    itself, as an `any`. *)
Definition First (tx : option Conn) (mp : option GoValue) (whereClauses : list string)
  (whereValues : list any) : M (option GoValue * option error) :=
  let* built := liftRes (getQuerySQL (VPtr mp) whereClauses whereValues [] None) in
  let '(sql, values) := built in
  let* _ := debugSQL cfg sql values in
  QueryFirst env cfg tx mp sql values.

Definition FirstLimit (tx : option Conn) (mp : option GoValue) (whereClauses : list string)
  (whereValues : list any) (orderByClauses : list string)
  (limitOffset : option (gmap string Z)) : M (option GoValue * option error) :=
  let* built :=
    liftRes (getQuerySQL (VPtr mp) whereClauses whereValues orderByClauses limitOffset) in
  let '(sql, values) := built in
  let* _ := debugSQL cfg sql values in
  QueryFirst env cfg tx mp sql values.

Definition Find (tx : option Conn) (mp : option GoValue) (whereClauses : list string)
  (whereValues : list any) : M (slice GoValue * option error) :=
  let* built := liftRes (getQuerySQL (VPtr mp) whereClauses whereValues [] None) in
  let '(sql, values) := built in
  let* _ := debugSQL cfg sql values in
  Query env cfg tx mp sql values.

Definition FindLimit (tx : option Conn) (mp : option GoValue) (whereClauses : list string)
  (whereValues : list any) (orderByClauses : list string)
  (limitOffset : option (gmap string Z)) : M (slice GoValue * option error) :=
  let* built :=
    liftRes (getQuerySQL (VPtr mp) whereClauses whereValues orderByClauses limitOffset) in
  let '(sql, values) := built in
  let* _ := debugSQL cfg sql values in
  Query env cfg tx mp sql values.

Definition getDeleteSQL (s : GoValue) (whereClauses : list string) : Res string :=
  match checkAndGetStructValue s with
  | Panicked v => Panicked v
  | Returned rv =>
    let whereClause :=
      if (0 <? length whereClauses)%nat
      then " WHERE " ++ Join whereClauses " AND "
      else "" in
    let tableName := toTableName env (fst rv) in
    let query := "DELETE FROM " ++ tableName ++ whereClause in
    let query := replacePlaceholders query 0 in
    Returned query
  end.

Definition Delete (tx : option Conn) (s : GoValue) (whereClauses : list string)
  (whereValues : list any) : M (option ExecResult * option error) :=
  let* sql := liftRes (getDeleteSQL s whereClauses) in
  let* _ := debugSQL cfg sql whereValues in
  Exec env cfg tx sql whereValues.

Definition getInsertSQL (s : Item) (ignores : list string) : Res (string * list any) :=
  match checkAndGetStructValue' s with
  | Panicked v => Panicked v
  | Returned rv =>
    match insertLoop ignores (snd rv) [] [] with
    | Panicked v => Panicked v
    | Returned (fields, values) =>
      let tableName := toTableName env (fst rv) in
      let query := "INSERT INTO " ++ tableName ++ " (" ++ Join fields ", " ++ ") VALUES (" in
      let placeholders :=
        forRange (seq 0 (length values))
          (fun i placeholders => (placeholders ++ [("$" ++ Itoa (i + 1))%string])%list) [] in
      let query := query ++ (Join placeholders ", " ++ ")") in
      Returned (query, values)
    end
  end.

(** getBulkInsertSQL: the values are a slice or nil ([None]). *)
Definition getBulkInsertSQL (items : list Item) (ignores : list string)
  : Res (string * slice any) :=
  match items with
  | [] => Returned ("", None)
  | item0 :: _ =>
    match checkAndGetStructValue' item0 with
    | Panicked v => Panicked v
    | Returned rv =>
      let '(fields, fieldIndices) := bulkColumns ignores (snd rv) 0 [] [] in
      let tableName := toTableName env (fst rv) in
      let query := "INSERT INTO " ++ tableName ++ " (" ++ Join fields ", " ++ ") VALUES " in
      match bulkItems fieldIndices items [] [] 1 with
      | Panicked v => Panicked v
      | Returned (valueGroups, values, _) =>
        let query := query ++ Join valueGroups ", " in
        Returned (query, Some values)
      end
    end
  end.

(** `values...` on a slice that may be nil. *)
Definition spread {A} (s : slice A) : list A := default [] s.

Definition Insert (tx : option Conn) (s : Item) : M (option ExecResult * option error) :=
  let* built := liftRes (getInsertSQL s ["id"; "created_at"; "updated_at"]) in
  let '(sql, values) := built in
  let* _ := debugSQL cfg sql values in
  Exec env cfg tx sql values.

Definition InsertBulk (tx : option Conn) (items : list Item)
  : M (option ExecResult * option error) :=
  if (length items =? 0)%nat then ret (None, None) else
  let* built := liftRes (getBulkInsertSQL items ["id"; "created_at"; "updated_at"]) in
  let '(sql, values) := built in
  let* _ := debugSQL cfg sql (spread values) in
  Exec env cfg tx sql (spread values).

Definition InsertWithIgnores (tx : option Conn) (s : Item) (ignores : list string)
  : M (option ExecResult * option error) :=
  let* built := liftRes (getInsertSQL s ignores) in
  let '(sql, values) := built in
  let* _ := debugSQL cfg sql values in
  Exec env cfg tx sql values.

Definition InsertBulkWithIgnores (tx : option Conn) (items : list Item)
  (ignores : list string) : M (option ExecResult * option error) :=
  if (length items =? 0)%nat then ret (None, None) else
  let* built := liftRes (getBulkInsertSQL items ignores) in
  let '(sql, values) := built in
  let* _ := debugSQL cfg sql (spread values) in
  Exec env cfg tx sql (spread values).

End Builders.

(** * Vocabulary of the properties *)

(** A computation only adds to the trace: the calls made before it stay as
    they were. *)
Definition Extends {A} (c : M A) : Prop :=
  forall t, exists evs, snd (c t) = (t ++ evs)%list.

(** Go's order on strings, as a proposition. *)
Definition stringLe (a b : string) : Prop := String.leb a b = true.

(** [order] is a way `range` can deliver the keys of the map [m]: every key
    once, in any order. *)
Definition IterationOf (m : gmap string any) (order : list string) : Prop :=
  NoDup order /\ forall k, In k order <-> is_Some (m !! k).

(** What getUpdateSQL binds for a set-value: the captured instant for the
    string "NOW", the value itself otherwise. *)
Definition sentinelToNow (now : instant) (v : any) : any :=
  match v with
  | AString s => if String.eqb s "NOW" then ATime now else v
  | _ => v
  end.

(** The set-clause Update writes for a key of the map. *)
Definition setClauseOf (field : string) : string := field ++ " = ?".

(** The plan [j] has a node whose kind contains "Seq Scan" (without regard
    to case) at its root or at most [depth] levels below it. *)
Fixpoint seqScanWithin (env : Env) (depth : nat) (j : PlanJSON) : bool :=
  match j with
  | PlanNode nodeType plans =>
    StrContainWithIgnoreCase env nodeType "Seq Scan" ||
    match depth with
    | O => false
    | S d => existsb (seqScanWithin env d) plans
    end
  end.

(** The nested loops of CheckSeqScan, from the level with [n] levels below
    it: [loopAt env 9] is [loop1] and [loopAt env 0] is [loop10]. *)
Fixpoint loopAt (env : Env) (n : nat) : list (PlanLevel n) -> bool -> bool :=
  match n with
  | O => fun plans =>
    forRange plans (fun p flag => markSeqScan env (NodeType p) flag)
  | S k => fun plans =>
    forRange plans (fun p flag => loopAt env k (Plans p) (markSeqScan env (NodeType p) flag))
  end.

(** The calls CheckSeqScan makes when nothing fails. *)
Definition auditTrace (tx : TxId) (query : string) (args : list any) : list Event :=
  [EvBegin;
   EvExec (InTx tx) "SET LOCAL enable_seqscan TO 'off'" [];
   EvQuery (InTx tx) ("EXPLAIN (ANALYZE false, FORMAT json) " ++ query) args;
   EvRollback tx;
   EvRowsClose].

(** After the history [t], the database serves the audit of [query]: it
    opens the transaction [tx], accepts the SET, answers EXPLAIN with one row
    of one document that decodes to the single plan [j], and rolls back. *)
Definition AuditReads (env : Env) (query : string) (args : list any) (t : Trace)
  (tx : TxId) (j : PlanJSON) : Prop :=
  dbBegin env t = inr tx
  /\ (exists res,
        connExec env (t ++ [EvBegin])%list (InTx tx)
          "SET LOCAL enable_seqscan TO 'off'" [] = inr res)
  /\ exists rows doc,
       connQuery env
         (t ++ [EvBegin; EvExec (InTx tx) "SET LOCAL enable_seqscan TO 'off'" []])%list
         (InTx tx) ("EXPLAIN (ANALYZE false, FORMAT json) " ++ query) args = inr rows
       /\ explainLoop env (rowsData rows) [] = Returned [doc]
       /\ rowsErr rows = None
       /\ txRollback env
            (t ++ [EvBegin; EvExec (InTx tx) "SET LOCAL enable_seqscan TO 'off'" [];
                   EvQuery (InTx tx) ("EXPLAIN (ANALYZE false, FORMAT json) " ++ query)
                     args])%list tx = None
       /\ jsonPlans env doc = inr [j].

(** The outcome of the four checks at the head of Query: the text of the
    panic, or [None] when the statement goes on to the driver. *)
Definition queryChecks (env : Env) (cfg : Config) (query : string) (args : list any)
  : option string :=
  if negb (Count query "$"%char =? length args)%nat
  then Some PanicPlaceHolderNumberNotMatch
  else if negb (StrContainWithIgnoreCase env query "SELECT ")
  then Some PanicQueryNotContanSelect
  else if useWhereCheck cfg
          && negb (StrContainWithIgnoreCase env query " WHERE ")
          && negb (StrContainWithIgnoreCase env query disableWhereCheckClause)
  then Some PanicSelectSQLMustUseWhere
  else if forceNowaitOnLockingRead cfg
          && (StrContainWithIgnoreCase env query " FOR SELECT"
              || StrContainWithIgnoreCase env query " FOR UPDATE")
          && negb (StrContainWithIgnoreCase env query " NOWAIT")
  then Some PanicLockingReadMustUseNowait
  else None.

(** The part of Query between the driver's answer and the plan audit, as a
    function of the model and the cursor: the records, or the panic. *)
Definition materialize (env : Env) (model : GoValue) (rows : Rows) : Res (slice GoValue) :=
  match model with
  | VStruct typeName fields =>
    match buildFieldMap fields 0 ∅ with
    | Panicked v => Panicked v
    | Returned m =>
      match rowsColumns rows with
      | inl err => Panicked (PanicError err)
      | inr ct =>
        match resolveColumns m ct with
        | Panicked v => Panicked v
        | Returned dest =>
          match rowsLoop env typeName fields dest (rowsData rows) fields (Some []) with
          | Panicked v => Panicked v
          | Returned r =>
            match rowsErr rows with
            | Some err => Panicked (PanicError err)
            | None => Returned r
            end
          end
        end
      end
    end
  | _ => Panicked (PanicString "model mubt be struct.")
  end.





(** Every clause followed by the separator: what strings.Join writes
    before the last element. *)
Fixpoint eachThen (sep : string) (elems : list string) : string :=
  match elems with
  | [] => ""
  | e :: rest => e ++ sep ++ eachThen sep rest
  end.

(** ** Configurations with one variable changed *)



Definition withMode (m : string) (cfg : Config) : Config := {|
  Mode := m;
  useSeqScanCheck := useSeqScanCheck cfg;
  useWhereCheck := useWhereCheck cfg;
  forceNowaitOnLockingRead := forceNowaitOnLockingRead cfg;
  forceUpdatedAtCheck := forceUpdatedAtCheck cfg;
  DebugSQL := DebugSQL cfg
|}.

(** ** A database for the examples

    It opens transaction 1, answers EXPLAIN with one row holding one
    document that decodes to [plan], answers every other query with [rows],
    reports one affected row for every statement, converts every column
    value to itself, and fails a rollback with [rollbackErr] if given. *)
Definition exampleEnv (rows : Rows) (plan : PlanJSON) (rollbackErr : option error) : Env := {|
  unicodeToLower := fun s => s;
  dbBegin := fun _ => inr 1;
  connQuery := fun _ _ q _ =>
    if HasPrefix q "EXPLAIN "
    then inr {| rowsColumns := inr ["QUERY PLAN"];
                rowsData := [[AString "[plan]"]];
                rowsErr := None |}
    else inr rows;
  connExec := fun _ _ _ _ => inr {| LastInsertId := 0; RowsAffected := 1 |};
  txRollback := fun _ _ => rollbackErr;
  txCommit := fun _ _ => None;
  convertAssign := fun _ v => inr v;
  convertString := fun v =>
    match v with
    | AString s => inr s
    | _ => inl (ErrOther "unsupported Scan")
    end;
  jsonPlans := fun _ => inr [plan];
  timeNow := fun t => Z.of_nat (length t)
|}.

Definition indexPlan : PlanJSON := PlanNode "Index Scan" [].

Definition seqScanPlan : PlanJSON :=
  PlanNode "Limit" [PlanNode "Sort" [PlanNode "Seq Scan" []]].

Definition userField (name tag : string) (v : any) : Field :=
  {| fieldName := name; fieldTag := tag; fieldExported := true; fieldValue := v |}.

(** type User struct { ID int `database:"id"`; Name string `database:"name"` } *)
Definition zeroUser : GoValue :=
  VStruct "User" [userField "ID" "id" (AInt 0); userField "Name" "name" (AString "")].

Definition noRows : Rows :=
  {| rowsColumns := inr ["id"; "name"]; rowsData := []; rowsErr := None |}.

Definition twoRows : Rows :=
  {| rowsColumns := inr ["name"; "id"];
     rowsData := [[AString "a"; AInt 1]; [AString "b"; AInt 2]];
     rowsErr := None |}.

Definition namesOnly : Rows :=
  {| rowsColumns := inr ["name"]; rowsData := [[AString "a"]; [AString "b"]]; rowsErr := None |}.


(** The same struct with values set by the caller. *)
Definition filledUser : GoValue :=
  VStruct "User" [userField "ID" "id" (AInt 7); userField "Name" "name" (AString "x")].


(** ** Vocabulary of the further properties *)

Definition isDigitByte (c : ascii) : bool :=
  (48 <=? nat_of_ascii c)%nat && (nat_of_ascii c <=? 57)%nat.

(** The bytes of a string. *)
Definition bytes (s : string) : list ascii := list_ascii_of_string s.

(** The event is a call that ends a transaction. *)
Definition endsTransaction (ev : Event) : bool :=
  match ev with
  | EvRollback _ | EvCommit _ => true
  | _ => false
  end.

(** The placeholders a text brings into a statement of a builder: its "$"
    and its "?" (which replacePlaceholders turns into "$"). *)
Definition marks (s : string) : nat := Count s "$"%char + Count s "?"%char.

Definition marksOf (texts : list string) : nat := list_sum (map marks texts).

(** A name of ASCII letters, digits and underscores: an identifier. *)
Definition isNameByte (c : ascii) : bool :=
  isUpperByte c || isLowerOrDigitByte c || Ascii.eqb c "_"%char.

Definition plainName (s : string) : bool := forallb isNameByte (bytes s).

(** The text without its underscores. *)
Fixpoint withoutUnderscores (s : string) : string :=
  match s with
  | EmptyString => EmptyString
  | String c rest =>
    if Ascii.eqb c "_"%char then withoutUnderscores rest
    else String c (withoutUnderscores rest)
  end.

(** limitOffset[key], with its ok: nothing on a nil map. *)
Definition limitOffsetAt (limitOffset : option (gmap string Z)) (key : string) : option Z :=
  match limitOffset with
  | None => None
  | Some m => m !! key
  end.

(** 1 for a key the map has, 0 otherwise. *)
Definition present (v : option Z) : nat :=
  match v with
  | Some _ => 1
  | None => 0
  end.

(** The WHERE part and the ORDER BY part the builders write: nothing for
    no clause. *)
Definition whereText (whereClauses : list string) : string :=
  if (0 <? length whereClauses)%nat then " WHERE " ++ Join whereClauses " AND " else "".

Definition orderByText (orderByClauses : list string) : string :=
  if (0 <? length orderByClauses)%nat then " ORDER BY " ++ Join orderByClauses ", " else "".

(** The SELECT statement of getQuerySQL up to its LIMIT part, before the
    placeholders are numbered. *)
Definition selectHead (env : Env) (typeName : string) (whereClauses orderByClauses : list string)
  : string :=
  "SELECT * FROM " ++ toTableName env typeName ++ whereText whereClauses
  ++ orderByText orderByClauses.

(** The value bound for a key of limitOffset, if the map has the key. *)
Definition boundFor (v : option Z) : list any :=
  match v with
  | Some n => [AInt n]
  | None => []
  end.

(** ** Vocabulary of the insert builders *)

(** The column is written: its name is not in the ignore list. *)
Definition notIgnored (ignores : list string) (f : InsertField) : bool :=
  negb (slicesContains ignores (insertTag f)).

(** The fields an insert builder writes, in the order of the struct. *)
Definition inserted (ignores : list string) (fields : list InsertField) : list InsertField :=
  List.filter (notIgnored ignores) fields.

(** The indices of those fields, counted from [i]. *)
Fixpoint insertedIndices (ignores : list string) (fields : list InsertField) (i : nat)
  : list nat :=
  match fields with
  | [] => []
  | f :: rest =>
    if notIgnored ignores f then i :: insertedIndices ignores rest (S i)
    else insertedIndices ignores rest (S i)
  end.

(** The value bound for a field: nil for a nil pointer, what the pointer
    points to, or the value itself. *)
Definition boundValue (f : InsertField) : any :=
  match insertContent f with
  | Plain v => v
  | Pointer (Some v) => v
  | Pointer None => ANil
  end.

(** reflect lets the builder read the field: it is exported, or a nil
    pointer (which is not read). *)
Definition readable (f : InsertField) : bool :=
  insertExported f ||
  match insertContent f with
  | Pointer None => true
  | _ => false
  end.

(** The values of the fields in order, up to the first one reflect does
    not let the builder read. *)
Fixpoint interfaces (fields : list InsertField) : Res (list any) :=
  match fields with
  | [] => Returned []
  | f :: rest =>
    match fieldInterface f with
    | Panicked v => Panicked v
    | Returned v =>
      match interfaces rest with
      | Panicked p => Panicked p
      | Returned vs => Returned (v :: vs)
      end
    end
  end.

(** The column name as the builders write it, between double quotes. *)
Definition quotedColumn (f : InsertField) : string :=
  doubleQuote ++ insertTag f ++ doubleQuote.

(** The placeholders "$start", "$start+1", ... ([n] of them), and a group
    of them between parentheses. *)
Definition placeholdersFrom (start n : nat) : list string :=
  map (fun i => "$" ++ Itoa i) (seq start n).

Definition valueGroup (start n : nat) : string :=
  "(" ++ Join (placeholdersFrom start n) ", " ++ ")".

(** ** A database that refuses every statement

    It fails every query as a row lock that cannot be taken and every other
    statement as a violated unique constraint. *)
Definition lockedEnv : Env := {|
  unicodeToLower := fun s => s;
  dbBegin := fun _ => inr 1;
  connQuery := fun _ _ _ _ =>
    inl (ErrOther "ERROR: could not obtain lock on row in relation (SQLSTATE 55P03)");
  connExec := fun _ _ _ _ =>
    inl (ErrOther "ERROR: duplicate key value violates unique constraint (SQLSTATE 23505)");
  txRollback := fun _ _ => None;
  txCommit := fun _ _ => None;
  convertAssign := fun _ v => inr v;
  convertString := fun _ => inl (ErrOther "unsupported Scan");
  jsonPlans := fun _ => inl (ErrOther "unexpected end of JSON input");
  timeNow := fun _ => 0%Z
|}.

(** ** Records for the insert builders *)

Definition insertField (tag : string) (content : FieldContent) : InsertField :=
  {| insertTag := tag; insertExported := true; insertContent := content |}.

(** type TestStruct struct { ID int; Name string; Age int; CreatedAt string;
    UpdatedAt string }, annotated id, name, age, created_at, updated_at
    (src/unnamed/part_002). *)
Definition testStruct (id : Z) (name : string) (age : Z) (createdAt updatedAt : string)
  : Item :=
  ItemStruct "TestStruct"
    [insertField "id" (Plain (AInt id));
     insertField "name" (Plain (AString name));
     insertField "age" (Plain (AInt age));
     insertField "created_at" (Plain (AString createdAt));
     insertField "updated_at" (Plain (AString updatedAt))].

Definition testStructFields (id : Z) (name : string) (age : Z) (createdAt updatedAt : string)
  : list InsertField :=
  [insertField "id" (Plain (AInt id));
   insertField "name" (Plain (AString name));
   insertField "age" (Plain (AInt age));
   insertField "created_at" (Plain (AString createdAt));
   insertField "updated_at" (Plain (AString updatedAt))].

(** A struct with a pointer field and a field that is not exported:
    struct { ID int; Name *string; secret string }. *)
Definition memberFields (name : option string) : list InsertField :=
  [insertField "id" (Plain (AInt 0));
   insertField "name" (Pointer (option_map AString name));
   {| insertTag := "secret"; insertExported := false;
      insertContent := Plain (AString "s") |}].

Definition member (name : option string) : Item := ItemStruct "Member" (memberFields name).

(** The ignore list of Insert and InsertBulk. *)
Definition defaultIgnores : list string := ["id"; "created_at"; "updated_at"].

(** A configuration whose Mode is neither of the two constants. *)
Definition withTypo : Config := withMode "Debug" defaultConfig.

(** * Properties *)

(** ** The monad *)

Lemma bind_ret {A B} (a : A) (k : A -> M B) (t : Trace) :
  bind (ret a) k t = k a t.
Proof. reflexivity. Qed.

Lemma bind_panic {A B} (v : PanicValue) (k : A -> M B) (t : Trace) :
  bind (panic v) k t = (Panicked v, t).
Proof. reflexivity. Qed.

Lemma count_mismatch (query : string) (args : list any) :
  Count query "$"%char <> length args ->
  negb (Count query "$"%char =? length args)%nat = true.
Proof.
  intros H. apply negb_true_iff. now apply Nat.eqb_neq.
Qed.



Lemma extends_ret {A} (a : A) : Extends (ret a).
Proof. intros t. exists []. symmetry. apply app_nil_r. Qed.

Lemma extends_panic {A} (v : PanicValue) : Extends (@panic A v).
Proof. intros t. exists []. symmetry. apply app_nil_r. Qed.

Lemma extends_liftRes {A} (r : Res A) : Extends (liftRes r).
Proof. intros t. exists []. symmetry. apply app_nil_r. Qed.

Lemma extends_call {A} (ev : Event) (answer : Trace -> A) : Extends (call ev answer).
Proof. intros t. exists [ev]. reflexivity. Qed.

Lemma extends_bind {A B} (c : M A) (k : A -> M B) :
  Extends c -> (forall a, Extends (k a)) -> Extends (bind c k).
Proof.
  intros Hc Hk t. unfold bind.
  destruct (Hc t) as [evs Hevs]. destruct (c t) as [[a|v] t']; cbn in Hevs; subst t'.
  - destruct (Hk a (t ++ evs)%list) as [evs' Hevs'].
    exists (evs ++ evs')%list. rewrite Hevs'. symmetry. apply app_assoc.
  - exists evs. reflexivity.
Qed.

Lemma extends_defer {A} (d : M unit) (c : M A) :
  Extends d -> Extends c -> Extends (defer d c).
Proof.
  intros Hd Hc t. unfold defer.
  destruct (Hc t) as [evs Hevs]. destruct (c t) as [r t']; cbn in Hevs; subst t'.
  destruct (Hd (t ++ evs)%list) as [evs' Hevs'].
  destruct (d (t ++ evs)%list) as [[u|v] t'']; cbn in Hevs'; subst t'';
    exists (evs ++ evs')%list; symmetry; apply app_assoc.
Qed.

Lemma extends_deferRecover {A} (c : M A) (handler : PanicValue -> M A) :
  Extends c -> (forall r, Extends (handler r)) -> Extends (deferRecover c handler).
Proof.
  intros Hc Hh t. unfold deferRecover.
  destruct (Hc t) as [evs Hevs]. destruct (c t) as [[a|r] t']; cbn in Hevs; subst t'.
  - exists evs. reflexivity.
  - destruct (Hh r (t ++ evs)%list) as [evs' Hevs'].
    exists (evs ++ evs')%list. rewrite Hevs'. symmetry. apply app_assoc.
Qed.

(** Steps through a computation built from the combinators, splitting on
    every test it makes. *)
Ltac extends_step :=
  match goal with
  | |- Extends (ret _) => apply extends_ret
  | |- Extends (panic _) => apply extends_panic
  | |- Extends (liftRes _) => apply extends_liftRes
  | |- Extends (call _ _) => apply extends_call
  | |- Extends (bind _ _) => apply extends_bind; [|intros ?]
  | |- Extends (defer _ _) => apply extends_defer
  | |- Extends (deferRecover _ _) => apply extends_deferRecover; [|intros ?]
  | |- Extends (if ?b then _ else _) => destruct b
  | |- Extends (match ?x with _ => _ end) => destruct x
  | |- Extends (let (_, _) := ?x in _) => destruct x
  end.

Ltac extends_tac := repeat extends_step.

Section ExtendsPackage.

Variable env : Env.
Variable cfg : Config.

Lemma extends_isDebugMode : Extends (isDebugMode cfg).
Proof. unfold isDebugMode. extends_tac. Qed.

Lemma extends_CheckSeqScan (query : string) (args : list any) :
  Extends (CheckSeqScan env cfg query args).
Proof.
  unfold CheckSeqScan, Begin, ConnExec, ConnQuery, Rollback, RowsClose.
  extends_tac; try apply extends_isDebugMode.
Qed.

Lemma extends_execStatement (tx : option Conn) (query : string) (args : list any) :
  Extends (execStatement env cfg tx query args).
Proof.
  unfold execStatement, ConnExec.
  extends_tac; try apply extends_isDebugMode; try apply extends_CheckSeqScan.
Qed.

Lemma extends_Exec (tx : option Conn) (query : string) (args : list any) :
  Extends (Exec env cfg tx query args).
Proof.
  unfold Exec. extends_tac; apply extends_execStatement.
Qed.

Lemma extends_Query (tx : option Conn) (mp : option GoValue) (query : string)
  (args : list any) : Extends (Query env cfg tx mp query args).
Proof.
  unfold Query, ConnQuery, RowsClose.
  extends_tac; try apply extends_isDebugMode; try apply extends_CheckSeqScan.
Qed.


End ExtendsPackage.

(** ** Query, step by step *)

Section QuerySteps.

Variable env : Env.

(** Query is its checks, the call of the driver, the materializer, the
    audit in debug mode, and the deferred Close. *)
Lemma Query_unfold (c : Config) (tx : option Conn) (model : GoValue) (query : string)
  (args : list any) (t : Trace) :
  Query env c tx (Some model) query args t
  = match queryChecks env c query args with
    | Some msg => (Panicked (PanicString msg), t)
    | None =>
      match connQuery env t (orDB tx) query args with
      | inl err =>
        (match isAssumedSQLError err with
         | Some e => Returned (None, Some e)
         | None => Panicked (PanicString (queryFailed err query))
         end, (t ++ [EvQuery (orDB tx) query args])%list)
      | inr rows =>
        match materialize env model rows with
        | Panicked v =>
          (Panicked v, (t ++ [EvQuery (orDB tx) query args; EvRowsClose])%list)
        | Returned r =>
          match isDebugMode c (t ++ [EvQuery (orDB tx) query args])%list with
          | (Returned true, t') =>
            match CheckSeqScan env c query args t' with
            | (Returned true, t2) => (Returned (r, None), (t2 ++ [EvRowsClose])%list)
            | (Returned false, t2) =>
              (Panicked (PanicString (PanicSQLIsSeqScan query)), (t2 ++ [EvRowsClose])%list)
            | (Panicked v, t2) => (Panicked v, (t2 ++ [EvRowsClose])%list)
            end
          | (Returned false, t') => (Returned (r, None), (t' ++ [EvRowsClose])%list)
          | (Panicked v, t') => (Panicked v, (t' ++ [EvRowsClose])%list)
          end
        end
      end
    end.
Proof.
  unfold Query, queryChecks.
  repeat match goal with
         | |- (if ?b then _ else _) _ = _ => destruct b; [reflexivity|]
         end.
  unfold ConnQuery, RowsClose, defer, liftRes, bind, call, ret, panic, materialize.
  destruct (connQuery env t (orDB tx) query args) as [err|rows].
  - destruct (isAssumedSQLError err); reflexivity.
  - destruct model as [typeName fields| |]; try (rewrite <- app_assoc; reflexivity).
    destruct (buildFieldMap fields 0 ∅) as [m|v]; [|rewrite <- app_assoc; reflexivity].
    destruct (rowsColumns rows) as [err|ct]; [rewrite <- app_assoc; reflexivity|].
    destruct (resolveColumns m ct) as [dest|v]; [|rewrite <- app_assoc; reflexivity].
    destruct (rowsLoop env typeName fields dest (rowsData rows) fields (Some [])) as [r|v];
      [|rewrite <- app_assoc; reflexivity].
    destruct (rowsErr rows) as [err|]; [rewrite <- app_assoc; reflexivity|].
    destruct (isDebugMode c _) as [[[|]|v] t']; try reflexivity.
    destruct (CheckSeqScan env c query args t') as [[[|]|v] t2]; reflexivity.
Qed.

End QuerySteps.
Section Coordinator.

Variable env : Env.

(** C1. Once DB.Begin() has opened the transaction [tx], for every unit of
    work [f]:
    - if [f] returns a non-nil error [e] and the rollback that follows
      succeeds, Transaction returns [e] itself, after the calls
      "rollback start", tx.Rollback(), "rollback end", in this order;
    - if [f] panics with [r] and the rollback that follows succeeds,
      Transaction panics with [r] itself, after the calls "rollback start
      because panic occured", tx.Rollback(), "rollback end";
    - Transaction returns a non-nil error only in the first way: the error
      is the one [f] returned. *)
Theorem transaction_rolls_back_then_propagates
  (f : TxId -> M (option error)) (t : Trace) (tx : TxId) :
  dbBegin env t = inr tx ->
  (forall e t2,
     f tx (t ++ [EvBegin])%list = (Returned (Some e), t2) ->
     txRollback env (t2 ++ [EvLog LInfo "rollback start"])%list tx = None ->
     Transaction env f t
       = (Returned (Some e),
          (t2 ++ [EvLog LInfo "rollback start"; EvRollback tx;
                  EvLog LInfo "rollback end"])%list))
  /\ (forall r t2,
        f tx (t ++ [EvBegin])%list = (Panicked r, t2) ->
        txRollback env (t2 ++ [EvLog LWarn "rollback start because panic occured"])%list tx
          = None ->
        Transaction env f t
          = (Panicked r,
             (t2 ++ [EvLog LWarn "rollback start because panic occured"; EvRollback tx;
                     EvLog LWarn "rollback end"])%list))
  /\ (forall e t',
        Transaction env f t = (Returned (Some e), t') ->
        exists t2,
          f tx (t ++ [EvBegin])%list = (Returned (Some e), t2)
          /\ txRollback env (t2 ++ [EvLog LInfo "rollback start"])%list tx = None
          /\ t' = (t2 ++ [EvLog LInfo "rollback start"; EvRollback tx;
                          EvLog LInfo "rollback end"])%list).
Proof.
  intros Hbegin.
  assert (Hrun : Transaction env f t
                 = match doAndRecover env tx f (t ++ [EvBegin])%list with
                   | (Returned (Some err), t2) =>
                     match txRollback env (t2 ++ [EvLog LInfo "rollback start"])%list tx with
                     | Some err' =>
                       (Panicked (PanicError err'),
                        (t2 ++ [EvLog LInfo "rollback start"; EvRollback tx])%list)
                     | None =>
                       (Returned (Some err),
                        (t2 ++ [EvLog LInfo "rollback start"; EvRollback tx;
                                EvLog LInfo "rollback end"])%list)
                     end
                   | (Returned None, t2) =>
                     match txCommit env t2 tx with
                     | Some err =>
                       (Panicked (if errorsIs err ErrTxCommitRollback
                                  then PanicString PanicCommitDespiteErrInTx
                                  else PanicError err), (t2 ++ [EvCommit tx])%list)
                     | None => (Returned None, (t2 ++ [EvCommit tx])%list)
                     end
                   | (Panicked v, t2) => (Panicked v, t2)
                   end).
  { unfold Transaction, Begin, Log, Rollback, Commit, bind, call, ret, panic.
    rewrite Hbegin.
    destruct (doAndRecover env tx f (t ++ [EvBegin])%list) as [[[err|]|v] t2]; try reflexivity.
    - destruct (txRollback env _ tx); rewrite <- !app_assoc; reflexivity.
    - destruct (txCommit env t2 tx) as [err|]; [|reflexivity].
      destruct (errorsIs err ErrTxCommitRollback); reflexivity. }
  assert (Hrec : doAndRecover env tx f (t ++ [EvBegin])%list
                 = match f tx (t ++ [EvBegin])%list with
                   | (Returned a, t2) => (Returned a, t2)
                   | (Panicked r, t2) =>
                     match txRollback env
                             (t2 ++ [EvLog LWarn "rollback start because panic occured"])%list
                             tx with
                     | Some err =>
                       (Panicked (PanicError err),
                        (t2 ++ [EvLog LWarn "rollback start because panic occured";
                                EvRollback tx])%list)
                     | None =>
                       (Panicked r,
                        (t2 ++ [EvLog LWarn "rollback start because panic occured";
                                EvRollback tx; EvLog LWarn "rollback end"])%list)
                     end
                   end).
  { unfold doAndRecover, deferRecover, Log, Rollback, bind, call, panic.
    destruct (f tx (t ++ [EvBegin])%list) as [[a|r] t2]; [reflexivity|].
    destruct (txRollback env _ tx); rewrite <- !app_assoc; reflexivity. }
  rewrite Hrun, Hrec. split; [|split].
  - intros e t2 Hf Hrb. rewrite Hf, Hrb. reflexivity.
  - intros r t2 Hf Hrb. rewrite Hf, Hrb. reflexivity.
  - intros e t'. destruct (f tx (t ++ [EvBegin])%list) as [[[err|]|r] t2].
    + destruct (txRollback env _ tx) eqn:Hrb; [discriminate|].
      intros [= -> <-]. exists t2. auto.
    + destruct (txCommit env t2 tx); discriminate.
    + destruct (txRollback env _ tx); discriminate.
Qed.

End Coordinator.

(** C1, on a unit of work that returns an error and on one that panics. *)
Lemma transaction_rolls_back_then_propagates_examples :
  Transaction (exampleEnv noRows indexPlan None)
    (fun _ => ret (Some (ErrOther "boom"))) []
    = (Returned (Some (ErrOther "boom")),
       [EvBegin; EvLog LInfo "rollback start"; EvRollback 1; EvLog LInfo "rollback end"])
  /\ Transaction (exampleEnv noRows indexPlan None)
       (fun _ => panic (PanicString "boom")) []
     = (Panicked (PanicString "boom"),
        [EvBegin; EvLog LWarn "rollback start because panic occured"; EvRollback 1;
         EvLog LWarn "rollback end"]).
Proof.
  split.
  - apply (proj1 (transaction_rolls_back_then_propagates (exampleEnv noRows indexPlan None)
                    (fun _ => ret (Some (ErrOther "boom"))) [] 1 eq_refl)
             (ErrOther "boom") [EvBegin]); reflexivity.
  - apply (proj1 (proj2 (transaction_rolls_back_then_propagates
                           (exampleEnv noRows indexPlan None)
                           (fun _ => panic (PanicString "boom")) [] 1 eq_refl))
             (PanicString "boom") [EvBegin]); reflexivity.
Defined.
Section Validator.

Variable env : Env.
Variable cfg : Config.

(** C2. A statement whose number of "$" differs from the number of
    arguments makes Query (given a model) and Exec panic with
    PanicPlaceHolderNumberNotMatch, and the trace of driver calls is left as
    it was: nothing reached the driver. *)
Theorem placeholder_mismatch_aborts
  (tx : option Conn) (model : GoValue) (query : string) (args : list any) (t : Trace) :
  Count query "$"%char <> length args ->
  Query env cfg tx (Some model) query args t
    = (Panicked (PanicString PanicPlaceHolderNumberNotMatch), t)
  /\ Exec env cfg tx query args t
    = (Panicked (PanicString PanicPlaceHolderNumberNotMatch), t).
Proof.
  intros Hne. unfold Query, Exec.
  rewrite (count_mismatch _ _ Hne). split; reflexivity.
Qed.

End Validator.

(** C2, on the statement of the specification: two placeholders, one
    argument. *)
Lemma placeholder_mismatch_aborts_example :
  Query (exampleEnv noRows indexPlan None) defaultConfig None (Some zeroUser)
        "SELECT * FROM table_for_test WHERE id=$1 AND id=$2" [AString "a"] []
    = (Panicked (PanicString PanicPlaceHolderNumberNotMatch), [])
  /\ Exec (exampleEnv noRows indexPlan None) defaultConfig None
        "SELECT * FROM table_for_test WHERE id=$1 AND id=$2" [AString "a"] []
    = (Panicked (PanicString PanicPlaceHolderNumberNotMatch), []).
Proof.
  apply (placeholder_mismatch_aborts (exampleEnv noRows indexPlan None) defaultConfig
           None zeroUser "SELECT * FROM table_for_test WHERE id=$1 AND id=$2"
           [AString "a"] []).
  vm_compute. lia.
Defined.

Section MandatoryWhere.

Variable env : Env.
Variable cfg : Config.


End MandatoryWhere.


Section LockingRead.

Variable env : Env.
Variable cfg : Config.


End LockingRead.


Section UpdateDiscipline.

Variable env : Env.
Variable cfg : Config.


End UpdateDiscipline.

(** ** The update builder *)

(** The loop over the set-values rewrites the copy in place; its result is
    the map of [sentinelToNow] (induction on the part still to visit, with
    the part already visited in front). *)
Lemma rewriteNow_from (now : instant) (rest done : list any) :
  forRange (combine (seq (length done) (length rest)) rest)
    (fun '(i, setValue) values =>
       match setValue with
       | AString strVal =>
         if String.eqb strVal "NOW" then <[i := ATime now]> values else values
       | _ => values
       end) (done ++ rest)%list
  = (done ++ map (sentinelToNow now) rest)%list.
Proof.
  revert done. induction rest as [|v rest IH]; intros done; [reflexivity|].
  cbn [length seq combine forRange fold_left map].
  assert (Hstep :
    match v with
    | AString strVal =>
      if String.eqb strVal "NOW"
      then <[length done := ATime now]> (done ++ v :: rest)%list
      else (done ++ v :: rest)%list
    | _ => (done ++ v :: rest)%list
    end = ((done ++ [sentinelToNow now v]) ++ rest)%list).
  { rewrite <- app_assoc. cbn [app].
    destruct v as [|s| | | | |]; try reflexivity. cbn [sentinelToNow].
    destruct (String.eqb s "NOW"); [|reflexivity].
    replace (length done) with (length done + 0) by lia.
    rewrite insert_app_r. reflexivity. }
  rewrite Hstep.
  specialize (IH (done ++ [sentinelToNow now v])%list).
  rewrite length_app in IH. cbn [length] in IH.
  replace (length done + 1) with (S (length done)) in IH by lia.
  unfold forRange in IH. rewrite IH, <- app_assoc. reflexivity.
Qed.

Lemma rewriteNow_map (now : instant) (setValues : list any) :
  rewriteNow now setValues setValues = map (sentinelToNow now) setValues.
Proof. apply (rewriteNow_from now setValues []). Qed.

Lemma append_cons (x : ascii) (a b : string) : String x a ++ b = String x (a ++ b).
Proof. reflexivity. Qed.

Lemma append_assoc (a b c : string) : (a ++ b) ++ c = a ++ b ++ c.
Proof.
  induction a as [|x a IH]; [reflexivity|]. rewrite !append_cons. f_equal. exact IH.
Qed.

Lemma append_nil_r (a : string) : a ++ "" = a.
Proof.
  induction a as [|x a IH]; [reflexivity|]. rewrite append_cons. f_equal. exact IH.
Qed.

Lemma replaceFrom_updated_at (idx : nat) :
  replaceFrom "updated_at = ?" idx = "updated_at = $" ++ Itoa (S idx).
Proof.
  change (replaceFrom "updated_at = ?" idx)
    with ("updated_at = " ++ ("$" ++ Itoa (S idx)) ++ "").
  rewrite append_nil_r. reflexivity.
Qed.

Lemma Count_append (a b : string) (sep : ascii) :
  Count (a ++ b) sep = Count a sep + Count b sep.
Proof.
  induction a as [|x a IH]; [reflexivity|]. rewrite append_cons. cbn [Count].
  rewrite IH. lia.
Qed.

(** The numbering goes on after a prefix from the number of placeholders
    the prefix holds. *)
Lemma replaceFrom_append (a b : string) (idx : nat) :
  replaceFrom (a ++ b) idx
  = replaceFrom a idx ++ replaceFrom b (idx + Count a "?"%char).
Proof.
  revert idx. induction a as [|x a IH]; intros idx.
  - change ("" ++ b) with b. cbn [replaceFrom Count]. now rewrite Nat.add_0_r.
  - rewrite append_cons. cbn [replaceFrom Count].
    destruct (Ascii.eqb x "?"%char).
    + rewrite IH.
      replace (S idx + Count a "?"%char) with (idx + (1 + Count a "?"%char)) by lia.
      rewrite !append_assoc. reflexivity.
    + rewrite IH, append_cons, Nat.add_0_l. reflexivity.
Qed.

Lemma Join_snoc (elems : list string) (last sep : string) :
  Join (elems ++ [last]) sep = eachThen sep elems ++ last.
Proof.
  induction elems as [|e elems IH]; [reflexivity|].
  cbn [eachThen]. rewrite !append_assoc, <- IH.
  destruct elems; reflexivity.
Qed.

(** One run of getUpdateSQL on a struct: one reading of the clock, then
    the statement and the values. *)
Lemma getUpdateSQL_run (env : Env) (s : GoValue) (whereClauses : list string)
  (whereValues : list any) (setClauses : list string) (setValues : list any) (t : Trace)
  (typeName : string) (fields : list Field) :
  checkAndGetStructValue s = Returned (typeName, fields) ->
  getUpdateSQL env s whereClauses whereValues setClauses setValues t
  = (Returned
       (replacePlaceholders
          ("UPDATE " ++ toTableName env typeName ++ " SET "
           ++ Join (setClauses ++ ["updated_at = ?"]) ", "
           ++ (if (0 <? length whereClauses)%nat
               then " WHERE " ++ Join whereClauses " AND "
               else "")) 0,
        (map (sentinelToNow (timeNow env t)) setValues
         ++ [ATime (timeNow env t)] ++ whereValues)%list),
     (t ++ [EvNow])%list).
Proof.
  intros Hs. unfold getUpdateSQL, liftRes, Now, bind, call, ret. rewrite Hs.
  rewrite rewriteNow_map, <- app_assoc. reflexivity.
Qed.

Section UpdateBuilder.

Variable env : Env.
Variable cfg : Config.

(** C9. For a struct (or a pointer to one), one call of getUpdateSQL reads
    the clock once, and with [now] the instant it read:
    - the statement is "UPDATE <table> SET " followed by the caller's
      set-clauses and one more, "updated_at = ?", then the WHERE clauses,
      with the placeholders numbered;
    - the value list is the set-values with every string "NOW" replaced by
      [now], then [now] itself (the value at the position after the
      set-values, for updated_at), then the where-values;
    so the updated_at value and every rewritten "NOW" are the same instant;
    when the text up to the last set-clause holds one "?" per set-value,
    the placeholder written for updated_at is the one numbered
    [length setValues + 1], the position [now] has in the value list.
    UpdateWithClauses and Update are this one call followed by Exec on its
    statement and values. *)
Theorem update_binds_one_instant
  (s : GoValue) (whereClauses : list string) (whereValues : list any)
  (setClauses : list string) (setValues : list any) (t : Trace)
  (typeName : string) (fields : list Field) :
  checkAndGetStructValue s = Returned (typeName, fields) ->
  exists query values,
    getUpdateSQL env s whereClauses whereValues setClauses setValues t
      = (Returned (query, values), (t ++ [EvNow])%list)
    /\ query
       = replacePlaceholders
           ("UPDATE " ++ toTableName env typeName ++ " SET "
            ++ Join (setClauses ++ ["updated_at = ?"]) ", "
            ++ (if (0 <? length whereClauses)%nat
                then " WHERE " ++ Join whereClauses " AND "
                else "")) 0
    /\ values
       = (map (sentinelToNow (timeNow env t)) setValues
          ++ [ATime (timeNow env t)] ++ whereValues)%list
    /\ values !! length setValues = Some (ATime (timeNow env t))
    /\ (forall i, setValues !! i = Some (AString "NOW") ->
                  values !! i = Some (ATime (timeNow env t)))
    /\ (forall i v, setValues !! i = Some v -> v <> AString "NOW" ->
                    values !! i = Some v)
    /\ (Count ("UPDATE " ++ toTableName env typeName ++ " SET "
               ++ eachThen ", " setClauses) "?"%char = length setValues ->
        query
        = replacePlaceholders
            ("UPDATE " ++ toTableName env typeName ++ " SET " ++ eachThen ", " setClauses) 0
          ++ "updated_at = $" ++ Itoa (S (length setValues))
          ++ replacePlaceholders
               (if (0 <? length whereClauses)%nat
                then " WHERE " ++ Join whereClauses " AND "
                else "") (S (length setValues)))
    /\ (forall tx,
          UpdateWithClauses env cfg tx s whereClauses whereValues setClauses setValues t
          = bind (debugSQL cfg query values) (fun _ => Exec env cfg tx query values)
              (t ++ [EvNow])%list)
    /\ (forall tx setMaps rangeOrder,
          updateSets setMaps rangeOrder = (setClauses, setValues) ->
          Update env cfg tx s whereClauses whereValues setMaps rangeOrder t
          = bind (debugSQL cfg query values) (fun _ => Exec env cfg tx query values)
              (t ++ [EvNow])%list).
Proof.
  intros Hs.
  pose proof (getUpdateSQL_run env s whereClauses whereValues setClauses setValues t
                typeName fields Hs) as Hrun.
  eexists. eexists. split; [exact Hrun|].
  assert (Hlen : length (map (sentinelToNow (timeNow env t)) setValues) = length setValues)
    by apply length_map.
  repeat split.
  - apply list_lookup_middle. symmetry. exact Hlen.
  - intros i Hi. rewrite lookup_app_l by (rewrite Hlen; eapply lookup_lt_Some; eassumption).
    change (map (sentinelToNow (timeNow env t)) setValues)
      with (sentinelToNow (timeNow env t) <$> setValues).
    rewrite list_lookup_fmap, Hi. reflexivity.
  - intros i v Hi Hv. rewrite lookup_app_l by (rewrite Hlen; eapply lookup_lt_Some; eassumption).
    change (map (sentinelToNow (timeNow env t)) setValues)
      with (sentinelToNow (timeNow env t) <$> setValues).
    rewrite list_lookup_fmap, Hi. cbn. f_equal.
    destruct v as [|str| | | | |]; try reflexivity. cbn.
    destruct (String.eqb_spec str "NOW") as [-> | _]; [contradiction|reflexivity].
  - intros Hcount. unfold replacePlaceholders.
    rewrite Join_snoc.
    replace ("UPDATE " ++ toTableName env typeName ++ " SET "
             ++ (eachThen ", " setClauses ++ "updated_at = ?")
             ++ (if (0 <? length whereClauses)%nat
                 then " WHERE " ++ Join whereClauses " AND " else ""))
      with (("UPDATE " ++ toTableName env typeName ++ " SET " ++ eachThen ", " setClauses)
            ++ "updated_at = ?"
            ++ (if (0 <? length whereClauses)%nat
                then " WHERE " ++ Join whereClauses " AND " else ""))
      by (rewrite !append_assoc; reflexivity).
    rewrite replaceFrom_append, Hcount. cbn [Nat.add].
    rewrite (replaceFrom_append "updated_at = ?"), replaceFrom_updated_at.
    replace (length setValues + Count "updated_at = ?" "?"%char) with (S (length setValues))
      by (cbn; lia).
    rewrite !append_assoc. reflexivity.
  - intros tx. unfold UpdateWithClauses.
    unfold bind at 1. rewrite Hrun. reflexivity.
  - intros tx setMaps rangeOrder Hsets. unfold Update. rewrite Hsets.
    unfold bind at 1. rewrite Hrun. reflexivity.
Qed.

End UpdateBuilder.

(** C9, on two set-values that both ask for the current instant: the clock
    reads 0 at the empty history, and 0 is bound three times. *)
Lemma update_binds_one_instant_example :
  getUpdateSQL (exampleEnv noRows indexPlan None) zeroUser ["id = ?"] [AInt 1]
    ["name = ?"; "seen_at = ?"; "checked_at = ?"]
    [AString "b"; AString "NOW"; AString "NOW"] []
  = (Returned
       ("UPDATE users SET name = $1, seen_at = $2, checked_at = $3, updated_at = $4 WHERE id = $5",
        [AString "b"; ATime 0%Z; ATime 0%Z; ATime 0%Z; AInt 1]),
     [EvNow]).
Proof.
  destruct (update_binds_one_instant (exampleEnv noRows indexPlan None) defaultConfig
              zeroUser ["id = ?"] [AInt 1]
              ["name = ?"; "seen_at = ?"; "checked_at = ?"]
              [AString "b"; AString "NOW"; AString "NOW"] [] "User"
              [userField "ID" "id" (AInt 0); userField "Name" "name" (AString "")]
              eq_refl) as (query & values & Hrun & Hq & Hv & _).
  rewrite Hrun, Hq, Hv. reflexivity.
Defined.
(** ** The order of the keys *)

Lemma stringLe_spec (a b : string) : stringLe a b <-> String_as_OT.lt a b \/ a = b.
Proof.
  unfold stringLe, String.leb.
  pose proof (String_as_OT.cmp_lt a b) as Hlt.
  pose proof (String_as_OT.cmp_eq a b) as Heq.
  pose proof (String_as_OT.cmp_antisym a b) as Hanti.
  pose proof (String_as_OT.cmp_lt b a) as Hgt.
  unfold String_as_OT.cmp in *.
  destruct (String.compare a b) eqn:E; split; intros H; try discriminate; try reflexivity.
  - right. now apply Heq.
  - left. now apply Hlt.
  - exfalso. destruct H as [H | H].
    + apply Hlt in H. discriminate.
    + apply Heq in H. discriminate.
Qed.

#[local] Instance stringLe_trans : Transitive stringLe.
Proof.
  intros a b c Hab Hbc. apply stringLe_spec in Hab, Hbc. apply stringLe_spec.
  destruct Hab as [Hab | ->]; destruct Hbc as [Hbc | ->]; auto.
  left. eapply String_as_OT.lt_trans; eassumption.
Qed.

#[local] Instance stringLe_antisym : AntiSymm eq stringLe.
Proof. intros a b Hab Hba. now apply String.leb_antisym. Qed.

Lemma insertSorted_perm (k : string) (l : list string) :
  Permutation (k :: l) (insertSorted k l).
Proof.
  induction l as [|x l IH]; cbn; [reflexivity|].
  destruct (String.leb k x); [reflexivity|].
  rewrite perm_swap. now apply perm_skip.
Qed.

Lemma slicesSort_perm (l : list string) : Permutation l (slicesSort l).
Proof.
  induction l as [|x l IH]; cbn; [reflexivity|].
  rewrite <- insertSorted_perm. now apply perm_skip.
Qed.

Lemma insertSorted_hd (k x : string) (l : list string) :
  stringLe x k -> HdRel stringLe x l -> HdRel stringLe x (insertSorted k l).
Proof.
  intros Hxk Hhd. destruct l as [|y l]; cbn; [now constructor|].
  destruct (String.leb k y); constructor; [assumption|].
  now inversion Hhd.
Qed.

Lemma insertSorted_sorted (k : string) (l : list string) :
  Sorted stringLe l -> Sorted stringLe (insertSorted k l).
Proof.
  induction 1 as [|x l Hs IH Hhd]; cbn; [repeat constructor|].
  destruct (String.leb k x) eqn:E.
  - constructor; [now constructor|]. now constructor.
  - constructor; [assumption|]. apply insertSorted_hd; [|assumption].
    destruct (String.leb_total k x) as [H | H]; [congruence|exact H].
Qed.

Lemma slicesSort_sorted (l : list string) : Sorted stringLe (slicesSort l).
Proof.
  induction l as [|x l IH]; cbn; [constructor|]. now apply insertSorted_sorted.
Qed.

(** Sorting forgets the order the keys came in. *)
Lemma slicesSort_of_perm (l1 l2 : list string) :
  Permutation l1 l2 -> slicesSort l1 = slicesSort l2.
Proof.
  intros Hp. apply (Sorted_unique stringLe); try apply slicesSort_sorted.
  rewrite <- !slicesSort_perm. exact Hp.
Qed.

Lemma forRange_collect {A} (l acc : list A) :
  forRange l (fun key keys => (keys ++ [key])%list) acc = (acc ++ l)%list.
Proof.
  revert acc. induction l as [|x l IH]; intros acc; cbn.
  - symmetry. apply app_nil_r.
  - unfold forRange in IH. rewrite IH, <- app_assoc. reflexivity.
Qed.

Lemma iterations_perm (m : gmap string any) (o1 o2 : list string) :
  IterationOf m o1 -> IterationOf m o2 -> Permutation o1 o2.
Proof.
  intros [Hnd1 Hin1] [Hnd2 Hin2]. apply NoDup_Permutation; try assumption.
  intros k. rewrite !list_elem_of_In, Hin1, Hin2. reflexivity.
Qed.

Lemma getOrderedKeys_sort (m : gmap string any) (order : list string) :
  getOrderedKeys m order = slicesSort order.
Proof. unfold getOrderedKeys. rewrite forRange_collect. reflexivity. Qed.

Lemma updateSets_spec (m : gmap string any) (order : list string) :
  updateSets m order
  = (map setClauseOf (getOrderedKeys m order),
     map (fun field => default ANil (m !! field)) (getOrderedKeys m order)).
Proof.
  unfold updateSets.
  assert (Hgen : forall keys cl vs,
    forRange keys
      (fun field '(setClauses, setValues) =>
         ((setClauses ++ [(field ++ " = ?")%string])%list,
          (setValues ++ [default ANil (m !! field)])%list)) (cl, vs)
    = ((cl ++ map setClauseOf keys)%list,
       (vs ++ map (fun field => default ANil (m !! field)) keys)%list)).
  { induction keys as [|k keys IH]; intros cl vs; cbn.
    - rewrite !app_nil_r. reflexivity.
    - unfold forRange in IH. rewrite IH, <- !app_assoc. reflexivity. }
  apply Hgen.
Qed.

Section Determinism.

Variable env : Env.
Variable cfg : Config.

(** C10. Whatever order `range` delivers the keys of the set-fields map in,
    Update works on the keys in ascending byte-wise lexicographic order,
    each key once: the set-clauses are "key = ?" and the set-values the
    map's values in that order, and so they stand in the statement text and
    in the value list, before "updated_at = ?" and its instant. Two calls that differ only in the order of
    iteration (same arguments, same history of calls, hence the same clock
    reading) are the same computation: under either order Update reads the
    clock once and hands to Exec that one statement text, with the
    set-clauses in ascending order of the keys, and that one value list, and
    the same result comes back. *)
Theorem update_independent_of_map_order
  (tx : option Conn) (s : GoValue) (whereClauses : list string) (whereValues : list any)
  (setMaps : gmap string any) (order1 order2 : list string) (t : Trace) :
  IterationOf setMaps order1 ->
  IterationOf setMaps order2 ->
  Sorted stringLe (getOrderedKeys setMaps order1)
  /\ NoDup (getOrderedKeys setMaps order1)
  /\ (forall k, In k (getOrderedKeys setMaps order1) <-> is_Some (setMaps !! k))
  /\ updateSets setMaps order1
     = (map setClauseOf (getOrderedKeys setMaps order1),
        map (fun field => default ANil (setMaps !! field)) (getOrderedKeys setMaps order1))
  /\ getOrderedKeys setMaps order1 = getOrderedKeys setMaps order2
  /\ updateSets setMaps order1 = updateSets setMaps order2
  /\ (forall typeName fields,
        checkAndGetStructValue s = Returned (typeName, fields) ->
        getUpdateSQL env s whereClauses whereValues
          (fst (updateSets setMaps order1)) (snd (updateSets setMaps order1)) t
        = (Returned
             (replacePlaceholders
                ("UPDATE " ++ toTableName env typeName ++ " SET "
                 ++ Join (map setClauseOf (getOrderedKeys setMaps order1)
                          ++ ["updated_at = ?"]) ", "
                 ++ (if (0 <? length whereClauses)%nat
                     then " WHERE " ++ Join whereClauses " AND "
                     else "")) 0,
              (map (sentinelToNow (timeNow env t))
                   (map (fun field => default ANil (setMaps !! field))
                        (getOrderedKeys setMaps order1))
               ++ [ATime (timeNow env t)] ++ whereValues)%list),
           (t ++ [EvNow])%list))
  /\ (forall typeName fields,
        checkAndGetStructValue s = Returned (typeName, fields) ->
        exists query values,
          query
          = replacePlaceholders
              ("UPDATE " ++ toTableName env typeName ++ " SET "
               ++ Join (map setClauseOf (getOrderedKeys setMaps order1)
                        ++ ["updated_at = ?"]) ", "
               ++ (if (0 <? length whereClauses)%nat
                   then " WHERE " ++ Join whereClauses " AND "
                   else "")) 0
          /\ values
             = (map (sentinelToNow (timeNow env t))
                    (map (fun field => default ANil (setMaps !! field))
                         (getOrderedKeys setMaps order1))
                ++ [ATime (timeNow env t)] ++ whereValues)%list
          /\ Update env cfg tx s whereClauses whereValues setMaps order1 t
             = bind (debugSQL cfg query values) (fun _ => Exec env cfg tx query values)
                 (t ++ [EvNow])%list
          /\ Update env cfg tx s whereClauses whereValues setMaps order2 t
             = bind (debugSQL cfg query values) (fun _ => Exec env cfg tx query values)
                 (t ++ [EvNow])%list)
  /\ Update env cfg tx s whereClauses whereValues setMaps order1 t
     = Update env cfg tx s whereClauses whereValues setMaps order2 t.
Proof.
  intros H1 H2.
  assert (Hkeys : getOrderedKeys setMaps order1 = getOrderedKeys setMaps order2).
  { rewrite !getOrderedKeys_sort. apply slicesSort_of_perm.
    eapply iterations_perm; eassumption. }
  assert (Hsets : updateSets setMaps order1 = updateSets setMaps order2).
  { rewrite !updateSets_spec, Hkeys. reflexivity. }
  assert (Hexec : forall order typeName fields,
    checkAndGetStructValue s = Returned (typeName, fields) ->
    updateSets setMaps order = updateSets setMaps order1 ->
    Update env cfg tx s whereClauses whereValues setMaps order t
    = bind (debugSQL cfg
              (replacePlaceholders
                 ("UPDATE " ++ toTableName env typeName ++ " SET "
                  ++ Join (map setClauseOf (getOrderedKeys setMaps order1)
                           ++ ["updated_at = ?"]) ", "
                  ++ (if (0 <? length whereClauses)%nat
                      then " WHERE " ++ Join whereClauses " AND "
                      else "")) 0)
              (map (sentinelToNow (timeNow env t))
                   (map (fun field => default ANil (setMaps !! field))
                        (getOrderedKeys setMaps order1))
               ++ [ATime (timeNow env t)] ++ whereValues)%list)
        (fun _ => Exec env cfg tx
              (replacePlaceholders
                 ("UPDATE " ++ toTableName env typeName ++ " SET "
                  ++ Join (map setClauseOf (getOrderedKeys setMaps order1)
                           ++ ["updated_at = ?"]) ", "
                  ++ (if (0 <? length whereClauses)%nat
                      then " WHERE " ++ Join whereClauses " AND "
                      else "")) 0)
              (map (sentinelToNow (timeNow env t))
                   (map (fun field => default ANil (setMaps !! field))
                        (getOrderedKeys setMaps order1))
               ++ [ATime (timeNow env t)] ++ whereValues)%list)
        (t ++ [EvNow])%list).
  { intros order typeName fields Hs Ho. unfold Update.
    rewrite Ho, updateSets_spec. unfold bind at 1.
    rewrite (getUpdateSQL_run env s whereClauses whereValues _ _ t typeName fields Hs).
    reflexivity. }
  split; [|split; [|split; [|split; [|split; [|split; [|split; [|split]]]]]]].
  - rewrite getOrderedKeys_sort. apply slicesSort_sorted.
  - rewrite getOrderedKeys_sort. rewrite <- slicesSort_perm. apply H1.
  - intros k. rewrite getOrderedKeys_sort. split.
    + intros Hin. apply H1.
      eapply Permutation_in; [symmetry; apply slicesSort_perm|exact Hin].
    + intros Hk. apply H1 in Hk.
      eapply Permutation_in; [apply slicesSort_perm|exact Hk].
  - apply updateSets_spec.
  - exact Hkeys.
  - exact Hsets.
  - intros typeName fields Hs. rewrite updateSets_spec. cbn [fst snd].
    apply (getUpdateSQL_run env s whereClauses whereValues _ _ t typeName fields Hs).
  - intros typeName fields Hs. eexists _, _.
    split; [reflexivity|]. split; [reflexivity|]. split.
    + apply (Hexec order1 typeName fields Hs). reflexivity.
    + apply (Hexec order2 typeName fields Hs). symmetry. exact Hsets.
  - unfold Update. rewrite Hsets. reflexivity.
Qed.

End Determinism.

(** C10, on a map with three keys delivered in two different orders. *)
Lemma update_independent_of_map_order_example :
  getOrderedKeys (<["name" := AString "b"]> (<["age" := AInt 3]> (<["uid" := AString "u"]> ∅)))
                 ["uid"; "name"; "age"]
    = getOrderedKeys (<["name" := AString "b"]> (<["age" := AInt 3]> (<["uid" := AString "u"]> ∅)))
                 ["name"; "age"; "uid"]
  /\ Update (exampleEnv noRows indexPlan None) defaultConfig None zeroUser
       ["id = ?"] [AInt 1]
       (<["name" := AString "b"]> (<["age" := AInt 3]> (<["uid" := AString "u"]> ∅)))
       ["uid"; "name"; "age"] []
     = Update (exampleEnv noRows indexPlan None) defaultConfig None zeroUser
       ["id = ?"] [AInt 1]
       (<["name" := AString "b"]> (<["age" := AInt 3]> (<["uid" := AString "u"]> ∅)))
       ["name"; "age"; "uid"] []
  /\ Update (exampleEnv noRows indexPlan None) defaultConfig None zeroUser
       ["id = ?"] [AInt 1]
       (<["name" := AString "b"]> (<["age" := AInt 3]> (<["uid" := AString "u"]> ∅)))
       ["uid"; "name"; "age"] []
     = bind (debugSQL defaultConfig
               "UPDATE users SET age = $1, name = $2, uid = $3, updated_at = $4 WHERE id = $5"
               [AInt 3; AString "b"; AString "u"; ATime 0%Z; AInt 1])
         (fun _ => Exec (exampleEnv noRows indexPlan None) defaultConfig None
               "UPDATE users SET age = $1, name = $2, uid = $3, updated_at = $4 WHERE id = $5"
               [AInt 3; AString "b"; AString "u"; ATime 0%Z; AInt 1])
         [EvNow].
Proof.
  assert (Hiter : forall order, Permutation ["age"; "name"; "uid"] order ->
    IterationOf (<["name" := AString "b"]> (<["age" := AInt 3]> (<["uid" := AString "u"]> ∅)))
      order).
  { intros order Hp. split.
    - rewrite <- Hp. apply (bool_decide_unpack _). reflexivity.
    - intros k. rewrite <- Hp. split.
      + intros [<- | [<- | [<- | []]]]; eexists; reflexivity.
      + rewrite !lookup_insert_is_Some, lookup_empty.
        intros [<- | [_ [<- | [_ [<- | [_ Hnone]]]]]]; cbn; auto.
        destruct Hnone as [? Hnone]. discriminate. }
  pose proof (update_independent_of_map_order (exampleEnv noRows indexPlan None)
                defaultConfig None zeroUser ["id = ?"] [AInt 1]
                (<["name" := AString "b"]> (<["age" := AInt 3]> (<["uid" := AString "u"]> ∅)))
                ["uid"; "name"; "age"] ["name"; "age"; "uid"] []) as Hthm.
  destruct Hthm as (_ & _ & _ & _ & Hk & _ & _ & Hexec & Hu).
  - apply Hiter. etransitivity; [apply perm_swap|].
    symmetry. apply (Permutation_cons_append ["name"; "age"] "uid").
  - apply Hiter. apply perm_swap.
  - split; [exact Hk|]. split; [exact Hu|].
    destruct (Hexec "User"
                [userField "ID" "id" (AInt 0); userField "Name" "name" (AString "")]
                eq_refl) as (query & values & Hq & Hv & H1 & _).
    rewrite H1, Hq, Hv. reflexivity.
Defined.
(** ** The plan auditor *)

Section Auditor.

Variable env : Env.

Lemma markSeqScan_orb (nodeType : string) (flag : bool) :
  markSeqScan env nodeType flag = StrContainWithIgnoreCase env nodeType "Seq Scan" || flag.
Proof. unfold markSeqScan. destruct (StrContainWithIgnoreCase env nodeType "Seq Scan"); reflexivity. Qed.

Lemma NodeType_cutPlan (n : nat) (nodeType : string) (plans : list PlanJSON) :
  NodeType (cutPlan n (PlanNode nodeType plans)) = nodeType.
Proof. destruct n; reflexivity. Qed.

(** The loops below a level find what a bounded search of the plan finds
    (induction on the number of levels, then on the list of plans). *)
Lemma loopAt_cutPlan (n : nat) (plans : list PlanJSON) (flag : bool) :
  loopAt env n (map (cutPlan n) plans) flag
  = flag || existsb (seqScanWithin env n) plans.
Proof.
  revert plans flag. induction n as [|n IHn]; intros plans; cbn [loopAt];
    induction plans as [|[nodeType sub] plans IHp]; intros flag; cbn [map forRange fold_left existsb].
  - symmetry. apply orb_false_r.
  - unfold forRange in IHp. rewrite IHp. cbn [cutPlan NodeType].
    rewrite markSeqScan_orb. cbn [seqScanWithin].
    rewrite orb_false_r.
    destruct (StrContainWithIgnoreCase env nodeType "Seq Scan"), flag; reflexivity.
  - symmetry. apply orb_false_r.
  - unfold forRange in IHp. rewrite IHp.
    change (Plans (cutPlan (S n) (PlanNode nodeType sub))) with (map (cutPlan n) sub).
    rewrite NodeType_cutPlan, IHn, markSeqScan_orb. cbn [seqScanWithin].
    destruct (StrContainWithIgnoreCase env nodeType "Seq Scan"), flag; reflexivity.
Qed.

Lemma loop1_loopAt (plans : list (PlanLevel 9)) (flag : bool) :
  loop1 env plans flag = loopAt env 9 plans flag.
Proof. reflexivity. Qed.

(** The decision of CheckSeqScan on the decoded plan is the search of the
    plan the database printed, down to ten levels below the root. *)
Lemma planHasSeqScan_spec (j : PlanJSON) :
  planHasSeqScan env (cutPlan 10 j) = seqScanWithin env 10 j.
Proof.
  destruct j as [nodeType plans]. unfold planHasSeqScan.
  rewrite loop1_loopAt.
  change (Plans (cutPlan 10 (PlanNode nodeType plans))) with (map (cutPlan 9) plans).
  rewrite loopAt_cutPlan. reflexivity.
Qed.

End Auditor.

Lemma isDebugMode_debug (c : Config) (t : Trace) :
  Mode c = MODE_DEBUG -> isDebugMode c t = (Returned true, t).
Proof. intros H. unfold isDebugMode. rewrite H. reflexivity. Qed.

Lemma isDebugMode_production (c : Config) (t : Trace) :
  Mode c = MODE_PRODUCTION -> isDebugMode c t = (Returned false, t).
Proof. intros H. unfold isDebugMode. rewrite H. reflexivity. Qed.

Section AuditedStatement.

Variable env : Env.
Variable cfg : Config.

(** With the marker in the statement (or the check switched off) the
    auditor answers true at once, without a call. *)
Lemma CheckSeqScan_marker (query : string) (args : list any) (t : Trace) :
  StrContainWithIgnoreCase env query seqScanCheckDisableClause = true ->
  CheckSeqScan env cfg query args t = (Returned true, t).
Proof.
  intros H. unfold CheckSeqScan. rewrite H, orb_true_r. reflexivity.
Qed.

(** When the database serves the audit, the auditor answers false exactly
    when the plan has a sequential scan within ten levels. *)
Lemma CheckSeqScan_decides (query : string) (args : list any) (t : Trace)
  (tx : TxId) (j : PlanJSON) :
  Mode cfg = MODE_DEBUG ->
  useSeqScanCheck cfg = true ->
  StrContainWithIgnoreCase env query seqScanCheckDisableClause = false ->
  AuditReads env query args t tx j ->
  CheckSeqScan env cfg query args t
  = (Returned (negb (seqScanWithin env 10 j)), (t ++ auditTrace tx query args)%list).
Proof.
  intros Hmode Hon Hmark (Hbegin & [res Hset] & rows & doc & Hq & Hloop & Herr & Hrb & Hjson).
  unfold CheckSeqScan. rewrite Hon, Hmark. cbn [negb orb].
  unfold bind at 1. rewrite (isDebugMode_debug _ _ Hmode). cbn [negb].
  unfold Begin, ConnExec, ConnQuery, Rollback, RowsClose, defer, liftRes, bind, call, ret, panic.
  rewrite Hbegin, Hset.
  rewrite <- !app_assoc. cbn [app].
  rewrite Hq, Hloop, Herr, Hrb, Hjson, planHasSeqScan_spec.
  unfold auditTrace. rewrite <- !app_assoc. cbn [app].
  destruct (seqScanWithin env 10 j); rewrite <- !app_assoc; reflexivity.
Qed.

(** Exec in debug mode: a statement that production mode runs to a result
    goes through the same steps and then to the auditor, whose answer
    decides between that result and the panic. *)
Lemma Exec_then_audit (tx : option Conn) (query : string) (args : list any) (t t1 : Trace)
  (result : ExecResult) :
  Mode cfg = MODE_DEBUG ->
  Exec env (withMode MODE_PRODUCTION cfg) tx query args t
    = (Returned (Some result, None), t1) ->
  Exec env cfg tx query args t
  = match CheckSeqScan env cfg query args t1 with
    | (Returned true, t2) => (Returned (Some result, None), t2)
    | (Returned false, t2) => (Panicked (PanicString (PanicSQLIsSeqScan query)), t2)
    | (Panicked v, t2) => (Panicked v, t2)
    end.
Proof.
  intros Hmode Hprod.
  assert (Hstmt : forall c : Config,
    execStatement env c tx query args t
    = match connExec env t (orDB tx) query args with
      | inl err =>
        (match isAssumedSQLError err with
         | Some e => Returned (None, Some e)
         | None => Panicked (PanicString (queryFailed err query))
         end, (t ++ [EvExec (orDB tx) query args])%list)
      | inr res =>
        match isDebugMode c (t ++ [EvExec (orDB tx) query args])%list with
        | (Returned true, t') =>
          match CheckSeqScan env c query args t' with
          | (Returned true, t2) => (Returned (Some res, None), t2)
          | (Returned false, t2) => (Panicked (PanicString (PanicSQLIsSeqScan query)), t2)
          | (Panicked v, t2) => (Panicked v, t2)
          end
        | (Returned false, t') => (Returned (Some res, None), t')
        | (Panicked v, t') => (Panicked v, t')
        end
      end).
  { intros c. unfold execStatement, ConnExec, bind, call, ret, panic.
    destruct (connExec env t (orDB tx) query args) as [err|res].
    - destruct (isAssumedSQLError err); reflexivity.
    - destruct (isDebugMode c _) as [[[|]|v] t']; try reflexivity.
      destruct (CheckSeqScan env c query args t') as [[[|]|v] t2]; reflexivity. }
  unfold Exec in *. cbn [withMode useWhereCheck forceUpdatedAtCheck] in Hprod.
  repeat match type of Hprod with
         | (if ?c then _ else _) _ = _ => destruct c; [discriminate Hprod|]
         | (if ?c then _ else _) _ = _ => destruct c
         end;
    rewrite Hstmt in Hprod |- *;
    (destruct (connExec env t (orDB tx) query args) as [err|res];
     [destruct (isAssumedSQLError err); discriminate Hprod|]);
    rewrite isDebugMode_production in Hprod by reflexivity;
    rewrite (isDebugMode_debug _ _ Hmode);
    injection Hprod as -> <-; reflexivity.
Qed.

End AuditedStatement.

Section PlanAudit.

Variable env : Env.
Variable cfg : Config.

Lemma Query_then_audit (tx : option Conn) (mp : option GoValue) (query : string)
  (args : list any) (t t1 : Trace) (r : slice GoValue) :
  Mode cfg = MODE_DEBUG ->
  Query env (withMode MODE_PRODUCTION cfg) tx mp query args t = (Returned (r, None), t1) ->
  Query env cfg tx mp query args t
  = match CheckSeqScan env cfg query args (t ++ [EvQuery (orDB tx) query args])%list with
    | (Returned true, t2) => (Returned (r, None), (t2 ++ [EvRowsClose])%list)
    | (Returned false, t2) =>
      (Panicked (PanicString (PanicSQLIsSeqScan query)), (t2 ++ [EvRowsClose])%list)
    | (Panicked v, t2) => (Panicked v, (t2 ++ [EvRowsClose])%list)
    end.
Proof.
  intros Hmode Hprod. destruct mp as [model|]; [|discriminate Hprod].
  rewrite Query_unfold in Hprod |- *.
  change (queryChecks env (withMode MODE_PRODUCTION cfg) query args)
    with (queryChecks env cfg query args) in Hprod.
  destruct (queryChecks env cfg query args); [discriminate Hprod|].
  destruct (connQuery env t (orDB tx) query args) as [err|rows].
  { destruct (isAssumedSQLError err); discriminate Hprod. }
  destruct (materialize env model rows) as [r'|v]; [|discriminate Hprod].
  rewrite isDebugMode_production in Hprod by reflexivity.
  rewrite (isDebugMode_debug _ _ Hmode).
  injection Hprod as -> _. reflexivity.
Qed.

(** C6. In debug mode, with useSeqScanCheck on and no marker in the text,
    a statement that production mode runs to a result (Exec) or to records
    (Query), and whose audit the database serves with the plan [j], ends in
    the panic PanicSQLIsSeqScan with the statement text exactly when [j] has
    a node whose kind contains "Seq Scan" at the root or at most ten levels
    below it; otherwise it returns what production mode returns. With the
    marker [seqScanCheckDisableClause] in the text, debug mode runs the
    statement as production mode does. In production mode no call of the
    audit is made: the statement and the cursor's Close are the only calls. *)
Theorem seq_scan_audit
  (tx : option Conn) (query : string) (args : list any) (t : Trace) :
  (Mode cfg = MODE_DEBUG ->
   useSeqScanCheck cfg = true ->
   StrContainWithIgnoreCase env query seqScanCheckDisableClause = false ->
   (forall result t1 atx j,
      Exec env (withMode MODE_PRODUCTION cfg) tx query args t
        = (Returned (Some result, None), t1) ->
      AuditReads env query args t1 atx j ->
      Exec env cfg tx query args t
      = (if seqScanWithin env 10 j
         then Panicked (PanicString (PanicSQLIsSeqScan query))
         else Returned (Some result, None),
         (t1 ++ auditTrace atx query args)%list))
   /\ (forall mp r t1 atx j,
         Query env (withMode MODE_PRODUCTION cfg) tx mp query args t
           = (Returned (r, None), t1) ->
         AuditReads env query args (t ++ [EvQuery (orDB tx) query args])%list atx j ->
         Query env cfg tx mp query args t
         = (if seqScanWithin env 10 j
            then Panicked (PanicString (PanicSQLIsSeqScan query))
            else Returned (r, None),
            (t ++ [EvQuery (orDB tx) query args] ++ auditTrace atx query args
               ++ [EvRowsClose])%list)))
  /\ (Mode cfg = MODE_DEBUG ->
      StrContainWithIgnoreCase env query seqScanCheckDisableClause = true ->
      Exec env cfg tx query args t
        = Exec env (withMode MODE_PRODUCTION cfg) tx query args t
      /\ forall mp, Query env cfg tx mp query args t
                    = Query env (withMode MODE_PRODUCTION cfg) tx mp query args t)
  /\ (Mode cfg = MODE_PRODUCTION ->
      (exists r, Exec env cfg tx query args t = (r, t)
                 \/ Exec env cfg tx query args t
                    = (r, (t ++ [EvExec (orDB tx) query args])%list))
      /\ forall mp, exists r,
           Query env cfg tx mp query args t = (r, t)
           \/ Query env cfg tx mp query args t
              = (r, (t ++ [EvQuery (orDB tx) query args])%list)
           \/ Query env cfg tx mp query args t
              = (r, (t ++ [EvQuery (orDB tx) query args; EvRowsClose])%list)).
Proof.
  split; [|split].
  - intros Hmode Hon Hmark. split.
    + intros result t1 atx j Hprod Haudit.
      rewrite (Exec_then_audit env cfg tx query args t t1 result Hmode Hprod).
      rewrite (CheckSeqScan_decides env cfg query args t1 atx j Hmode Hon Hmark Haudit).
      destruct (seqScanWithin env 10 j); reflexivity.
    + intros mp r t1 atx j Hprod Haudit.
      rewrite (Query_then_audit tx mp query args t t1 r Hmode Hprod).
      rewrite (CheckSeqScan_decides env cfg query args _ atx j Hmode Hon Hmark Haudit).
      destruct (seqScanWithin env 10 j); cbn [negb]; rewrite <- !app_assoc; reflexivity.
  - intros Hmode Hmark. split.
    + unfold Exec, execStatement, bind.
      cbn [withMode useWhereCheck forceUpdatedAtCheck].
      repeat match goal with
             | |- (if ?b then _ else _) _ = _ => destruct b; [reflexivity|]
             | |- (if ?b then _ else _) _ = _ => destruct b
             end;
        (destruct (ConnExec env (orDB tx) query args t) as [[[err|res]|v] t']; [| |reflexivity];
         [reflexivity|];
         rewrite (isDebugMode_debug _ _ Hmode), isDebugMode_production by reflexivity;
         rewrite (CheckSeqScan_marker env cfg query args t' Hmark); reflexivity).
    + intros [model|]; [|reflexivity]. rewrite !Query_unfold.
      change (queryChecks env (withMode MODE_PRODUCTION cfg) query args)
        with (queryChecks env cfg query args).
      destruct (queryChecks env cfg query args); [reflexivity|].
      destruct (connQuery env t (orDB tx) query args) as [err|rows]; [reflexivity|].
      destruct (materialize env model rows) as [r|v]; [|reflexivity].
      rewrite (isDebugMode_debug _ _ Hmode), isDebugMode_production by reflexivity.
      rewrite (CheckSeqScan_marker env cfg query args _ Hmark). reflexivity.
  - intros Hmode. split.
    + unfold Exec, execStatement, ConnExec, bind, call, ret, panic.
      repeat match goal with
             | |- exists r, (if ?b then _ else _) _ = _ \/ _ =>
               destruct b; [eexists; left; reflexivity|]
             | |- exists r, (if ?b then _ else _) _ = _ \/ _ => destruct b
             end;
        (destruct (connExec env t (orDB tx) query args) as [err|res];
         [destruct (isAssumedSQLError err); eexists; right; reflexivity|];
         rewrite (isDebugMode_production _ _ Hmode); eexists; right; reflexivity).
    + intros [model|]; [|eexists; left; reflexivity]. rewrite Query_unfold.
      destruct (queryChecks env cfg query args); [eexists; left; reflexivity|].
      destruct (connQuery env t (orDB tx) query args) as [err|rows];
        [eexists; right; left; reflexivity|].
      destruct (materialize env model rows) as [r|v]; [|eexists; right; right; reflexivity].
      rewrite (isDebugMode_production _ _ Hmode). rewrite <- app_assoc.
      eexists; right; right; reflexivity.
Qed.

End PlanAudit.

(** C6, on the two plans of the examples: Query on a statement whose plan
    has a Seq Scan two levels below the root panics with the statement
    text after the audit's calls; with an Index Scan plan it returns its
    records, and so does Exec its result. *)
Lemma seq_scan_audit_examples :
  Query (exampleEnv twoRows seqScanPlan None) defaultConfig None (Some zeroUser)
        "SELECT * FROM users WHERE name = $1" [AString "aaaaa"] []
    = (Panicked (PanicString "sql executed by Seq Scan: SELECT * FROM users WHERE name = $1"),
       [EvQuery Pool "SELECT * FROM users WHERE name = $1" [AString "aaaaa"];
        EvBegin;
        EvExec (InTx 1) "SET LOCAL enable_seqscan TO 'off'" [];
        EvQuery (InTx 1)
          "EXPLAIN (ANALYZE false, FORMAT json) SELECT * FROM users WHERE name = $1"
          [AString "aaaaa"];
        EvRollback 1; EvRowsClose; EvRowsClose])
  /\ Query (exampleEnv noRows indexPlan None) defaultConfig None (Some zeroUser)
        "SELECT * FROM users WHERE id = $1" [AInt 1] []
    = (Returned (Some [], None),
       [EvQuery Pool "SELECT * FROM users WHERE id = $1" [AInt 1];
        EvBegin;
        EvExec (InTx 1) "SET LOCAL enable_seqscan TO 'off'" [];
        EvQuery (InTx 1)
          "EXPLAIN (ANALYZE false, FORMAT json) SELECT * FROM users WHERE id = $1"
          [AInt 1];
        EvRollback 1; EvRowsClose; EvRowsClose])
  /\ Exec (exampleEnv noRows indexPlan None) defaultConfig None
        "DELETE FROM users WHERE id = $1" [AInt 1] []
    = (Returned (Some {| LastInsertId := 0; RowsAffected := 1 |}, None),
       [EvExec Pool "DELETE FROM users WHERE id = $1" [AInt 1];
        EvBegin;
        EvExec (InTx 1) "SET LOCAL enable_seqscan TO 'off'" [];
        EvQuery (InTx 1)
          "EXPLAIN (ANALYZE false, FORMAT json) DELETE FROM users WHERE id = $1"
          [AInt 1];
        EvRollback 1; EvRowsClose]).
Proof.
  assert (Haudit : forall rows plan query args t,
            AuditReads (exampleEnv rows plan None) query args t 1 plan).
  { intros rows plan query args t. split; [reflexivity|]. split; [eexists; reflexivity|].
    eexists. exists "[plan]". repeat split; reflexivity. }
  split; [|split].
  - destruct (seq_scan_audit (exampleEnv twoRows seqScanPlan None) defaultConfig None
                "SELECT * FROM users WHERE name = $1" [AString "aaaaa"] [])
      as [Hdebug _].
    destruct (Hdebug eq_refl eq_refl eq_refl) as [_ Hquery].
    rewrite (Hquery (Some zeroUser) _ _ 1 seqScanPlan eq_refl (Haudit _ _ _ _ _)).
    reflexivity.
  - destruct (seq_scan_audit (exampleEnv noRows indexPlan None) defaultConfig None
                "SELECT * FROM users WHERE id = $1" [AInt 1] [])
      as [Hdebug _].
    destruct (Hdebug eq_refl eq_refl eq_refl) as [_ Hquery].
    rewrite (Hquery (Some zeroUser) _ _ 1 indexPlan eq_refl (Haudit _ _ _ _ _)).
    reflexivity.
  - destruct (seq_scan_audit (exampleEnv noRows indexPlan None) defaultConfig None
                "DELETE FROM users WHERE id = $1" [AInt 1] [])
      as [Hdebug _].
    destruct (Hdebug eq_refl eq_refl eq_refl) as [Hexec _].
    rewrite (Hexec _ _ 1 indexPlan eq_refl (Haudit _ _ _ _ _)).
    reflexivity.
Defined.
(** ** The result materializer *)

Section Materializer.

Variable env : Env.



(** Whatever the annotations, an entry of the map is the index of a field
    that carries the entry's name. *)
Lemma buildFieldMap_sound (fields : list Field) (i : nat) (m0 m : gmap string nat) :
  buildFieldMap fields i m0 = Returned m ->
  forall c d, m !! c = Some d ->
    m0 !! c = Some d
    \/ exists f, i <= d /\ fields !! (d - i) = Some f /\ fieldTag f = c.
Proof.
  revert i m0. induction fields as [|f fields IH]; intros i m0 Hb c d Hc.
  - injection Hb as <-. now left.
  - cbn [buildFieldMap] in Hb.
    destruct (String.eqb (fieldTag f) ""); [discriminate Hb|].
    destruct (negb (fieldExported f)); [discriminate Hb|].
    destruct (IH _ _ Hb c d Hc) as [Hin | (f' & Hle & Hf' & Htag)].
    + destruct (decide (fieldTag f = c)) as [Heq|Hne].
      * rewrite Heq, lookup_insert_eq in Hin. injection Hin as <-.
        right. exists f. rewrite Nat.sub_diag. auto.
      * rewrite lookup_insert_ne in Hin by exact Hne. now left.
    + right. exists f'. split; [lia|]. split; [|exact Htag].
      replace (d - i) with (S (d - S i)) by lia. exact Hf'.
Qed.


Lemma resolveColumns_sound (m : gmap string nat) (ct : list string) (dest : list nat) :
  resolveColumns m ct = Returned dest ->
  Forall2 (fun c d => m !! c = Some d) ct dest.
Proof.
  revert dest. induction ct as [|c ct IH]; intros dest Hr; cbn in Hr.
  - injection Hr as <-. constructor.
  - destruct (m !! c) as [addr|] eqn:Hc; [|discriminate Hr].
    destruct (resolveColumns m ct) as [ptrs|v]; [|discriminate Hr].
    injection Hr as <-. constructor; [exact Hc|]. now apply IH.
Qed.


(** What a scan leaves: the struct keeps its length, and a field that is
    no destination keeps its value. *)
Lemma scanColumns_frame (dest : list nat) (row : list any) (i : nat)
  (structValue fs : list Field) :
  scanColumns env dest row i structValue = inr fs ->
  length fs = length structValue
  /\ forall d, ~ In d dest -> fs !! d = structValue !! d.
Proof.
  revert row i structValue.
  induction dest as [|d0 dest IH]; intros row i structValue Hs; cbn in Hs.
  - injection Hs as <-. auto.
  - destruct row as [|sv row]; [injection Hs as <-; auto|].
    destruct (structValue !! d0) as [f|] eqn:Hf.
    + destruct (convertAssign env (fieldValue f) sv) as [err|v]; [discriminate Hs|].
      destruct (IH _ _ _ Hs) as [Hlen Hframe]. rewrite length_insert in Hlen.
      split; [exact Hlen|]. intros d Hd.
      rewrite Hframe by (intros Hin; apply Hd; now right).
      apply list_lookup_insert_ne. intros ->. apply Hd. now left.
    + injection Hs as <-. auto.
Qed.


(** The loop over the rows never reads the struct the previous row left:
    each record is the scan of its own row into a copy of the model. *)
Lemma rowsLoop_sound (typeName : string) (mp : list Field) (dest : list nat)
  (data : list (list any)) (structValue : list Field) (acc : list GoValue)
  (r : slice GoValue) :
  rowsLoop env typeName mp dest data structValue (Some acc) = Returned r ->
  exists fss,
    Forall2 (fun row fs => Scan env dest row mp = inr fs) data fss
    /\ r = Some (acc ++ map (VStruct typeName) fss)%list.
Proof.
  revert structValue acc. induction data as [|row data IH]; intros structValue acc Hl.
  - injection Hl as <-. exists []. split; [constructor|]. now rewrite app_nil_r.
  - cbn [rowsLoop] in Hl. destruct (Scan env dest row mp) as [err|fs] eqn:Hs; [discriminate Hl|].
    cbn [append1] in Hl.
    destruct (IH _ _ Hl) as (fss & Hall & ->).
    exists (fs :: fss). split; [now constructor|].
    cbn [map]. now rewrite <- app_assoc.
Qed.

Lemma rowsLoop_total (typeName : string) (mp : list Field) (dest : list nat)
  (data : list (list any)) (structValue : list Field) (acc : list GoValue)
  (fss : list (list Field)) :
  Forall2 (fun row fs => Scan env dest row mp = inr fs) data fss ->
  rowsLoop env typeName mp dest data structValue (Some acc)
  = Returned (Some (acc ++ map (VStruct typeName) fss)%list).
Proof.
  intros Hall. revert structValue acc.
  induction Hall as [|row fs data fss Hs _ IH]; intros structValue acc.
  - cbn. now rewrite app_nil_r.
  - cbn [rowsLoop]. rewrite Hs. cbn [append1]. rewrite IH.
    cbn [map]. now rewrite <- app_assoc.
Qed.

End Materializer.

Section Records.

Variable env : Env.
Variable cfg : Config.




Lemma Query_returned (tx : option Conn) (mp : option GoValue) (query : string)
  (args : list any) (t t' : Trace) (r : slice GoValue) :
  Query env cfg tx mp query args t = (Returned (r, None), t') ->
  exists model rows,
    mp = Some model
    /\ queryChecks env cfg query args = None
    /\ connQuery env t (orDB tx) query args = inr rows
    /\ materialize env model rows = Returned r.
Proof.
  intros Hq. destruct mp as [model|]; [|discriminate Hq].
  rewrite Query_unfold in Hq.
  destruct (queryChecks env cfg query args); [discriminate Hq|].
  destruct (connQuery env t (orDB tx) query args) as [err|rows] eqn:Hconn.
  { destruct (isAssumedSQLError err); discriminate Hq. }
  destruct (materialize env model rows) as [r'|v] eqn:Hmat; [|discriminate Hq].
  exists model, rows. repeat split. f_equal.
  destruct (isDebugMode cfg _) as [[[|]|v] t1]; [|congruence|discriminate Hq].
  destruct (CheckSeqScan env cfg query args t1) as [[[|]|v] t2];
    [congruence|discriminate Hq|discriminate Hq].
Qed.

Lemma materialize_returned (model : GoValue) (rows : Rows) (r : slice GoValue) :
  materialize env model rows = Returned r ->
  exists typeName fields ct dest fss,
    model = VStruct typeName fields
    /\ rowsColumns rows = inr ct
    /\ Forall2 (fun c d => exists f, fields !! d = Some f /\ fieldTag f = c) ct dest
    /\ Forall2 (fun row fs => Scan env dest row fields = inr fs) (rowsData rows) fss
    /\ r = Some (map (VStruct typeName) fss).
Proof.
  unfold materialize. intros Hmat.
  destruct model as [typeName fields| |]; try discriminate Hmat.
  destruct (buildFieldMap fields 0 ∅) as [m|v] eqn:Hm; [|discriminate Hmat].
  destruct (rowsColumns rows) as [err|ct] eqn:Hct; [discriminate Hmat|].
  destruct (resolveColumns m ct) as [dest|v] eqn:Hdest; [|discriminate Hmat].
  destruct (rowsLoop env typeName fields dest (rowsData rows) fields (Some []))
    as [r0|v] eqn:Hloop; [|discriminate Hmat].
  destruct (rowsErr rows); [discriminate Hmat|]. injection Hmat as ->.
  destruct (rowsLoop_sound env _ _ _ _ _ _ _ Hloop) as (fss & Hfss & ->).
  exists typeName, fields, ct, dest, fss.
  split; [reflexivity|]. split; [reflexivity|]. split; [|split; [exact Hfss|reflexivity]].
  eapply Forall2_impl; [exact (resolveColumns_sound _ _ _ Hdest)|].
  intros c d Hc.
  destruct (buildFieldMap_sound _ _ _ _ Hm c d Hc) as [Hemp | (f & _ & Hf & Ht)].
  - rewrite lookup_empty in Hemp. discriminate Hemp.
  - rewrite Nat.sub_0_r in Hf. eauto.
Qed.



End Records.



Section FreshCopy.

Variable env : Env.
Variable cfg : Config.

(** C8, as the code has it. Whenever Query returns records, the model is a
    struct and the driver gave a cursor; there is one record per row, and
    the record of a row is what rows.Scan makes of that row alone, written
    into a copy of the model the caller passed (through one list of
    destinations, the same for every row): the loop never reads what the
    previous row left in [structValue]. A field whose annotation is no
    column of the result holds the value the model has for it. *)
Theorem query_scans_each_row_into_a_copy_of_the_model
  (tx : option Conn) (mp : option GoValue) (query : string) (args : list any)
  (t t' : Trace) (r : slice GoValue) :
  Query env cfg tx mp query args t = (Returned (r, None), t') ->
  exists typeName fields rows ct dest records,
    mp = Some (VStruct typeName fields)
    /\ connQuery env t (orDB tx) query args = inr rows
    /\ rowsColumns rows = inr ct
    /\ Forall2 (fun c d => exists f, fields !! d = Some f /\ fieldTag f = c) ct dest
    /\ r = Some records
    /\ length records = length (rowsData rows)
    /\ (forall structValue,
          rowsLoop env typeName fields dest (rowsData rows) structValue (Some [])
          = Returned (Some records))
    /\ forall k row,
         rowsData rows !! k = Some row ->
         exists fs,
           records !! k = Some (VStruct typeName fs)
           /\ Scan env dest row fields = inr fs
           /\ length fs = length fields
           /\ forall i f, fields !! i = Some f -> ~ In (fieldTag f) ct ->
                          fs !! i = Some f.
Proof.
  intros Hq. destruct mp as [model|]; [|discriminate Hq].
  rewrite Query_unfold in Hq.
  destruct (queryChecks env cfg query args); [discriminate Hq|].
  destruct (connQuery env t (orDB tx) query args) as [err|rows] eqn:Hconn.
  { destruct (isAssumedSQLError err); discriminate Hq. }
  destruct (materialize env model rows) as [r'|v] eqn:Hmat; [|discriminate Hq].
  assert (Hr : r' = r).
  { destruct (isDebugMode cfg _) as [[[|]|v] t1]; [|congruence|discriminate Hq].
    destruct (CheckSeqScan env cfg query args t1) as [[[|]|v] t2];
      [congruence|discriminate Hq|discriminate Hq]. }
  subst r'. clear Hq. unfold materialize in Hmat.
  destruct model as [typeName fields| |]; try discriminate Hmat.
  destruct (buildFieldMap fields 0 ∅) as [m|v] eqn:Hm; [|discriminate Hmat].
  destruct (rowsColumns rows) as [err|ct] eqn:Hct; [discriminate Hmat|].
  destruct (resolveColumns m ct) as [dest|v] eqn:Hdest; [|discriminate Hmat].
  destruct (rowsLoop env typeName fields dest (rowsData rows) fields (Some []))
    as [r0|v] eqn:Hloop; [|discriminate Hmat].
  destruct (rowsErr rows); [discriminate Hmat|]. injection Hmat as ->.
  destruct (rowsLoop_sound env _ _ _ _ _ _ _ Hloop) as (fss & Hfss & ->).
  cbn [app] in Hloop |- *.
  assert (Hsound : forall c d, m !! c = Some d ->
                               exists f, fields !! d = Some f /\ fieldTag f = c).
  { intros c d Hc. destruct (buildFieldMap_sound _ _ _ _ Hm c d Hc) as [Hemp | (f & _ & Hf & Ht)].
    - rewrite lookup_empty in Hemp. discriminate Hemp.
    - rewrite Nat.sub_0_r in Hf. eauto. }
  pose proof (resolveColumns_sound _ _ _ Hdest) as Hdest2.
  exists typeName, fields, rows, ct, dest, (map (VStruct typeName) fss).
  split; [reflexivity|]. split; [reflexivity|]. split; [exact Hct|].
  split; [eapply Forall2_impl; [exact Hdest2|]; intros c d Hc; now apply Hsound|].
  split; [reflexivity|].
  split; [rewrite length_map; symmetry; eapply Forall2_length; exact Hfss|].
  split; [intros structValue; apply (rowsLoop_total env typeName fields dest _ structValue [] fss Hfss)|].
  intros k row Hk.
  destruct (Forall2_lookup_l _ _ _ _ _ Hfss Hk) as (fs & Hfs & Hscan).
  exists fs. split.
  { change (map (VStruct typeName) fss) with (VStruct typeName <$> fss).
    rewrite list_lookup_fmap, Hfs. reflexivity. }
  split; [exact Hscan|].
  unfold Scan in Hscan. destruct (length dest =? length row)%nat; [|discriminate Hscan].
  destruct (scanColumns_frame env _ _ _ _ _ Hscan) as [Hlen Hframe].
  split; [exact Hlen|].
  intros i f Hf Hnot. rewrite Hframe; [exact Hf|].
  intros Hin. apply Hnot. rewrite <- list_elem_of_In in Hin.
  apply list_elem_of_lookup in Hin as [p Hp].
  destruct (Forall2_lookup_r _ _ _ _ _ Hdest2 Hp) as (c & Hc & Hmc).
  destruct (Hsound _ _ Hmc) as (f' & Hf' & <-).
  assert (f' = f) by congruence. subst f'.
  rewrite <- list_elem_of_In. eapply list_elem_of_lookup_2. exact Hc.
Qed.

End FreshCopy.

(** C8 fails on a model that is not zero-valued: the result has no "id"
    column, and the ID of every record is 7, the value of the model the
    caller passed, where the zero value of the field is 0. *)
Lemma query_keeps_model_value_without_column :
  Query (exampleEnv namesOnly indexPlan None) defaultConfig None (Some filledUser)
        "SELECT name FROM users WHERE id > $1" [AInt 0] []
  = (Returned
       (Some [VStruct "User" [userField "ID" "id" (AInt 7); userField "Name" "name" (AString "a")];
              VStruct "User" [userField "ID" "id" (AInt 7); userField "Name" "name" (AString "b")]],
        None),
     (([EvQuery Pool "SELECT name FROM users WHERE id > $1" [AInt 0]]
       ++ auditTrace 1 "SELECT name FROM users WHERE id > $1" [AInt 0])
      ++ [EvRowsClose])%list).
Proof. reflexivity. Qed.

(** C8 as amended, on the same call: each record is the scan of its row
    into a copy of the model, and the field without a column is the
    model's. *)
Lemma query_scans_each_row_into_a_copy_of_the_model_example :
  exists typeName fields rows ct dest records,
    Some filledUser = Some (VStruct typeName fields)
    /\ connQuery (exampleEnv namesOnly indexPlan None) [] (orDB None)
         "SELECT name FROM users WHERE id > $1" [AInt 0] = inr rows
    /\ rowsColumns rows = inr ct
    /\ Forall2 (fun c d => exists f, fields !! d = Some f /\ fieldTag f = c) ct dest
    /\ Some [VStruct "User" [userField "ID" "id" (AInt 7); userField "Name" "name" (AString "a")];
             VStruct "User" [userField "ID" "id" (AInt 7); userField "Name" "name" (AString "b")]]
       = Some records
    /\ length records = length (rowsData rows)
    /\ (forall structValue,
          rowsLoop (exampleEnv namesOnly indexPlan None) typeName fields dest
            (rowsData rows) structValue (Some [])
          = Returned (Some records))
    /\ forall k row,
         rowsData rows !! k = Some row ->
         exists fs,
           records !! k = Some (VStruct typeName fs)
           /\ Scan (exampleEnv namesOnly indexPlan None) dest row fields = inr fs
           /\ length fs = length fields
           /\ forall i f, fields !! i = Some f -> ~ In (fieldTag f) ct ->
                          fs !! i = Some f.
Proof.
  apply (query_scans_each_row_into_a_copy_of_the_model
           (exampleEnv namesOnly indexPlan None) defaultConfig None (Some filledUser)
           "SELECT name FROM users WHERE id > $1" [AInt 0] []
           (([EvQuery Pool "SELECT name FROM users WHERE id > $1" [AInt 0]]
             ++ auditTrace 1 "SELECT name FROM users WHERE id > $1" [AInt 0])
            ++ [EvRowsClose])%list).
  reflexivity.
Defined.
(** * Further properties *)

(** ** Byte strings *)

Lemma string_of_uint_Count (d : Decimal.uint) (c : ascii) :
  isDigitByte c = false -> Count (NilEmpty.string_of_uint d) c = 0.
Proof.
  intros Hc.
  induction d as [|d IH|d IH|d IH|d IH|d IH|d IH|d IH|d IH|d IH|d IH];
    cbn [NilEmpty.string_of_uint Count]; [reflexivity|..]; rewrite IH;
    match goal with
    | |- context [Ascii.eqb ?x c] =>
      destruct (Ascii.eqb_spec x c) as [<-|_]; [discriminate Hc|reflexivity]
    end.
Qed.

Lemma Count_Itoa (n : nat) (c : ascii) : isDigitByte c = false -> Count (Itoa n) c = 0.
Proof. apply string_of_uint_Count. Qed.

Lemma string_of_uint_isASCII (d : Decimal.uint) : isASCII (NilEmpty.string_of_uint d) = true.
Proof.
  induction d as [|d IH|d IH|d IH|d IH|d IH|d IH|d IH|d IH|d IH|d IH];
    cbn [NilEmpty.string_of_uint isASCII]; [reflexivity|..]; rewrite IH; reflexivity.
Qed.

Lemma isASCII_Itoa (n : nat) : isASCII (Itoa n) = true.
Proof. apply string_of_uint_isASCII. Qed.

Lemma isASCII_append (a b : string) : isASCII (a ++ b) = isASCII a && isASCII b.
Proof.
  induction a as [|x a IH]; [reflexivity|].
  rewrite append_cons. cbn [isASCII]. rewrite IH. apply andb_assoc.
Qed.

Lemma mapBytes_append (f : ascii -> ascii) (a b : string) :
  mapBytes f (a ++ b) = mapBytes f a ++ mapBytes f b.
Proof.
  induction a as [|x a IH]; [reflexivity|].
  rewrite append_cons. cbn [mapBytes]. rewrite IH. reflexivity.
Qed.

Lemma mapBytes_split (f : ascii -> ascii) (s x y : string) :
  mapBytes f s = x ++ y ->
  exists a b, s = a ++ b /\ mapBytes f a = x /\ mapBytes f b = y.
Proof.
  revert s. induction x as [|c x IH]; intros s H.
  - exists "", s. repeat split. exact H.
  - rewrite append_cons in H. destruct s as [|d s]; [discriminate H|].
    cbn [mapBytes] in H. injection H as Hc Hs.
    destruct (IH s Hs) as (a & b & -> & Ha & Hb).
    exists (String d a), b. rewrite append_cons. cbn [mapBytes]. rewrite Hc, Ha.
    repeat split. exact Hb.
Qed.

Lemma HasPrefix_spec (s prefix : string) :
  HasPrefix s prefix = true <-> exists post, s = prefix ++ post.
Proof.
  revert s. induction prefix as [|p prefix IH]; intros s.
  - split; [intros _; exists s; reflexivity|intros _; destruct s; reflexivity].
  - destruct s as [|c s]; cbn [HasPrefix].
    + split; [discriminate|]. intros [post H]. rewrite append_cons in H. discriminate H.
    + rewrite andb_true_iff, IH. split.
      * intros [Hc [post ->]]. apply Ascii.eqb_eq in Hc. subst c.
        exists post. reflexivity.
      * intros [post H]. rewrite append_cons in H. injection H as -> ->.
        split; [apply Ascii.eqb_refl|]. exists post. reflexivity.
Qed.

Lemma Contains_spec (s substr : string) :
  Contains s substr = true <-> exists pre post, s = pre ++ substr ++ post.
Proof.
  induction s as [|c s IH].
  - cbn [Contains]. rewrite orb_false_r, HasPrefix_spec. split.
    + intros [post H]. exists "", post. exact H.
    + intros (pre & post & H). destruct pre as [|x pre].
      * exists post. exact H.
      * rewrite append_cons in H. discriminate H.
  - cbn [Contains]. rewrite orb_true_iff, HasPrefix_spec, IH. split.
    + intros [[post H] | (pre & post & H)].
      * exists "", post. exact H.
      * exists (String c pre), post. rewrite append_cons, H. reflexivity.
    + intros (pre & post & H). destruct pre as [|x pre].
      * left. exists post. exact H.
      * right. rewrite append_cons in H. injection H as _ H. exists pre, post. exact H.
Qed.

Lemma Count_replaceFrom_question (query : string) (idx : nat) :
  Count (replaceFrom query idx) "?"%char = 0.
Proof.
  revert idx. induction query as [|c query IH]; intros idx; [reflexivity|].
  cbn [replaceFrom]. destruct (Ascii.eqb c "?"%char) eqn:E.
  - rewrite !Count_append, IH, Count_Itoa by reflexivity. reflexivity.
  - cbn [Count]. rewrite E, IH. reflexivity.
Qed.

Lemma Count_replaceFrom_dollar (query : string) (idx : nat) :
  Count (replaceFrom query idx) "$"%char
  = Count query "$"%char + Count query "?"%char.
Proof.
  revert idx. induction query as [|c query IH]; intros idx; [reflexivity|].
  cbn [replaceFrom Count]. destruct (Ascii.eqb c "?"%char) eqn:E.
  - apply Ascii.eqb_eq in E. subst c.
    rewrite !Count_append, IH, Count_Itoa by reflexivity.
    cbn. lia.
  - cbn [Count]. rewrite IH. lia.
Qed.

Section Strings.

Variable env : Env.

(** X1. On texts of ASCII bytes, StrContainWithIgnoreCase answers true
    exactly when the text has a contiguous part that equals [str] up to the
    case of the letters A to Z. *)
Theorem str_contain_finds_parts_up_to_case (target str : string) :
  isASCII target = true ->
  isASCII str = true ->
  StrContainWithIgnoreCase env target str = true
  <-> exists pre mid post,
        target = pre ++ mid ++ post
        /\ mapBytes lowerByte mid = mapBytes lowerByte str.
Proof.
  intros Ht Hs. unfold StrContainWithIgnoreCase, ToLower. rewrite Ht, Hs, Contains_spec.
  split.
  - intros (pre & post & H).
    apply mapBytes_split in H as (a & b & -> & Ha & Hb).
    apply mapBytes_split in Hb as (mid & c & -> & Hmid & Hc).
    exists a, mid, c. split; [reflexivity|exact Hmid].
  - intros (pre & mid & post & -> & Hmid).
    exists (mapBytes lowerByte pre), (mapBytes lowerByte post).
    rewrite !mapBytes_append, Hmid. reflexivity.
Qed.

(** X2. StrContainListWithIgnoreCase answers true exactly when
    StrContainWithIgnoreCase does for one of the texts it is given; for no
    text it answers false. *)
Theorem str_contain_list_finds_one_of_the_texts (target : string) (str : list string) :
  StrContainListWithIgnoreCase env target str = true
  <-> exists s, In s str /\ StrContainWithIgnoreCase env target s = true.
Proof.
  induction str as [|s str IH]; cbn [StrContainListWithIgnoreCase].
  - split; [discriminate|]. intros (s & [] & _).
  - destruct (StrContainWithIgnoreCase env target s) eqn:E.
    + split; [|reflexivity]. intros _. exists s. split; [left; reflexivity|exact E].
    + rewrite IH. split.
      * intros (s' & Hin & Hs'). exists s'. split; [right; exact Hin|exact Hs'].
      * intros (s' & [<-|Hin] & Hs'); [congruence|]. exists s'. split; assumption.
Qed.

End Strings.

Lemma str_contain_finds_parts_up_to_case_example :
  StrContainWithIgnoreCase (exampleEnv noRows indexPlan None)
    "deLete FROM table_for_test WHERE id = $1" "DELETE" = true.
Proof.
  apply (proj2 (str_contain_finds_parts_up_to_case (exampleEnv noRows indexPlan None)
                  "deLete FROM table_for_test WHERE id = $1" "DELETE" eq_refl eq_refl)).
  exists "", "deLete", " FROM table_for_test WHERE id = $1". split; reflexivity.
Defined.
(** ** What Exec and Query hand back *)

Lemma isAssumedSQLError_declared (err e : error) :
  isAssumedSQLError err = Some e ->
  (e = ErrLockNotAvailable
   /\ Contains (ErrorText err) PostgresErrCodeLockNotAvailable = true)
  \/ (e = ErrUniqConstraint
      /\ Contains (ErrorText err) PostgresErrCodeUniqConstraint = true)
  \/ (e = ErrDeadLock
      /\ Contains (ErrorText err) PostgresErrCodeDeadLock = true).
Proof.
  unfold isAssumedSQLError.
  destruct (Contains (ErrorText err) PostgresErrCodeLockNotAvailable) eqn:H1.
  { intros H. injection H as <-. left. split; reflexivity. }
  destruct (Contains (ErrorText err) PostgresErrCodeUniqConstraint) eqn:H2.
  { intros H. injection H as <-. right. left. split; reflexivity. }
  destruct (Contains (ErrorText err) PostgresErrCodeDeadLock) eqn:H3.
  { intros H. injection H as <-. right. right. split; reflexivity. }
  discriminate.
Qed.

Section Outcomes.

Variable env : Env.
Variable cfg : Config.

Lemma execStatement_returned (tx : option Conn) (query : string) (args : list any)
  (t t' : Trace) (r : option ExecResult) (e : option error) :
  execStatement env cfg tx query args t = (Returned (r, e), t') ->
  (exists result,
     connExec env t (orDB tx) query args = inr result /\ r = Some result /\ e = None)
  \/ (exists err declared,
        connExec env t (orDB tx) query args = inl err
        /\ isAssumedSQLError err = Some declared
        /\ r = None /\ e = Some declared
        /\ t' = (t ++ [EvExec (orDB tx) query args])%list).
Proof.
  unfold execStatement, ConnExec, bind, call.
  destruct (connExec env t (orDB tx) query args) as [err|result].
  - destruct (isAssumedSQLError err) as [declared|] eqn:He; [|discriminate].
    intros H. injection H as <- <- <-. right. exists err, declared. auto.
  - destruct (isDebugMode cfg _) as [[[|]|v] t1]; [| |discriminate].
    + unfold bind. destruct (CheckSeqScan env cfg query args t1) as [[[|]|v] t2];
        [|discriminate|discriminate].
      intros H. injection H as <- <- <-. left. exists result. auto.
    + intros H. injection H as <- <- <-. left. exists result. auto.
Qed.

(** X3. Whenever Exec returns, it returns either the driver's result with
    a nil error, or a nil result with one of the three errors the package
    declares. The error stands for a failure of the driver whose text
    contains the matching Postgres code; the statement was sent once and the
    plan audit did not run. *)
Theorem exec_returns_result_or_declared_error
  (tx : option Conn) (query : string) (args : list any) (t t' : Trace)
  (r : option ExecResult) (e : option error) :
  Exec env cfg tx query args t = (Returned (r, e), t') ->
  (exists result,
     connExec env t (orDB tx) query args = inr result /\ r = Some result /\ e = None)
  \/ (exists err declared,
        connExec env t (orDB tx) query args = inl err
        /\ r = None /\ e = Some declared
        /\ t' = (t ++ [EvExec (orDB tx) query args])%list
        /\ ((declared = ErrLockNotAvailable
             /\ Contains (ErrorText err) PostgresErrCodeLockNotAvailable = true)
            \/ (declared = ErrUniqConstraint
                /\ Contains (ErrorText err) PostgresErrCodeUniqConstraint = true)
            \/ (declared = ErrDeadLock
                /\ Contains (ErrorText err) PostgresErrCodeDeadLock = true))).
Proof.
  intros H.
  assert (Hs : execStatement env cfg tx query args t = (Returned (r, e), t')).
  { unfold Exec in H.
    repeat match type of H with
           | (if ?b then _ else _) _ = _ => destruct b; [discriminate H|]
           | (if ?b then _ else _) _ = _ => destruct b
           end; exact H. }
  destruct (execStatement_returned _ _ _ _ _ _ _ Hs)
    as [Hok | (err & declared & Hc & Hd & -> & -> & ->)]; [left; exact Hok|].
  right. exists err, declared. repeat (split; [reflexivity || exact Hc|]).
  now apply isAssumedSQLError_declared.
Qed.

Lemma Query_returned_error (tx : option Conn) (mp : option GoValue) (query : string)
  (args : list any) (t t' : Trace) (r : slice GoValue) (declared : error) :
  Query env cfg tx mp query args t = (Returned (r, Some declared), t') ->
  exists err,
    connQuery env t (orDB tx) query args = inl err
    /\ isAssumedSQLError err = Some declared
    /\ r = None
    /\ t' = (t ++ [EvQuery (orDB tx) query args])%list.
Proof.
  intros Hq. destruct mp as [model|]; [|discriminate Hq].
  rewrite Query_unfold in Hq.
  destruct (queryChecks env cfg query args); [discriminate Hq|].
  destruct (connQuery env t (orDB tx) query args) as [err|rows] eqn:Hconn.
  - destruct (isAssumedSQLError err) as [d|] eqn:He; [|discriminate Hq].
    injection Hq as <- <- <-. exists err. auto.
  - destruct (materialize env model rows) as [r'|v]; [|discriminate Hq].
    destruct (isDebugMode cfg _) as [[[|]|v] t1]; [|discriminate Hq|discriminate Hq].
    destruct (CheckSeqScan env cfg query args t1) as [[[|]|v] t2]; discriminate Hq.
Qed.

(** X4. Whenever Query returns an error, the slice is nil, the error is one
    of the three the package declares, and it stands for a failure of the
    driver whose text contains the matching Postgres code: the statement was
    sent once, no cursor was opened and the plan audit did not run. Whenever
    Query returns without an error, the slice is not nil, even for a result
    without rows. *)
Theorem query_returns_records_or_declared_error
  (tx : option Conn) (mp : option GoValue) (query : string) (args : list any)
  (t t' : Trace) (r : slice GoValue) (e : option error) :
  Query env cfg tx mp query args t = (Returned (r, e), t') ->
  (exists rows records,
     connQuery env t (orDB tx) query args = inr rows /\ r = Some records /\ e = None)
  \/ (exists err declared,
        connQuery env t (orDB tx) query args = inl err
        /\ r = None /\ e = Some declared
        /\ t' = (t ++ [EvQuery (orDB tx) query args])%list
        /\ ((declared = ErrLockNotAvailable
             /\ Contains (ErrorText err) PostgresErrCodeLockNotAvailable = true)
            \/ (declared = ErrUniqConstraint
                /\ Contains (ErrorText err) PostgresErrCodeUniqConstraint = true)
            \/ (declared = ErrDeadLock
                /\ Contains (ErrorText err) PostgresErrCodeDeadLock = true))).
Proof.
  intros H. destruct e as [declared|].
  - destruct (Query_returned_error _ _ _ _ _ _ _ _ H) as (err & Hc & Hd & -> & ->).
    right. exists err, declared. repeat (split; [reflexivity || exact Hc|]).
    now apply isAssumedSQLError_declared.
  - destruct (Query_returned env cfg _ _ _ _ _ _ _ H) as (model & rows & _ & _ & Hc & Hmat).
    destruct (materialize_returned env _ _ _ Hmat) as (typeName & fields & ct & dest & fss & _ & _ & _ & _ & ->).
    left. exists rows, (map (VStruct typeName) fss). auto.
Qed.

(** X5. Whenever QueryFirst returns an error, it is the error Query
    returned and the record is nil. Whenever it returns without an error,
    the model is a struct and the driver gave a cursor: for a result without
    rows the record is nil (and so is the error); otherwise the record is
    what rows.Scan makes of the first row, written into a copy of the
    model, each column going to a field annotated with its name. *)
Theorem query_first_returns_the_first_row
  (tx : option Conn) (mp : option GoValue) (query : string) (args : list any)
  (t t' : Trace) (res : option GoValue) (e : option error) :
  QueryFirst env cfg tx mp query args t = (Returned (res, e), t') ->
  exists r,
    Query env cfg tx mp query args t = (Returned (r, e), t')
    /\ match e with
       | Some _ => res = None
       | None =>
         exists typeName fields rows ct dest,
           mp = Some (VStruct typeName fields)
           /\ connQuery env t (orDB tx) query args = inr rows
           /\ rowsColumns rows = inr ct
           /\ Forall2 (fun c d => exists f, fields !! d = Some f /\ fieldTag f = c) ct dest
           /\ match rowsData rows with
              | [] => res = None
              | row :: _ =>
                exists fs,
                  Scan env dest row fields = inr fs /\ res = Some (VStruct typeName fs)
              end
       end.
Proof.
  unfold QueryFirst, bind. intros H.
  destruct (Query env cfg tx mp query args t) as [[[r [err|]]|v] t1] eqn:Hq;
    [| |discriminate H].
  - injection H as <- <- <-. exists r. split; reflexivity.
  - assert (He : e = None /\ t1 = t').
    { destruct r as [[|first rest]|]; injection H as _ <- <-; auto. }
    destruct He as [-> ->]. exists r. split; [reflexivity|].
    destruct (Query_returned env cfg _ _ _ _ _ _ _ Hq) as (model & rows & -> & _ & Hc & Hmat).
    destruct (materialize_returned env _ _ _ Hmat)
      as (typeName & fields & ct & dest & fss & -> & Hct & Hdest & Hfss & ->).
    exists typeName, fields, rows, ct, dest.
    repeat (split; [reflexivity || assumption|]).
    destruct Hfss as [|row fs data fss Hscan Hrest]; cbn in H.
    + injection H as <-. reflexivity.
    + injection H as <-. exists fs. split; [exact Hscan|reflexivity].
Qed.

End Outcomes.

Lemma exec_returns_result_or_declared_error_example :
  exists err,
    connExec lockedEnv [] Pool "INSERT INTO users (uid) VALUES ($1)" [AString "u"] = inl err
    /\ Contains (ErrorText err) PostgresErrCodeUniqConstraint = true
    /\ Exec lockedEnv defaultConfig None "INSERT INTO users (uid) VALUES ($1)" [AString "u"] []
       = (Returned (None, Some ErrUniqConstraint),
          [EvExec Pool "INSERT INTO users (uid) VALUES ($1)" [AString "u"]]).
Proof.
  destruct (exec_returns_result_or_declared_error lockedEnv defaultConfig None
              "INSERT INTO users (uid) VALUES ($1)" [AString "u"] []
              [EvExec Pool "INSERT INTO users (uid) VALUES ($1)" [AString "u"]]
              None (Some ErrUniqConstraint) eq_refl)
    as [(result & _ & H & _) | (err & declared & Hc & _ & Hd & _ & Hcode)];
    [discriminate H|].
  exists err. split; [exact Hc|]. split; [|reflexivity].
  injection Hd as <-.
  destruct Hcode as [[H _] | [[_ H] | [H _]]]; [discriminate H|exact H|discriminate H].
Defined.

Lemma query_returns_records_or_declared_error_example :
  exists err,
    connQuery lockedEnv [] Pool "SELECT * FROM users WHERE id = $1 FOR UPDATE NOWAIT" [AInt 1]
      = inl err
    /\ Contains (ErrorText err) PostgresErrCodeLockNotAvailable = true
    /\ Query lockedEnv defaultConfig None (Some zeroUser)
         "SELECT * FROM users WHERE id = $1 FOR UPDATE NOWAIT" [AInt 1] []
       = (Returned (None, Some ErrLockNotAvailable),
          [EvQuery Pool "SELECT * FROM users WHERE id = $1 FOR UPDATE NOWAIT" [AInt 1]]).
Proof.
  destruct (query_returns_records_or_declared_error lockedEnv defaultConfig None
              (Some zeroUser) "SELECT * FROM users WHERE id = $1 FOR UPDATE NOWAIT" [AInt 1] []
              [EvQuery Pool "SELECT * FROM users WHERE id = $1 FOR UPDATE NOWAIT" [AInt 1]]
              None (Some ErrLockNotAvailable) eq_refl)
    as [(rows & records & _ & H & _) | (err & declared & Hc & _ & Hd & _ & Hcode)];
    [discriminate H|].
  exists err. split; [exact Hc|]. split; [|reflexivity].
  injection Hd as <-.
  destruct Hcode as [[_ H] | [[H _] | [H _]]]; [exact H|discriminate H|discriminate H].
Defined.

Lemma query_first_returns_the_first_row_example :
  exists t' r,
    QueryFirst (exampleEnv twoRows indexPlan None) defaultConfig None (Some zeroUser)
      "SELECT * FROM users WHERE id > $1" [AInt 0] []
    = (Returned
         (Some (VStruct "User" [userField "ID" "id" (AInt 1);
                                userField "Name" "name" (AString "a")]), None), t')
    /\ Query (exampleEnv twoRows indexPlan None) defaultConfig None (Some zeroUser)
         "SELECT * FROM users WHERE id > $1" [AInt 0] []
       = (Returned (r, None), t').
Proof.
  eexists.
  destruct (query_first_returns_the_first_row (exampleEnv twoRows indexPlan None)
              defaultConfig None (Some zeroUser) "SELECT * FROM users WHERE id > $1" [AInt 0]
              [] _ _ None eq_refl) as (r & Hq & _).
  exists r. split; [reflexivity|exact Hq].
Defined.
(** ** The transaction coordinator, the auditor and the cursor *)

Section Lifecycle.

Variable env : Env.

(** X6. Once DB.Begin() has opened the transaction, whatever the unit of
    work does (return nil, return an error, or panic) and whatever the
    driver answers, Transaction ends that transaction exactly once, after
    the unit of work: with tx.Commit() when the unit of work returned nil,
    with tx.Rollback() otherwise, and never with both. *)
Theorem transaction_ends_what_it_began
  (f : TxId -> M (option error)) (t t2 : Trace) (tx : TxId) (outcome : Res (option error)) :
  dbBegin env t = inr tx ->
  f tx (t ++ [EvBegin])%list = (outcome, t2) ->
  exists tail,
    snd (Transaction env f t) = (t2 ++ tail)%list
    /\ List.filter endsTransaction tail
       = [match outcome with
          | Returned None => EvCommit tx
          | _ => EvRollback tx
          end].
Proof.
  intros Hbegin Hf.
  unfold Transaction, doAndRecover, deferRecover, Begin, Rollback, Commit, Log, bind, call,
    ret, panic.
  rewrite Hbegin, Hf.
  destruct outcome as [[e|]|r].
  - destruct (txRollback env _ tx);
      eexists; (split; [cbn [snd]; rewrite <- !app_assoc; reflexivity|reflexivity]).
  - destruct (txCommit env t2 tx) as [err|]; [destruct (errorsIs err ErrTxCommitRollback)|];
      eexists; (split; [reflexivity|reflexivity]).
  - destruct (txRollback env _ tx);
      eexists; (split; [cbn [snd]; rewrite <- !app_assoc; reflexivity|reflexivity]).
Qed.

(** X7. Transaction returns nil only after a commit that succeeded:
    DB.Begin() opened a transaction, the unit of work returned nil without
    a panic, and tx.Commit(), the one call made after it, answered nil. *)
Theorem transaction_returns_nil_only_when_committed
  (f : TxId -> M (option error)) (t t' : Trace) :
  Transaction env f t = (Returned None, t') ->
  exists tx t2,
    dbBegin env t = inr tx
    /\ f tx (t ++ [EvBegin])%list = (Returned None, t2)
    /\ txCommit env t2 tx = None
    /\ t' = (t2 ++ [EvCommit tx])%list.
Proof.
  unfold Transaction, doAndRecover, deferRecover, Begin, Rollback, Commit, Log, bind, call,
    ret, panic.
  destruct (dbBegin env t) as [err|tx]; [discriminate|].
  destruct (f tx (t ++ [EvBegin])%list) as [[[e|]|r] t2] eqn:Hf.
  - destruct (txRollback env _ tx); discriminate.
  - destruct (txCommit env t2 tx) as [err|] eqn:Hc.
    + destruct (errorsIs err ErrTxCommitRollback); discriminate.
    + intros H. injection H as <-. exists tx, t2.
      split; [reflexivity|]. split; [exact Hf|]. split; [exact Hc|reflexivity].
  - destruct (txRollback env _ tx); discriminate.
Qed.

(** X8. The failures of the driver around the unit of work are fatal.
    When DB.Begin() fails, Transaction panics with that error and the unit
    of work never runs. When the unit of work returned nil and tx.Commit()
    fails, Transaction panics, without a rollback: with the text
    PanicCommitDespiteErrInTx if the error is, or wraps,
    pgx.ErrTxCommitRollback, and with the error itself otherwise. When the
    unit of work returned an error or panicked and tx.Rollback() fails,
    Transaction panics with the error of the rollback: the error or the
    panic value of the unit of work is lost, and "rollback end" is not
    logged. *)
Theorem transaction_panics_when_the_driver_fails
  (f : TxId -> M (option error)) (t : Trace) :
  (forall err,
     dbBegin env t = inl err ->
     Transaction env f t = (Panicked (PanicError err), (t ++ [EvBegin])%list))
  /\ (forall tx t2 err,
        dbBegin env t = inr tx ->
        f tx (t ++ [EvBegin])%list = (Returned None, t2) ->
        txCommit env t2 tx = Some err ->
        Transaction env f t
        = (Panicked (if errorsIs err ErrTxCommitRollback
                     then PanicString PanicCommitDespiteErrInTx
                     else PanicError err),
           (t2 ++ [EvCommit tx])%list))
  /\ (forall tx t2 e err,
        dbBegin env t = inr tx ->
        f tx (t ++ [EvBegin])%list = (Returned (Some e), t2) ->
        txRollback env (t2 ++ [EvLog LInfo "rollback start"])%list tx = Some err ->
        Transaction env f t
        = (Panicked (PanicError err),
           (t2 ++ [EvLog LInfo "rollback start"; EvRollback tx])%list))
  /\ (forall tx t2 r err,
        dbBegin env t = inr tx ->
        f tx (t ++ [EvBegin])%list = (Panicked r, t2) ->
        txRollback env (t2 ++ [EvLog LWarn "rollback start because panic occured"])%list tx
          = Some err ->
        Transaction env f t
        = (Panicked (PanicError err),
           (t2 ++ [EvLog LWarn "rollback start because panic occured"; EvRollback tx])%list)).
Proof.
  split; [|split; [|split]].
  - intros err Hbegin. unfold Transaction, Begin, bind, call, panic.
    rewrite Hbegin. reflexivity.
  - intros tx t2 err Hbegin Hf Hc.
    unfold Transaction, doAndRecover, deferRecover, Begin, Commit, bind, call, panic.
    rewrite Hbegin, Hf, Hc.
    destruct (errorsIs err ErrTxCommitRollback); reflexivity.
  - intros tx t2 e err Hbegin Hf Hr.
    unfold Transaction, doAndRecover, deferRecover, Begin, Rollback, Log, bind, call, panic.
    rewrite Hbegin, Hf, Hr. rewrite <- app_assoc. reflexivity.
  - intros tx t2 r err Hbegin Hf Hr.
    unfold Transaction, doAndRecover, deferRecover, Begin, Rollback, Log, bind, call, panic.
    rewrite Hbegin, Hf, Hr. rewrite <- app_assoc. reflexivity.
Qed.

Variable cfg : Config.

(** X9. The plan audit only reads. Whatever the driver answers and however
    CheckSeqScan ends, every call it adds is one of: DB.Begin(), the SET of
    enable_seqscan in the transaction it opened, the EXPLAIN of the
    statement (ANALYZE false) in that transaction, the rollback of that
    transaction, and the Close of the cursor. It never commits and never
    sends the statement itself. *)
Theorem audit_never_commits_nor_runs_the_statement
  (query : string) (args : list any) (t : Trace) :
  exists evs,
    snd (CheckSeqScan env cfg query args t) = (t ++ evs)%list
    /\ forall ev, In ev evs ->
         ev = EvBegin
         \/ exists tx, dbBegin env t = inr tx /\ In ev (auditTrace tx query args).
Proof.
  unfold CheckSeqScan.
  destruct (negb (useSeqScanCheck cfg)
            || StrContainWithIgnoreCase env query seqScanCheckDisableClause).
  { exists []. split; [symmetry; apply app_nil_r|intros ev []]. }
  unfold isDebugMode.
  destruct (String.eqb (Mode cfg) MODE_PRODUCTION).
  { exists []. split; [symmetry; apply app_nil_r|intros ev []]. }
  destruct (String.eqb (Mode cfg) MODE_DEBUG);
    [|exists []; split; [symmetry; apply app_nil_r|intros ev []]].
  unfold Begin, ConnExec, ConnQuery, Rollback, RowsClose, defer, liftRes, bind, call, ret,
    panic.
  cbn [negb].
  destruct (dbBegin env t) as [err|tx] eqn:Hbegin.
  { exists [EvBegin]. split; [reflexivity|]. intros ev [<-|[]]. left. reflexivity. }
  assert (Hin : forall evs ev,
             incl evs (auditTrace tx query args) -> In ev evs ->
             ev = EvBegin
             \/ exists tx0, @inr error TxId tx = inr tx0 /\ In ev (auditTrace tx0 query args)).
  { intros evs ev Hincl Hev. right. exists tx. split; [reflexivity|]. now apply Hincl. }
  destruct (connExec env _ (InTx tx) _ []) as [err|res].
  { eexists. split; [cbn [snd]; rewrite <- !app_assoc; reflexivity|].
    intros ev. apply Hin. intros x Hx. cbn in Hx |- *. tauto. }
  destruct (connQuery env _ (InTx tx) _ args) as [err|rows].
  { eexists. split; [cbn [snd]; rewrite <- !app_assoc; reflexivity|].
    intros ev. apply Hin. intros x Hx. cbn in Hx |- *. tauto. }
  destruct (explainLoop env (rowsData rows) []) as [r|v].
  2:{ eexists. split; [cbn [snd]; rewrite <- !app_assoc; reflexivity|].
      intros ev. apply Hin. intros x Hx. cbn in Hx |- *. tauto. }
  destruct (rowsErr rows) as [err|].
  { eexists. split; [cbn [snd]; rewrite <- !app_assoc; reflexivity|].
    intros ev. apply Hin. intros x Hx. cbn in Hx |- *. tauto. }
  destruct (txRollback env _ tx) as [err|].
  { eexists. split; [cbn [snd]; rewrite <- !app_assoc; reflexivity|].
    intros ev. apply Hin. intros x Hx. cbn in Hx |- *. tauto. }
  exists (auditTrace tx query args). split; [|intros ev; apply Hin; apply incl_refl].
  unfold auditTrace.
  destruct r as [|doc [|doc2 r]]; cbn [snd]; try (rewrite <- !app_assoc; reflexivity).
  destruct (jsonPlans env doc) as [err|[|j [|j2 js]]];
    try (cbn [snd]; rewrite <- !app_assoc; reflexivity).
  destruct (planHasSeqScan env (cutPlan 10 j)); cbn [snd]; rewrite <- !app_assoc; reflexivity.
Qed.

(** X10. Query closes the cursor on every path. Once the statement has
    passed the checks and the driver has answered with a cursor, whatever
    happens next (a model that is no struct, a column without a field, a
    failed Scan, an error of the cursor, a panic of the audit, or a normal
    return), the statement was the first call Query made and rows.Close()
    is the last one. *)
Theorem query_always_closes_the_cursor
  (tx : option Conn) (model : GoValue) (query : string) (args : list any)
  (t : Trace) (rows : Rows) :
  queryChecks env cfg query args = None ->
  connQuery env t (orDB tx) query args = inr rows ->
  exists evs,
    snd (Query env cfg tx (Some model) query args t)
    = (t ++ EvQuery (orDB tx) query args :: evs ++ [EvRowsClose])%list.
Proof.
  intros Hchecks Hconn. rewrite Query_unfold, Hchecks, Hconn.
  destruct (materialize env model rows) as [r|v].
  2:{ exists []. reflexivity. }
  unfold isDebugMode.
  destruct (String.eqb (Mode cfg) MODE_PRODUCTION).
  { exists []. cbn. rewrite <- app_assoc. reflexivity. }
  destruct (String.eqb (Mode cfg) MODE_DEBUG).
  2:{ exists []. cbn. rewrite <- app_assoc. reflexivity. }
  cbn [ret].
  destruct (extends_CheckSeqScan env cfg query args (t ++ [EvQuery (orDB tx) query args])%list)
    as [evs Hevs].
  exists evs.
  destruct (CheckSeqScan env cfg query args _) as [[[|]|v] t2]; cbn [snd] in Hevs |- *;
    subst t2; rewrite <- !app_assoc; reflexivity.
Qed.

Lemma isDebugMode_invalid (c : Config) (t : Trace) :
  String.eqb (Mode c) MODE_PRODUCTION = false ->
  String.eqb (Mode c) MODE_DEBUG = false ->
  isDebugMode c t = (Panicked (PanicString "invalid Mode"), t).
Proof. intros H1 H2. unfold isDebugMode. rewrite H1, H2. reflexivity. Qed.

(** X11. A Mode that is neither MODE_PRODUCTION nor MODE_DEBUG is found
    out only after the statement ran. A statement that Exec runs to a
    result in production mode, or Query to records, is sent to the driver in
    the same way under such a Mode (and the cursor is closed); then the
    call panics with "invalid Mode" instead of returning. *)
Theorem invalid_mode_panics_after_the_statement_ran
  (tx : option Conn) (mp : option GoValue) (query : string) (args : list any)
  (t t1 : Trace) :
  String.eqb (Mode cfg) MODE_PRODUCTION = false ->
  String.eqb (Mode cfg) MODE_DEBUG = false ->
  (forall result,
     Exec env (withMode MODE_PRODUCTION cfg) tx query args t
       = (Returned (Some result, None), t1) ->
     Exec env cfg tx query args t = (Panicked (PanicString "invalid Mode"), t1))
  /\ (forall r,
        Query env (withMode MODE_PRODUCTION cfg) tx mp query args t
          = (Returned (r, None), t1) ->
        Query env cfg tx mp query args t = (Panicked (PanicString "invalid Mode"), t1)).
Proof.
  intros H1 H2. split.
  - intros result Hprod.
    assert (Hstmt : forall c : Config,
      execStatement env c tx query args t
      = match connExec env t (orDB tx) query args with
        | inl err =>
          (match isAssumedSQLError err with
           | Some e => Returned (None, Some e)
           | None => Panicked (PanicString (queryFailed err query))
           end, (t ++ [EvExec (orDB tx) query args])%list)
        | inr res =>
          match isDebugMode c (t ++ [EvExec (orDB tx) query args])%list with
          | (Returned true, t') =>
            match CheckSeqScan env c query args t' with
            | (Returned true, t2) => (Returned (Some res, None), t2)
            | (Returned false, t2) => (Panicked (PanicString (PanicSQLIsSeqScan query)), t2)
            | (Panicked v, t2) => (Panicked v, t2)
            end
          | (Returned false, t') => (Returned (Some res, None), t')
          | (Panicked v, t') => (Panicked v, t')
          end
        end).
    { intros c. unfold execStatement, ConnExec, bind, call, ret, panic.
      destruct (connExec env t (orDB tx) query args) as [err|res].
      - destruct (isAssumedSQLError err); reflexivity.
      - destruct (isDebugMode c _) as [[[|]|v] t']; try reflexivity.
        destruct (CheckSeqScan env c query args t') as [[[|]|v] t2]; reflexivity. }
    unfold Exec in *. cbn [withMode useWhereCheck forceUpdatedAtCheck] in Hprod.
    repeat match type of Hprod with
           | (if ?c then _ else _) _ = _ => destruct c; [discriminate Hprod|]
           | (if ?c then _ else _) _ = _ => destruct c
           end;
      rewrite Hstmt in Hprod |- *;
      (destruct (connExec env t (orDB tx) query args) as [err|res];
       [destruct (isAssumedSQLError err); discriminate Hprod|]);
      rewrite isDebugMode_production in Hprod by reflexivity;
      rewrite (isDebugMode_invalid _ _ H1 H2);
      injection Hprod as _ <-; reflexivity.
  - intros r Hprod. destruct mp as [model|]; [|discriminate Hprod].
    rewrite Query_unfold in Hprod |- *.
    change (queryChecks env (withMode MODE_PRODUCTION cfg) query args)
      with (queryChecks env cfg query args) in Hprod.
    destruct (queryChecks env cfg query args); [discriminate Hprod|].
    destruct (connQuery env t (orDB tx) query args) as [err|rows].
    { destruct (isAssumedSQLError err); discriminate Hprod. }
    destruct (materialize env model rows) as [r'|v]; [|discriminate Hprod].
    rewrite isDebugMode_production in Hprod by reflexivity.
    rewrite (isDebugMode_invalid _ _ H1 H2).
    injection Hprod as _ <-. reflexivity.
Qed.

End Lifecycle.

Lemma transaction_ends_what_it_began_example :
  exists tail,
    snd (Transaction (exampleEnv noRows indexPlan None)
           (fun _ => panic (PanicString "boom")) [])
    = ([EvBegin] ++ tail)%list
    /\ List.filter endsTransaction tail = [EvRollback 1].
Proof.
  apply (transaction_ends_what_it_began (exampleEnv noRows indexPlan None)
           (fun _ => panic (PanicString "boom")) [] [EvBegin] 1
           (Panicked (PanicString "boom")) eq_refl eq_refl).
Defined.

Lemma transaction_returns_nil_only_when_committed_example :
  exists tx t2,
    dbBegin (exampleEnv noRows indexPlan None) [] = inr tx
    /\ Exec (exampleEnv noRows indexPlan None) (withMode MODE_PRODUCTION defaultConfig)
         (Some (InTx tx)) "INSERT INTO users (name) VALUES ($1)" [AString "a"]
         ([] ++ [EvBegin])%list
       = (Returned (Some {| LastInsertId := 0; RowsAffected := 1 |}, None), t2)
    /\ txCommit (exampleEnv noRows indexPlan None) t2 tx = None
    /\ [EvBegin; EvExec (InTx 1) "INSERT INTO users (name) VALUES ($1)" [AString "a"];
        EvCommit 1] = (t2 ++ [EvCommit tx])%list.
Proof.
  destruct (transaction_returns_nil_only_when_committed (exampleEnv noRows indexPlan None)
              (fun tx => let* answer :=
                           Exec (exampleEnv noRows indexPlan None)
                             (withMode MODE_PRODUCTION defaultConfig) (Some (InTx tx))
                             "INSERT INTO users (name) VALUES ($1)" [AString "a"] in
                         ret (snd answer))
              []
              [EvBegin; EvExec (InTx 1) "INSERT INTO users (name) VALUES ($1)" [AString "a"];
               EvCommit 1] eq_refl) as (tx & t2 & Hb & Hf & Hc & Ht).
  injection Hb as <-. cbn in Hf. injection Hf as <-.
  exists 1, [EvBegin; EvExec (InTx 1) "INSERT INTO users (name) VALUES ($1)" [AString "a"]].
  repeat split.
Defined.

Lemma query_always_closes_the_cursor_example :
  exists evs,
    snd (Query (exampleEnv twoRows indexPlan None) defaultConfig None (Some (VOther (AInt 1)))
           "SELECT * FROM users WHERE id > $1" [AInt 0] [])
    = ([] ++ EvQuery (orDB None) "SELECT * FROM users WHERE id > $1" [AInt 0]
          :: evs ++ [EvRowsClose])%list.
Proof.
  apply (query_always_closes_the_cursor (exampleEnv twoRows indexPlan None) defaultConfig
           None (VOther (AInt 1)) "SELECT * FROM users WHERE id > $1" [AInt 0] [] twoRows
           eq_refl eq_refl).
Defined.

Lemma invalid_mode_panics_after_the_statement_ran_example :
  Exec (exampleEnv noRows indexPlan None) withTypo None
    "INSERT INTO users (name) VALUES ($1)" [AString "a"] []
  = (Panicked (PanicString "invalid Mode"),
     [EvExec Pool "INSERT INTO users (name) VALUES ($1)" [AString "a"]]).
Proof.
  apply (proj1 (invalid_mode_panics_after_the_statement_ran
                  (exampleEnv noRows indexPlan None) withTypo None None
                  "INSERT INTO users (name) VALUES ($1)" [AString "a"] []
                  [EvExec Pool "INSERT INTO users (name) VALUES ($1)" [AString "a"]]
                  eq_refl eq_refl) {| LastInsertId := 0; RowsAffected := 1 |}).
  reflexivity.
Defined.
(** ** The statement builders *)

(** X12. replacePlaceholders leaves no "?" in the statement; it writes one
    "$" for each "?", beside the "$" that were there; and the numbers count
    the "?" from left to right, starting after [startIdx]: the "?" that
    follows the text [a] becomes "$" with the number [startIdx], plus the
    "?" in [a], plus one. *)
Theorem replace_placeholders_numbers_from_left_to_right
  (query a b : string) (startIdx : nat) :
  Count (replacePlaceholders query startIdx) "?"%char = 0
  /\ Count (replacePlaceholders query startIdx) "$"%char
     = Count query "$"%char + Count query "?"%char
  /\ replacePlaceholders (a ++ "?" ++ b) startIdx
     = replacePlaceholders a startIdx
       ++ "$" ++ Itoa (startIdx + Count a "?"%char + 1)
       ++ replacePlaceholders b (startIdx + Count a "?"%char + 1).
Proof.
  unfold replacePlaceholders. split; [apply Count_replaceFrom_question|].
  split; [apply Count_replaceFrom_dollar|].
  rewrite replaceFrom_append. f_equal.
  change ("?" ++ b) with (String "?"%char b). cbn [replaceFrom Ascii.eqb Bool.eqb].
  rewrite (Nat.add_1_r (startIdx + Count a "?"%char)).
  rewrite append_assoc. reflexivity.
Qed.

(** *** Table names *)

Lemma lowerByte_not_upper (c : ascii) : isUpperByte (lowerByte c) = false.
Proof. destruct c as [[] [] [] [] [] [] [] []]; reflexivity. Qed.

Lemma lowerByte_isNameByte (c : ascii) : isNameByte (lowerByte c) = isNameByte c.
Proof. destruct c as [[] [] [] [] [] [] [] []]; reflexivity. Qed.

Lemma lowerByte_ascii (c : ascii) :
  (nat_of_ascii (lowerByte c) <? 128)%nat = (nat_of_ascii c <? 128)%nat.
Proof. destruct c as [[] [] [] [] [] [] [] []]; reflexivity. Qed.

Lemma isNameByte_ascii (c : ascii) :
  isNameByte c = true -> (nat_of_ascii c <? 128)%nat = true.
Proof. destruct c as [[] [] [] [] [] [] [] []]; intros H; try reflexivity; discriminate H. Qed.

Lemma isASCII_mapBytes_lowerByte (s : string) :
  isASCII (mapBytes lowerByte s) = isASCII s.
Proof.
  induction s as [|c s IH]; [reflexivity|]. cbn [mapBytes isASCII].
  rewrite lowerByte_ascii, IH. reflexivity.
Qed.

(** A fact about camelToSnake follows from the same fact about the text
    behind each of the two ways it steps. *)
Lemma camelToSnake_ind (P : string -> string -> Prop) :
  P "" "" ->
  (forall a, P (String a "") (String a "")) ->
  (forall a b rest out,
     isLowerOrDigitByte a && isUpperByte b = true ->
     P rest out ->
     P (String a (String b rest)) (String a (String "_"%char (String b out)))) ->
  (forall a b rest out,
     isLowerOrDigitByte a && isUpperByte b = false ->
     P (String b rest) out ->
     P (String a (String b rest)) (String a out)) ->
  forall str, P str (camelToSnake str).
Proof.
  intros H0 H1 Hmatch Hstep.
  assert (Hboth : forall str, P str (camelToSnake str)
                              /\ forall a, P (String a str) (camelToSnake (String a str))).
  { induction str as [|b rest [IH1 IH2]].
    - split; [exact H0|exact H1].
    - split; [apply IH2|]. intros a. cbn [camelToSnake].
      destruct (isLowerOrDigitByte a && isUpperByte b) eqn:E.
      + apply Hmatch; [exact E|]. exact IH1.
      + apply Hstep; [exact E|]. apply IH2. }
  intros str. apply Hboth.
Qed.

Lemma camelToSnake_forallb (p : ascii -> bool) (str : string) :
  p "_"%char = true ->
  forallb p (bytes (camelToSnake str)) = forallb p (bytes str).
Proof.
  intros Hp. apply (camelToSnake_ind (fun s out => forallb p (bytes out) = forallb p (bytes s))).
  - reflexivity.
  - reflexivity.
  - intros a b rest out _ IH. unfold bytes in *. cbn [list_ascii_of_string forallb] in *.
    rewrite Hp, IH. reflexivity.
  - intros a b rest out _ IH. unfold bytes in *. cbn [list_ascii_of_string forallb] in *.
    rewrite IH. reflexivity.
Qed.

Lemma isASCII_forallb (s : string) :
  isASCII s = forallb (fun c => (nat_of_ascii c <? 128)%nat) (bytes s).
Proof.
  unfold bytes. induction s as [|c s IH]; [reflexivity|].
  cbn [isASCII list_ascii_of_string forallb]. rewrite IH. reflexivity.
Qed.

Lemma isASCII_camelToSnake (str : string) : isASCII (camelToSnake str) = isASCII str.
Proof. rewrite !isASCII_forallb. now apply camelToSnake_forallb. Qed.

Lemma bytes_mapBytes (f : ascii -> ascii) (s : string) :
  bytes (mapBytes f s) = map f (bytes s).
Proof.
  unfold bytes. induction s as [|c s IH]; [reflexivity|].
  cbn [mapBytes list_ascii_of_string map]. f_equal. exact IH.
Qed.

Lemma bytes_append (a b : string) : bytes (a ++ b) = (bytes a ++ bytes b)%list.
Proof.
  unfold bytes. induction a as [|c a IH]; [reflexivity|].
  rewrite append_cons. cbn [list_ascii_of_string app]. f_equal. exact IH.
Qed.

Section TableNames.

Variable env : Env.

Lemma toTableName_ascii (str : string) :
  isASCII str = true ->
  toTableName env str = mapBytes lowerByte (camelToSnake str) ++ "s".
Proof.
  intros H. unfold toTableName, ToLower. rewrite isASCII_camelToSnake, H. reflexivity.
Qed.

(** X13. toTableName only adds to the name: without its underscores, the
    text camelToSnake writes is the name without its underscores. For a name
    of ASCII bytes the table name is that text in lower case followed by
    "s", and holds none of the letters A to Z. *)
Theorem table_name_is_the_lower_case_name_with_underscores (str : string) :
  withoutUnderscores (camelToSnake str) = withoutUnderscores str
  /\ (isASCII str = true ->
      toTableName env str = mapBytes lowerByte (camelToSnake str) ++ "s"
      /\ Forall (fun c => isUpperByte c = false) (bytes (toTableName env str))).
Proof.
  split.
  - apply (camelToSnake_ind (fun s out => withoutUnderscores out = withoutUnderscores s)).
    + reflexivity.
    + reflexivity.
    + intros a b rest out _ IH. cbn [withoutUnderscores Ascii.eqb Bool.eqb].
      rewrite IH. reflexivity.
    + intros a b rest out _ IH. cbn [withoutUnderscores] in *.
      rewrite IH. reflexivity.
  - intros H. split; [now apply toTableName_ascii|].
    rewrite toTableName_ascii by exact H.
    rewrite bytes_append, bytes_mapBytes. apply Forall_app. split.
    + apply Forall_forall. intros c Hc. rewrite list_elem_of_In in Hc.
      apply in_map_iff in Hc as (c0 & <- & _).
      apply lowerByte_not_upper.
    + repeat constructor.
Qed.

End TableNames.

Lemma table_name_is_the_lower_case_name_with_underscores_example :
  toTableName (exampleEnv noRows indexPlan None) "OrderItem2Go" = "order_item2_gos"
  /\ Forall (fun c => isUpperByte c = false)
       (bytes (toTableName (exampleEnv noRows indexPlan None) "OrderItem2Go")).
Proof.
  destruct (proj2 (table_name_is_the_lower_case_name_with_underscores
                     (exampleEnv noRows indexPlan None) "OrderItem2Go") eq_refl) as [H1 H2].
  split; [exact H1|exact H2].
Defined.
(** *** Placeholders and values *)

Lemma marks_append (a b : string) : marks (a ++ b) = marks a + marks b.
Proof. unfold marks. rewrite !Count_append. lia. Qed.

Lemma Count_Join (elems : list string) (sep : string) (c : ascii) :
  Count sep c = 0 ->
  Count (Join elems sep) c = list_sum (map (fun e => Count e c) elems).
Proof.
  intros Hsep. induction elems as [|e elems IH]; [reflexivity|].
  destruct elems as [|e' elems].
  - cbn. lia.
  - change (Join (e :: e' :: elems) sep) with (e ++ sep ++ Join (e' :: elems) sep).
    rewrite !Count_append, Hsep, IH. cbn. lia.
Qed.

Lemma marks_Join (elems : list string) (sep : string) :
  marks sep = 0 -> marks (Join elems sep) = marksOf elems.
Proof.
  unfold marks, marksOf. intros Hsep.
  rewrite (Count_Join elems sep "$"%char), (Count_Join elems sep "?"%char) by lia.
  clear Hsep. induction elems as [|e elems IH]; [reflexivity|].
  unfold list_sum in *. cbn [map fold_right] in *. unfold marks at 1. lia.
Qed.

Lemma marks_whereText (whereClauses : list string) :
  marks (whereText whereClauses) = marksOf whereClauses.
Proof.
  unfold whereText. destruct whereClauses as [|w ws]; [reflexivity|].
  cbn [length Nat.ltb Nat.leb]. rewrite marks_append, marks_Join by reflexivity. reflexivity.
Qed.

Lemma marks_orderByText (orderByClauses : list string) :
  marks (orderByText orderByClauses) = marksOf orderByClauses.
Proof.
  unfold orderByText. destruct orderByClauses as [|w ws]; [reflexivity|].
  cbn [length Nat.ltb Nat.leb]. rewrite marks_append, marks_Join by reflexivity. reflexivity.
Qed.

Lemma marksOf_app (a b : list string) : marksOf (a ++ b) = marksOf a + marksOf b.
Proof. unfold marksOf. rewrite map_app, list_sum_app. reflexivity. Qed.

Lemma Count_replacePlaceholders (query : string) (startIdx : nat) :
  Count (replacePlaceholders query startIdx) "$"%char = marks query.
Proof. apply Count_replaceFrom_dollar. Qed.

Lemma replaceFrom_clean (query : string) (idx : nat) :
  Count query "?"%char = 0 -> replaceFrom query idx = query.
Proof.
  induction query as [|c query IH]; [reflexivity|]. cbn [Count replaceFrom].
  destruct (Ascii.eqb c "?"%char); [discriminate|].
  intros H. rewrite IH by exact H. reflexivity.
Qed.

Section Select.

Variable env : Env.

Lemma getQuerySQL_run (s : GoValue) (whereClauses : list string) (whereValues : list any)
  (orderByClauses : list string) (limitOffset : option (gmap string Z))
  (typeName : string) (fields : list Field) :
  checkAndGetStructValue s = Returned (typeName, fields) ->
  getQuerySQL env s whereClauses whereValues orderByClauses limitOffset
  = Returned
      (replacePlaceholders
         (selectHead env typeName whereClauses orderByClauses
          ++ (match limitOffsetAt limitOffset "limit" with
              | Some _ => " LIMIT ?"
              | None => ""
              end)
          ++ (match limitOffsetAt limitOffset "offset" with
              | Some _ => " OFFSET ?"
              | None => ""
              end)) 0,
       (whereValues ++ boundFor (limitOffsetAt limitOffset "limit")
        ++ boundFor (limitOffsetAt limitOffset "offset"))%list).
Proof.
  intros Hs. unfold getQuerySQL, selectHead, limitOffsetAt. rewrite Hs.
  fold (whereText whereClauses). fold (orderByText orderByClauses).
  cbn [fst app].
  destruct limitOffset as [m|];
    [destruct (m !! "limit") as [l|]; destruct (m !! "offset") as [o|]|];
    cbn [boundFor]; rewrite ?app_nil_r, <- ?app_assoc, !append_assoc; reflexivity.
Qed.

(** X14. getQuerySQL on a struct. The values are the where-values, then
    the limit if the map has the key "limit", then the offset if it has the
    key "offset"; other keys are not read, and a nil map is an empty one.
    When the statement up to its LIMIT part holds one "?" per where-value,
    the placeholders written for LIMIT and OFFSET carry the positions the
    limit and the offset have in the value list. *)
Theorem select_numbers_limit_and_offset_after_the_conditions
  (s : GoValue) (whereClauses : list string) (whereValues : list any)
  (orderByClauses : list string) (limitOffset : option (gmap string Z))
  (typeName : string) (fields : list Field) :
  checkAndGetStructValue s = Returned (typeName, fields) ->
  Count (selectHead env typeName whereClauses orderByClauses) "?"%char = length whereValues ->
  getQuerySQL env s whereClauses whereValues orderByClauses limitOffset
  = Returned
      (replacePlaceholders (selectHead env typeName whereClauses orderByClauses) 0
       ++ (match limitOffsetAt limitOffset "limit" with
           | Some _ => " LIMIT $" ++ Itoa (length whereValues + 1)
           | None => ""
           end)
       ++ (match limitOffsetAt limitOffset "offset" with
           | Some _ =>
             " OFFSET $"
             ++ Itoa (length whereValues + present (limitOffsetAt limitOffset "limit") + 1)
           | None => ""
           end),
       (whereValues ++ boundFor (limitOffsetAt limitOffset "limit")
        ++ boundFor (limitOffsetAt limitOffset "offset"))%list).
Proof.
  intros Hs Hcount. rewrite (getQuerySQL_run _ _ _ _ _ _ _ Hs). f_equal. f_equal.
  unfold replacePlaceholders. rewrite replaceFrom_append, Hcount. f_equal.
  cbn [Nat.add].
  destruct (limitOffsetAt limitOffset "limit") as [l|];
    destruct (limitOffsetAt limitOffset "offset") as [o|]; cbn [present].
  - change (" LIMIT ?" ++ " OFFSET ?") with (" LIMIT " ++ "?" ++ " OFFSET " ++ "?" ++ "").
    rewrite !replaceFrom_append. cbn [Count Ascii.eqb Bool.eqb Nat.add].
    rewrite !Nat.add_0_r, !Nat.add_1_r.
    cbn [replaceFrom Ascii.eqb Bool.eqb].
    rewrite !append_assoc, !append_nil_r. reflexivity.
  - change (" LIMIT ?" ++ "") with (" LIMIT " ++ "?" ++ "").
    rewrite !replaceFrom_append. cbn [Count Ascii.eqb Bool.eqb Nat.add].
    rewrite !Nat.add_0_r, !Nat.add_1_r.
    cbn [replaceFrom Ascii.eqb Bool.eqb].
    rewrite !append_assoc, !append_nil_r. reflexivity.
  - change ("" ++ " OFFSET ?") with (" OFFSET " ++ "?" ++ "").
    rewrite !replaceFrom_append. cbn [Count Ascii.eqb Bool.eqb Nat.add].
    rewrite !Nat.add_0_r, !Nat.add_1_r.
    cbn [replaceFrom Ascii.eqb Bool.eqb].
    rewrite !append_assoc, !append_nil_r. reflexivity.
  - reflexivity.
Qed.

End Select.

Lemma select_numbers_limit_and_offset_after_the_conditions_example :
  getQuerySQL (exampleEnv noRows indexPlan None) (VStruct "TestStruct" [])
    ["name = ?"] [AString "John"] ["age DESC"]
    (Some (<["limit" := 10%Z]> (<["offset" := 5%Z]> ∅)))
  = Returned
      ("SELECT * FROM test_structs WHERE name = $1 ORDER BY age DESC LIMIT $2 OFFSET $3",
       [AString "John"; AInt 10; AInt 5]).
Proof.
  rewrite (select_numbers_limit_and_offset_after_the_conditions
             (exampleEnv noRows indexPlan None) (VStruct "TestStruct" [])
             ["name = ?"] [AString "John"] ["age DESC"]
             (Some (<["limit" := 10%Z]> (<["offset" := 5%Z]> ∅))) "TestStruct" []
             eq_refl eq_refl).
  vm_compute. reflexivity.
Defined.
Section Accounting.

Variable env : Env.

Lemma getDeleteSQL_run (s : GoValue) (whereClauses : list string)
  (typeName : string) (fields : list Field) :
  checkAndGetStructValue s = Returned (typeName, fields) ->
  getDeleteSQL env s whereClauses
  = Returned (replacePlaceholders
                ("DELETE FROM " ++ toTableName env typeName ++ whereText whereClauses) 0).
Proof. intros Hs. unfold getDeleteSQL. rewrite Hs. reflexivity. Qed.

(** X15. The builders write one "$" per mark of the texts they are given
    (a mark is a "?" or a "$" in the table name or in a clause), and one
    more for each value they add themselves: the limit and the offset of
    getQuerySQL, the updated_at of getUpdateSQL. So the statement passes the
    placeholder check of Query and Exec exactly when the table name and the
    clauses hold as many marks as the caller gave values. *)
Theorem builders_write_one_placeholder_per_mark
  (s : GoValue) (whereClauses : list string) (whereValues : list any)
  (orderByClauses : list string) (limitOffset : option (gmap string Z))
  (setClauses : list string) (setValues : list any) (t : Trace)
  (typeName : string) (fields : list Field) :
  checkAndGetStructValue s = Returned (typeName, fields) ->
  (exists query values,
     getQuerySQL env s whereClauses whereValues orderByClauses limitOffset
       = Returned (query, values)
     /\ Count query "$"%char
        = marks (toTableName env typeName) + marksOf whereClauses + marksOf orderByClauses
          + present (limitOffsetAt limitOffset "limit")
          + present (limitOffsetAt limitOffset "offset")
     /\ length values
        = length whereValues + present (limitOffsetAt limitOffset "limit")
          + present (limitOffsetAt limitOffset "offset"))
  /\ (exists query,
        getDeleteSQL env s whereClauses = Returned query
        /\ Count query "$"%char = marks (toTableName env typeName) + marksOf whereClauses)
  /\ (exists query values,
        getUpdateSQL env s whereClauses whereValues setClauses setValues t
          = (Returned (query, values), (t ++ [EvNow])%list)
        /\ Count query "$"%char
           = marks (toTableName env typeName) + marksOf setClauses + 1
             + marksOf whereClauses
        /\ length values = length setValues + 1 + length whereValues).
Proof.
  intros Hs. split; [|split].
  - eexists _, _. split; [apply (getQuerySQL_run env _ _ _ _ _ _ _ Hs)|].
    rewrite Count_replacePlaceholders. unfold selectHead.
    rewrite !marks_append, marks_whereText, marks_orderByText. split.
    + destruct (limitOffsetAt limitOffset "limit");
        destruct (limitOffsetAt limitOffset "offset"); cbn; lia.
    + rewrite !length_app.
      destruct (limitOffsetAt limitOffset "limit");
        destruct (limitOffsetAt limitOffset "offset"); cbn; lia.
  - eexists. split; [apply (getDeleteSQL_run _ _ _ _ Hs)|].
    rewrite Count_replacePlaceholders, !marks_append, marks_whereText. cbn. lia.
  - eexists _, _. split; [apply (getUpdateSQL_run env _ _ _ _ _ _ _ _ Hs)|].
    fold (whereText whereClauses).
    rewrite Count_replacePlaceholders, !marks_append, marks_whereText.
    rewrite marks_Join by reflexivity. rewrite marksOf_app. split.
    + cbn. lia.
    + rewrite !length_app, length_map. cbn. lia.
Qed.

End Accounting.

Lemma builders_write_one_placeholder_per_mark_example :
  exists query values,
    getQuerySQL (exampleEnv noRows indexPlan None) (VStruct "TestStruct" [])
      ["uid IN (?, ?, ?)"] [AString "a"; AString "b"; AString "c"] []
      (Some (<["limit" := 10%Z]> ∅))
    = Returned (query, values)
    /\ Count query "$"%char = 4
    /\ length values = 4.
Proof.
  destruct (builders_write_one_placeholder_per_mark (exampleEnv noRows indexPlan None)
              (VStruct "TestStruct" []) ["uid IN (?, ?, ?)"]
              [AString "a"; AString "b"; AString "c"] []
              (Some (<["limit" := 10%Z]> ∅)) [] [] [] "TestStruct" [] eq_refl)
    as [(query & values & Hq & Hc & Hl) _].
  exists query, values. split; [exact Hq|]. split; [exact Hc|exact Hl].
Defined.
(** *** Statements without a condition *)

Lemma HasPrefix_Count (s prefix : string) (c : ascii) :
  HasPrefix s prefix = true -> Count prefix c <= Count s c.
Proof.
  intros H. apply HasPrefix_spec in H as [post ->]. rewrite Count_append. lia.
Qed.

Lemma Contains_Count (s substr : string) (c : ascii) :
  Contains s substr = true -> Count substr c <= Count s c.
Proof.
  intros H. apply Contains_spec in H as (pre & post & ->). rewrite !Count_append. lia.
Qed.

Lemma Count_forallb (p : ascii -> bool) (s : string) (c : ascii) :
  forallb p (bytes s) = true -> p c = false -> Count s c = 0.
Proof.
  unfold bytes. intros Hs Hc. induction s as [|x s IH]; [reflexivity|].
  cbn [list_ascii_of_string forallb] in Hs. apply andb_true_iff in Hs as [Hx Hs].
  cbn [Count]. rewrite (IH Hs).
  destruct (Ascii.eqb_spec x c) as [->|_]; [congruence|reflexivity].
Qed.

Lemma plainName_Count (s : string) (c : ascii) :
  plainName s = true -> isNameByte c = false -> Count s c = 0.
Proof. apply Count_forallb. Qed.

Lemma plainName_isASCII (s : string) : plainName s = true -> isASCII s = true.
Proof.
  unfold plainName. rewrite isASCII_forallb. intros H.
  apply forallb_forall. intros c Hc. apply isNameByte_ascii.
  now apply (proj1 (forallb_forall _ _) H).
Qed.

Lemma plainName_mapBytes_lowerByte (s : string) :
  plainName (mapBytes lowerByte s) = plainName s.
Proof.
  unfold plainName, bytes. induction s as [|c s IH]; [reflexivity|].
  cbn [mapBytes list_ascii_of_string forallb]. rewrite lowerByte_isNameByte, IH. reflexivity.
Qed.

Lemma plainName_append (a b : string) : plainName (a ++ b) = plainName a && plainName b.
Proof. unfold plainName. rewrite bytes_append. apply forallb_app. Qed.

Lemma append_nil_l (a : string) : "" ++ a = a.
Proof. reflexivity. Qed.

Section Refusals.

Variable env : Env.
Variable cfg : Config.

(** The table of a struct with a plain name: plain, and in lower case. *)
Lemma toTableName_plain (typeName : string) :
  plainName typeName = true ->
  plainName (toTableName env typeName) = true
  /\ mapBytes lowerByte (toTableName env typeName) = toTableName env typeName.
Proof.
  intros H. rewrite toTableName_ascii by now apply plainName_isASCII.
  split.
  - rewrite plainName_append, plainName_mapBytes_lowerByte. unfold plainName at 1.
    rewrite camelToSnake_forallb by reflexivity. fold (plainName typeName).
    rewrite H. reflexivity.
  - rewrite mapBytes_append. f_equal.
    generalize (camelToSnake typeName). intros s.
    induction s as [|c s IH]; [reflexivity|]. cbn [mapBytes]. rewrite IH. f_equal.
    destruct c as [[] [] [] [] [] [] [] []]; reflexivity.
Qed.

(** What the checks read in a statement that is a fixed head followed by
    a plain table name. *)
Lemma delete_head_checks (table : string) :
  plainName table = true ->
  mapBytes lowerByte table = table ->
  StrContainWithIgnoreCase env ("DELETE FROM " ++ table) "DELETE " = true
  /\ StrContainWithIgnoreCase env ("DELETE FROM " ++ table) " WHERE " = false
  /\ StrContainWithIgnoreCase env ("DELETE FROM " ++ table) disableWhereCheckClause = false.
Proof.
  intros Hplain Hlower.
  assert (Hspace : Count table " "%char = 0) by now apply plainName_Count.
  assert (Hascii : isASCII ("DELETE FROM " ++ table) = true).
  { rewrite isASCII_append, (plainName_isASCII _ Hplain). reflexivity. }
  unfold StrContainWithIgnoreCase, ToLower. rewrite Hascii, mapBytes_append, Hlower.
  change (mapBytes lowerByte "DELETE FROM ") with "delete from ".
  change (if isASCII "DELETE " then mapBytes lowerByte "DELETE "
          else unicodeToLower env "DELETE ") with "delete ".
  change (if isASCII " WHERE " then mapBytes lowerByte " WHERE "
          else unicodeToLower env " WHERE ") with " where ".
  change (if isASCII disableWhereCheckClause then mapBytes lowerByte disableWhereCheckClause
          else unicodeToLower env disableWhereCheckClause) with "where check disable".
  rewrite !append_cons, append_nil_l.
  assert (H1 : HasPrefix table "where " = false).
  { destruct (HasPrefix table "where ") eqn:E; [|reflexivity].
    apply (HasPrefix_Count _ _ " "%char) in E. rewrite Hspace in E. cbn in E. lia. }
  assert (H2 : Contains table " where " = false).
  { destruct (Contains table " where ") eqn:E; [|reflexivity].
    apply (Contains_Count _ _ " "%char) in E. rewrite Hspace in E. cbn in E. lia. }
  assert (H3 : Contains table "where check disable" = false).
  { destruct (Contains table "where check disable") eqn:E; [|reflexivity].
    apply (Contains_Count _ _ " "%char) in E. rewrite Hspace in E. cbn in E. lia. }
  split; [reflexivity|]. split.
  - cbn. rewrite H1, H2. reflexivity.
  - cbn. rewrite H3. reflexivity.
Qed.

Lemma select_head_checks (table : string) :
  plainName table = true ->
  mapBytes lowerByte table = table ->
  StrContainWithIgnoreCase env ("SELECT * FROM " ++ table) "SELECT " = true
  /\ StrContainWithIgnoreCase env ("SELECT * FROM " ++ table) " WHERE " = false
  /\ StrContainWithIgnoreCase env ("SELECT * FROM " ++ table) disableWhereCheckClause = false.
Proof.
  intros Hplain Hlower.
  assert (Hspace : Count table " "%char = 0) by now apply plainName_Count.
  assert (Hascii : isASCII ("SELECT * FROM " ++ table) = true).
  { rewrite isASCII_append, (plainName_isASCII _ Hplain). reflexivity. }
  unfold StrContainWithIgnoreCase, ToLower. rewrite Hascii, mapBytes_append, Hlower.
  change (mapBytes lowerByte "SELECT * FROM ") with "select * from ".
  change (if isASCII "SELECT " then mapBytes lowerByte "SELECT "
          else unicodeToLower env "SELECT ") with "select ".
  change (if isASCII " WHERE " then mapBytes lowerByte " WHERE "
          else unicodeToLower env " WHERE ") with " where ".
  change (if isASCII disableWhereCheckClause then mapBytes lowerByte disableWhereCheckClause
          else unicodeToLower env disableWhereCheckClause) with "where check disable".
  rewrite !append_cons, append_nil_l.
  assert (H1 : HasPrefix table "where " = false).
  { destruct (HasPrefix table "where ") eqn:E; [|reflexivity].
    apply (HasPrefix_Count _ _ " "%char) in E. rewrite Hspace in E. cbn in E. lia. }
  assert (H2 : Contains table " where " = false).
  { destruct (Contains table " where ") eqn:E; [|reflexivity].
    apply (Contains_Count _ _ " "%char) in E. rewrite Hspace in E. cbn in E. lia. }
  assert (H3 : Contains table "where check disable" = false).
  { destruct (Contains table "where check disable") eqn:E; [|reflexivity].
    apply (Contains_Count _ _ " "%char) in E. rewrite Hspace in E. cbn in E. lia. }
  split; [reflexivity|]. split.
  - cbn. rewrite H1, H2. reflexivity.
  - cbn. rewrite H3. reflexivity.
Qed.

Lemma plain_table_clean (typeName : string) :
  plainName typeName = true ->
  Count (toTableName env typeName) "?"%char = 0
  /\ Count (toTableName env typeName) "$"%char = 0.
Proof.
  intros H. destruct (toTableName_plain _ H) as [Hp _].
  split; now apply plainName_Count.
Qed.

(** X16. Delete without a where-clause never reaches the driver. For a
    struct whose type name is an identifier of ASCII letters, digits and
    underscores, with the WHERE check on, Delete with no where-clause panics
    before any call of the driver: with PanicDeleteSQLMustUseWhere when no
    where-value is given either, with PanicPlaceHolderNumberNotMatch
    otherwise. The only call it can make is the debug log of the
    statement. *)
Theorem delete_without_conditions_never_reaches_the_driver
  (tx : option Conn) (s : GoValue) (whereValues : list any) (t : Trace)
  (typeName : string) (fields : list Field) :
  checkAndGetStructValue s = Returned (typeName, fields) ->
  plainName typeName = true ->
  useWhereCheck cfg = true ->
  Delete env cfg tx s [] whereValues t
  = (Panicked (PanicString (if (length whereValues =? 0)%nat
                            then PanicDeleteSQLMustUseWhere
                            else PanicPlaceHolderNumberNotMatch)),
     if DebugSQL cfg
     then (t ++ [EvLog LDebug ("DELETE FROM " ++ toTableName env typeName)])%list
     else t).
Proof.
  intros Hs Hplain Hwhere.
  destruct (toTableName_plain _ Hplain) as [Hp Hl].
  destruct (plain_table_clean _ Hplain) as [Hq Hd].
  destruct (delete_head_checks _ Hp Hl) as (Hc1 & Hc2 & Hc3).
  assert (Hsql : getDeleteSQL env s [] = Returned ("DELETE FROM " ++ toTableName env typeName)).
  { rewrite (getDeleteSQL_run _ _ _ _ _ Hs). unfold whereText, replacePlaceholders.
    cbn [length Nat.ltb Nat.leb]. rewrite append_nil_r.
    rewrite replaceFrom_clean; [reflexivity|]. rewrite Count_append, Hq. reflexivity. }
  assert (Hcount : Count ("DELETE FROM " ++ toTableName env typeName) "$"%char = 0).
  { rewrite Count_append, Hd. reflexivity. }
  assert (Hexec : forall t0,
             Exec env cfg tx ("DELETE FROM " ++ toTableName env typeName) whereValues t0
             = (Panicked (PanicString (if (length whereValues =? 0)%nat
                                       then PanicDeleteSQLMustUseWhere
                                       else PanicPlaceHolderNumberNotMatch)), t0)).
  { intros t0. unfold Exec. rewrite Hcount, Hwhere, Hc1, Hc2, Hc3.
    destruct whereValues; reflexivity. }
  unfold Delete, liftRes, bind, debugSQL. rewrite Hsql.
  destruct (DebugSQL cfg); unfold Log, call, ret; apply Hexec.
Qed.

(** X17. Find and First without a where-clause never reach the driver.
    For a model whose type name is an identifier of ASCII letters, digits
    and underscores, with the WHERE check on, Find and First with no
    where-clause panic before any call of the driver: with
    PanicSelectSQLMustUseWhere when no where-value is given either, with
    PanicPlaceHolderNumberNotMatch otherwise. *)
Theorem find_without_conditions_never_reaches_the_driver
  (tx : option Conn) (whereValues : list any) (t : Trace)
  (typeName : string) (fields : list Field) :
  plainName typeName = true ->
  useWhereCheck cfg = true ->
  Find env cfg tx (Some (VStruct typeName fields)) [] whereValues t
  = (Panicked (PanicString (if (length whereValues =? 0)%nat
                            then PanicSelectSQLMustUseWhere
                            else PanicPlaceHolderNumberNotMatch)),
     if DebugSQL cfg
     then (t ++ [EvLog LDebug ("SELECT * FROM " ++ toTableName env typeName)])%list
     else t)
  /\ First env cfg tx (Some (VStruct typeName fields)) [] whereValues t
     = (Panicked (PanicString (if (length whereValues =? 0)%nat
                               then PanicSelectSQLMustUseWhere
                               else PanicPlaceHolderNumberNotMatch)),
        if DebugSQL cfg
        then (t ++ [EvLog LDebug ("SELECT * FROM " ++ toTableName env typeName)])%list
        else t).
Proof.
  intros Hplain Hwhere.
  destruct (toTableName_plain _ Hplain) as [Hp Hl].
  destruct (plain_table_clean _ Hplain) as [Hq Hd].
  destruct (select_head_checks _ Hp Hl) as (Hc1 & Hc2 & Hc3).
  assert (Hsql : getQuerySQL env (VPtr (Some (VStruct typeName fields))) [] whereValues [] None
                 = Returned ("SELECT * FROM " ++ toTableName env typeName, whereValues)).
  { rewrite (getQuerySQL_run env (VPtr (Some (VStruct typeName fields))) [] whereValues []
               None typeName fields eq_refl).
    unfold selectHead, whereText, orderByText, limitOffsetAt, replacePlaceholders.
    cbn [length Nat.ltb Nat.leb boundFor]. rewrite !append_nil_r, !app_nil_r.
    rewrite replaceFrom_clean; [reflexivity|]. rewrite Count_append, Hq. reflexivity. }
  assert (Hcount : Count ("SELECT * FROM " ++ toTableName env typeName) "$"%char = 0).
  { rewrite Count_append, Hd. reflexivity. }
  assert (Hquery : forall t0,
             Query env cfg tx (Some (VStruct typeName fields))
               ("SELECT * FROM " ++ toTableName env typeName) whereValues t0
             = (Panicked (PanicString (if (length whereValues =? 0)%nat
                                       then PanicSelectSQLMustUseWhere
                                       else PanicPlaceHolderNumberNotMatch)), t0)).
  { intros t0. unfold Query. rewrite Hcount, Hwhere, Hc1, Hc2, Hc3.
    destruct whereValues; reflexivity. }
  split.
  - unfold Find, liftRes, bind, debugSQL. rewrite Hsql.
    destruct (DebugSQL cfg); unfold Log, call, ret; apply Hquery.
  - unfold First, QueryFirst, liftRes, bind, debugSQL. rewrite Hsql.
    destruct (DebugSQL cfg); unfold Log, call, ret; rewrite Hquery; reflexivity.
Qed.

End Refusals.

Lemma delete_without_conditions_never_reaches_the_driver_example :
  Delete (exampleEnv noRows indexPlan None) defaultConfig None zeroUser [] [] []
  = (Panicked (PanicString PanicDeleteSQLMustUseWhere), []).
Proof.
  apply (delete_without_conditions_never_reaches_the_driver
           (exampleEnv noRows indexPlan None) defaultConfig None zeroUser [] []
           "User" [userField "ID" "id" (AInt 0); userField "Name" "name" (AString "")]
           eq_refl eq_refl eq_refl).
Defined.

Lemma find_without_conditions_never_reaches_the_driver_example :
  Find (exampleEnv twoRows indexPlan None) defaultConfig None (Some zeroUser) [] [] []
  = (Panicked (PanicString PanicSelectSQLMustUseWhere), []).
Proof.
  apply (proj1 (find_without_conditions_never_reaches_the_driver
                  (exampleEnv twoRows indexPlan None) defaultConfig None [] []
                  "User" [userField "ID" "id" (AInt 0); userField "Name" "name" (AString "")]
                  eq_refl eq_refl)).
Defined.
(** *** The statement of an update and the checks of Exec *)

Lemma isASCII_replaceFrom (query : string) (idx : nat) :
  isASCII query = true -> isASCII (replaceFrom query idx) = true.
Proof.
  revert idx. induction query as [|c query IH]; intros idx H; [reflexivity|].
  cbn [isASCII] in H. apply andb_true_iff in H as [Hc H].
  cbn [replaceFrom]. destruct (Ascii.eqb c "?"%char).
  - rewrite !isASCII_append, isASCII_Itoa, (IH _ H). reflexivity.
  - cbn [isASCII]. rewrite Hc, (IH _ H). reflexivity.
Qed.

Lemma isASCII_Join (elems : list string) (sep : string) :
  isASCII sep = true ->
  Forall (fun e => isASCII e = true) elems ->
  isASCII (Join elems sep) = true.
Proof.
  intros Hsep. induction 1 as [|e elems He Hall IH]; [reflexivity|].
  destruct elems as [|e' elems]; [exact He|].
  change (Join (e :: e' :: elems) sep) with (e ++ sep ++ Join (e' :: elems) sep).
  rewrite !isASCII_append, He, Hsep, IH. reflexivity.
Qed.

Lemma isASCII_whereText (whereClauses : list string) :
  Forall (fun e => isASCII e = true) whereClauses ->
  isASCII (whereText whereClauses) = true.
Proof.
  intros H. unfold whereText. destruct (0 <? length whereClauses)%nat; [|reflexivity].
  rewrite isASCII_append, isASCII_Join by (reflexivity || exact H). reflexivity.
Qed.

Lemma Contains_append_l (a b substr : string) :
  Contains b substr = true -> Contains (a ++ b) substr = true.
Proof.
  rewrite !Contains_spec. intros (pre & post & ->).
  exists (a ++ pre), post. rewrite append_assoc. reflexivity.
Qed.

Lemma Contains_append_r (a b substr : string) :
  Contains a substr = true -> Contains (a ++ b) substr = true.
Proof.
  rewrite !Contains_spec. intros (pre & post & ->).
  exists pre, (post ++ b). rewrite !append_assoc. reflexivity.
Qed.

Section UpdateChecks.

Variable env : Env.
Variable cfg : Config.

Lemma isASCII_toTableName (typeName : string) :
  isASCII typeName = true -> isASCII (toTableName env typeName) = true.
Proof.
  intros H. rewrite toTableName_ascii by exact H.
  rewrite isASCII_append, isASCII_mapBytes_lowerByte, isASCII_camelToSnake, H. reflexivity.
Qed.

(** X18. The statement getUpdateSQL builds is recognised by Exec. For a
    struct with a type name of ASCII bytes and clauses of ASCII bytes, the
    statement is read as an UPDATE and as holding updated_at, so
    PanicUpdateSQLMustHaveUpdatedAt is never raised for it: Exec ends with
    the placeholder panic, with a WHERE panic (worded for DELETE when the
    text also reads as a DELETE), or goes on to the driver. *)
Theorem update_statement_is_recognised_by_exec
  (tx : option Conn) (s : GoValue) (whereClauses : list string) (whereValues : list any)
  (setClauses : list string) (setValues : list any) (t : Trace)
  (typeName : string) (fields : list Field) :
  checkAndGetStructValue s = Returned (typeName, fields) ->
  isASCII typeName = true ->
  Forall (fun c => isASCII c = true) setClauses ->
  Forall (fun c => isASCII c = true) whereClauses ->
  exists query values,
    getUpdateSQL env s whereClauses whereValues setClauses setValues t
      = (Returned (query, values), (t ++ [EvNow])%list)
    /\ StrContainWithIgnoreCase env query "UPDATE " = true
    /\ StrContainWithIgnoreCase env query "updated_at" = true
    /\ forall t0,
         Exec env cfg tx query values t0
         = if negb (Count query "$"%char =? length values)%nat
           then (Panicked (PanicString PanicPlaceHolderNumberNotMatch), t0)
           else if useWhereCheck cfg
                   && negb (StrContainWithIgnoreCase env query " WHERE ")
                   && negb (StrContainWithIgnoreCase env query disableWhereCheckClause)
           then (Panicked (PanicString
                             (if StrContainWithIgnoreCase env query "DELETE "
                              then PanicDeleteSQLMustUseWhere
                              else PanicUpdateSQLMustUseWhere)), t0)
           else execStatement env cfg tx query values t0.
Proof.
  intros Hs Hname Hset Hwhere.
  eexists _, _. split; [apply (getUpdateSQL_run env _ _ _ _ _ _ _ _ Hs)|].
  fold (whereText whereClauses).
  set (table := toTableName env typeName).
  set (raw := "UPDATE " ++ table ++ " SET " ++ Join (setClauses ++ ["updated_at = ?"]) ", "
              ++ whereText whereClauses).
  assert (Hraw : isASCII raw = true).
  { unfold raw. rewrite !isASCII_append, isASCII_whereText by exact Hwhere.
    rewrite isASCII_Join; [|reflexivity|].
    - unfold table. rewrite isASCII_toTableName by exact Hname. reflexivity.
    - apply Forall_app. split; [exact Hset|]. repeat constructor. }
  assert (Hquery : isASCII (replacePlaceholders raw 0) = true)
    by now apply isASCII_replaceFrom.
  assert (Hupdate : StrContainWithIgnoreCase env (replacePlaceholders raw 0) "UPDATE " = true).
  { unfold StrContainWithIgnoreCase, ToLower. rewrite Hquery.
    change (if isASCII "UPDATE " then mapBytes lowerByte "UPDATE "
            else unicodeToLower env "UPDATE ") with "update ".
    unfold replacePlaceholders, raw.
    rewrite replaceFrom_append, mapBytes_append.
    apply Contains_append_r. reflexivity. }
  assert (Hupdated : StrContainWithIgnoreCase env (replacePlaceholders raw 0) "updated_at"
                     = true).
  { unfold StrContainWithIgnoreCase, ToLower. rewrite Hquery.
    change (if isASCII "updated_at" then mapBytes lowerByte "updated_at"
            else unicodeToLower env "updated_at") with "updated_at".
    unfold replacePlaceholders, raw.
    rewrite Join_snoc.
    rewrite (replaceFrom_append "UPDATE "), (replaceFrom_append table),
      (replaceFrom_append " SET "), (replaceFrom_append (_ ++ "updated_at = ?")),
      (replaceFrom_append (eachThen ", " setClauses)), replaceFrom_updated_at.
    rewrite !mapBytes_append.
    do 3 apply Contains_append_l. apply Contains_append_r. apply Contains_append_l.
    apply Contains_append_r. reflexivity. }
  split; [exact Hupdate|]. split; [exact Hupdated|].
  intros t0. unfold Exec. rewrite Hupdate, Hupdated.
  destruct (negb (Count (replacePlaceholders raw 0) "$"%char =? _)%nat); [reflexivity|].
  destruct (useWhereCheck cfg),
    (StrContainWithIgnoreCase env (replacePlaceholders raw 0) " WHERE "),
    (StrContainWithIgnoreCase env (replacePlaceholders raw 0) disableWhereCheckClause),
    (StrContainWithIgnoreCase env (replacePlaceholders raw 0) "DELETE "),
    (forceUpdatedAtCheck cfg); reflexivity.
Qed.

Lemma isASCII_orderByText (orderByClauses : list string) :
  Forall (fun e => isASCII e = true) orderByClauses ->
  isASCII (orderByText orderByClauses) = true.
Proof.
  intros H. unfold orderByText. destruct (0 <? length orderByClauses)%nat; [|reflexivity].
  rewrite isASCII_append, isASCII_Join by (reflexivity || exact H). reflexivity.
Qed.

(** A statement of ASCII bytes with the WHERE part of a builder in it is
    read as holding " WHERE ". *)
Lemma where_is_recognised (head tail w : string) (ws : list string) :
  isASCII (head ++ whereText (w :: ws) ++ tail) = true ->
  StrContainWithIgnoreCase env
    (replacePlaceholders (head ++ whereText (w :: ws) ++ tail) 0) " WHERE " = true.
Proof.
  intros Hraw. unfold StrContainWithIgnoreCase, ToLower, replacePlaceholders.
  rewrite (isASCII_replaceFrom _ 0 Hraw).
  change (if isASCII " WHERE " then mapBytes lowerByte " WHERE "
          else unicodeToLower env " WHERE ") with " where ".
  unfold whereText. cbn [length Nat.ltb Nat.leb].
  rewrite (append_assoc " WHERE ").
  rewrite (replaceFrom_append head), (replaceFrom_append " WHERE "), !mapBytes_append.
  apply Contains_append_l, Contains_append_r. reflexivity.
Qed.

(** X19. The conditions a builder writes are recognised by the checks.
    For a struct with a type name of ASCII bytes, clauses of ASCII bytes and
    at least one where-clause, the statements of getQuerySQL, getDeleteSQL
    and getUpdateSQL are read as holding " WHERE ", and the first two as a
    SELECT and a DELETE: the SELECT check and the WHERE checks of Query and
    Exec do not fire for them. *)
Theorem conditions_are_recognised_by_the_checks
  (s : GoValue) (w : string) (ws : list string) (whereValues : list any)
  (orderByClauses : list string) (limitOffset : option (gmap string Z))
  (setClauses : list string) (setValues : list any) (t : Trace)
  (typeName : string) (fields : list Field) :
  checkAndGetStructValue s = Returned (typeName, fields) ->
  isASCII typeName = true ->
  Forall (fun c => isASCII c = true) (w :: ws) ->
  Forall (fun c => isASCII c = true) orderByClauses ->
  Forall (fun c => isASCII c = true) setClauses ->
  (exists query values,
     getQuerySQL env s (w :: ws) whereValues orderByClauses limitOffset
       = Returned (query, values)
     /\ StrContainWithIgnoreCase env query "SELECT " = true
     /\ StrContainWithIgnoreCase env query " WHERE " = true)
  /\ (exists query,
        getDeleteSQL env s (w :: ws) = Returned query
        /\ StrContainWithIgnoreCase env query "DELETE " = true
        /\ StrContainWithIgnoreCase env query " WHERE " = true)
  /\ (exists query values,
        getUpdateSQL env s (w :: ws) whereValues setClauses setValues t
          = (Returned (query, values), (t ++ [EvNow])%list)
        /\ StrContainWithIgnoreCase env query " WHERE " = true).
Proof.
  intros Hs Hname Hwhere Horder Hset.
  pose proof (isASCII_toTableName _ Hname) as Htable.
  pose proof (isASCII_whereText _ Hwhere) as Hw.
  pose proof (isASCII_orderByText _ Horder) as Ho.
  split; [|split].
  - eexists _, _. split; [apply (getQuerySQL_run env _ _ _ _ _ _ _ Hs)|].
    set (tail := orderByText orderByClauses
                 ++ (match limitOffsetAt limitOffset "limit" with
                     | Some _ => " LIMIT ?"
                     | None => ""
                     end)
                 ++ (match limitOffsetAt limitOffset "offset" with
                     | Some _ => " OFFSET ?"
                     | None => ""
                     end)).
    assert (Hshape : selectHead env typeName (w :: ws) orderByClauses
                     ++ (match limitOffsetAt limitOffset "limit" with
                         | Some _ => " LIMIT ?"
                         | None => ""
                         end)
                     ++ (match limitOffsetAt limitOffset "offset" with
                         | Some _ => " OFFSET ?"
                         | None => ""
                         end)
                     = ("SELECT * FROM " ++ toTableName env typeName)
                       ++ whereText (w :: ws) ++ tail).
    { unfold selectHead, tail. rewrite !append_assoc. reflexivity. }
    rewrite Hshape.
    assert (Hraw : isASCII (("SELECT * FROM " ++ toTableName env typeName)
                            ++ whereText (w :: ws) ++ tail) = true).
    { unfold tail. rewrite !isASCII_append, Htable, Hw, Ho.
      destruct (limitOffsetAt limitOffset "limit"), (limitOffsetAt limitOffset "offset");
        reflexivity. }
    split; [|now apply where_is_recognised].
    unfold StrContainWithIgnoreCase, ToLower, replacePlaceholders.
    rewrite (isASCII_replaceFrom _ 0 Hraw).
    change (if isASCII "SELECT " then mapBytes lowerByte "SELECT "
            else unicodeToLower env "SELECT ") with "select ".
    rewrite (append_assoc "SELECT * FROM "), (replaceFrom_append "SELECT * FROM "),
      mapBytes_append.
    apply Contains_append_r. reflexivity.
  - eexists. split; [apply (getDeleteSQL_run _ _ _ _ _ Hs)|].
    assert (Hshape : "DELETE FROM " ++ toTableName env typeName ++ whereText (w :: ws)
                     = ("DELETE FROM " ++ toTableName env typeName)
                       ++ whereText (w :: ws) ++ "").
    { rewrite append_nil_r, append_assoc. reflexivity. }
    rewrite Hshape.
    assert (Hraw : isASCII (("DELETE FROM " ++ toTableName env typeName)
                            ++ whereText (w :: ws) ++ "") = true).
    { rewrite !isASCII_append, Htable, Hw. reflexivity. }
    split; [|now apply where_is_recognised].
    unfold StrContainWithIgnoreCase, ToLower, replacePlaceholders.
    rewrite (isASCII_replaceFrom _ 0 Hraw).
    change (if isASCII "DELETE " then mapBytes lowerByte "DELETE "
            else unicodeToLower env "DELETE ") with "delete ".
    rewrite (append_assoc "DELETE FROM "), (replaceFrom_append "DELETE FROM "),
      mapBytes_append.
    apply Contains_append_r. reflexivity.
  - eexists _, _. split; [apply (getUpdateSQL_run env _ _ _ _ _ _ _ _ Hs)|].
    fold (whereText (w :: ws)).
    assert (Hshape : "UPDATE " ++ toTableName env typeName ++ " SET "
                     ++ Join (setClauses ++ ["updated_at = ?"]) ", " ++ whereText (w :: ws)
                     = ("UPDATE " ++ toTableName env typeName ++ " SET "
                        ++ Join (setClauses ++ ["updated_at = ?"]) ", ")
                       ++ whereText (w :: ws) ++ "").
    { rewrite append_nil_r, !append_assoc. reflexivity. }
    rewrite Hshape. apply where_is_recognised.
    rewrite !isASCII_append, Htable, Hw, isASCII_Join; [reflexivity|reflexivity|].
    apply Forall_app. split; [exact Hset|]. repeat constructor.
Qed.

End UpdateChecks.

Lemma update_statement_is_recognised_by_exec_example :
  exists query values,
    getUpdateSQL (exampleEnv noRows indexPlan None) zeroUser ["id = ?"] [AInt 1]
      ["name = ?"] [AString "b"] []
    = (Returned (query, values), [EvNow])
    /\ StrContainWithIgnoreCase (exampleEnv noRows indexPlan None) query "updated_at" = true.
Proof.
  destruct (update_statement_is_recognised_by_exec (exampleEnv noRows indexPlan None)
              defaultConfig None zeroUser ["id = ?"] [AInt 1] ["name = ?"] [AString "b"] []
              "User" [userField "ID" "id" (AInt 0); userField "Name" "name" (AString "")]
              eq_refl eq_refl)
    as (query & values & Hq & _ & Hu & _).
  - repeat constructor.
  - repeat constructor.
  - exists query, values. split; [exact Hq|exact Hu].
Defined.

Lemma conditions_are_recognised_by_the_checks_example :
  exists query,
    getDeleteSQL (exampleEnv noRows indexPlan None) zeroUser ["id = ?"; "name = ?"]
    = Returned query
    /\ StrContainWithIgnoreCase (exampleEnv noRows indexPlan None) query "DELETE " = true
    /\ StrContainWithIgnoreCase (exampleEnv noRows indexPlan None) query " WHERE " = true.
Proof.
  destruct (conditions_are_recognised_by_the_checks (exampleEnv noRows indexPlan None)
              zeroUser "id = ?" ["name = ?"] [AInt 1; AString "a"] [] None [] [] []
              "User" [userField "ID" "id" (AInt 0); userField "Name" "name" (AString "")]
              eq_refl eq_refl ltac:(repeat constructor) ltac:(repeat constructor)
              ltac:(repeat constructor))
    as (_ & H & _).
  exact H.
Defined.
(** ** The insert builders *)

Lemma fieldInterface_readable (f : InsertField) :
  readable f = true -> fieldInterface f = Returned (boundValue f).
Proof.
  unfold readable, fieldInterface, boundValue.
  destruct (insertContent f) as [v|[v|]], (insertExported f); cbn; intros H;
    try reflexivity; discriminate H.
Qed.

Lemma interfaces_readable (fields : list InsertField) :
  Forall (fun f => readable f = true) fields ->
  interfaces fields = Returned (map boundValue fields).
Proof.
  induction 1 as [|f fields Hf _ IH]; [reflexivity|].
  cbn [interfaces map]. rewrite (fieldInterface_readable _ Hf), IH. reflexivity.
Qed.

Lemma interfaces_length (fields : list InsertField) (values : list any) :
  interfaces fields = Returned values -> length values = length fields.
Proof.
  revert values. induction fields as [|f fields IH]; intros values H; cbn in H.
  - injection H as <-. reflexivity.
  - destruct (fieldInterface f); [|discriminate H].
    destruct (interfaces fields) as [vs|]; [|discriminate H].
    injection H as <-. cbn. now rewrite (IH vs).
Qed.

Lemma inserted_cons (ignores : list string) (f : InsertField) (rest : list InsertField) :
  inserted ignores (f :: rest)
  = if slicesContains ignores (insertTag f) then inserted ignores rest
    else f :: inserted ignores rest.
Proof.
  unfold inserted. cbn [List.filter]. unfold notIgnored at 1.
  destruct (slicesContains ignores (insertTag f)); reflexivity.
Qed.

Lemma insertedIndices_cons (ignores : list string) (f : InsertField)
  (rest : list InsertField) (i : nat) :
  insertedIndices ignores (f :: rest) i
  = if slicesContains ignores (insertTag f) then insertedIndices ignores rest (S i)
    else i :: insertedIndices ignores rest (S i).
Proof.
  cbn [insertedIndices]. unfold notIgnored.
  destruct (slicesContains ignores (insertTag f)); reflexivity.
Qed.

(** The loop of getInsertSQL writes the columns that are not ignored and
    reads their values, in the order of the struct. *)
Lemma insertLoop_run (ignores : list string) (rest : list InsertField)
  (fields : list string) (values : list any) :
  insertLoop ignores rest fields values
  = match interfaces (inserted ignores rest) with
    | Panicked v => Panicked v
    | Returned vs =>
      Returned ((fields ++ map quotedColumn (inserted ignores rest))%list,
                (values ++ vs)%list)
    end.
Proof.
  revert fields values. induction rest as [|f rest IH]; intros fields values.
  - cbn. rewrite !app_nil_r. reflexivity.
  - cbn [insertLoop]. rewrite inserted_cons.
    destruct (slicesContains ignores (insertTag f)).
    + apply IH.
    + cbn [interfaces map]. destruct (fieldInterface f) as [v|p]; [|reflexivity].
      rewrite IH.
      destruct (interfaces (inserted ignores rest)) as [vs|p]; [|reflexivity].
      rewrite <- !app_assoc. reflexivity.
Qed.

Lemma bulkColumns_run (ignores : list string) (rest : list InsertField) (i : nat)
  (fields : list string) (fieldIndices : list nat) :
  bulkColumns ignores rest i fields fieldIndices
  = ((fields ++ map quotedColumn (inserted ignores rest))%list,
     (fieldIndices ++ insertedIndices ignores rest i)%list).
Proof.
  revert i fields fieldIndices. induction rest as [|f rest IH]; intros i fields fieldIndices.
  - cbn. rewrite !app_nil_r. reflexivity.
  - cbn [bulkColumns]. rewrite inserted_cons, insertedIndices_cons.
    destruct (slicesContains ignores (insertTag f)).
    + apply IH.
    + rewrite IH. cbn [map]. rewrite <- !app_assoc. reflexivity.
Qed.

(** The indices the bulk builder keeps point at the fields it writes, in
    every struct with the same column names. *)
Lemma insertedIndices_lookup (ignores : list string) (shape rest pre : list InsertField) :
  map insertTag shape = map insertTag rest ->
  Forall2 (fun idx f => (pre ++ rest)%list !! idx = Some f)
    (insertedIndices ignores shape (length pre)) (inserted ignores rest).
Proof.
  revert shape pre. induction rest as [|f rest IH]; intros shape pre Htags.
  - destruct shape; [constructor|discriminate Htags].
  - destruct shape as [|g shape]; [discriminate Htags|].
    cbn [map] in Htags. injection Htags as Hg Htags.
    rewrite inserted_cons, insertedIndices_cons, Hg.
    specialize (IH shape (pre ++ [f])%list Htags).
    rewrite length_app, Nat.add_1_r, <- app_assoc in IH. cbn [app] in IH.
    destruct (slicesContains ignores (insertTag f)); [exact IH|].
    constructor; [|exact IH].
    rewrite list_lookup_middle by reflexivity. reflexivity.
Qed.

Lemma placeholdersFrom_snoc (start n : nat) :
  placeholdersFrom start (S n)
  = (placeholdersFrom start n ++ [("$" ++ Itoa (start + n))%string])%list.
Proof.
  unfold placeholdersFrom. rewrite seq_S, map_app. reflexivity.
Qed.

Lemma placeholdersFrom_cons (start n : nat) :
  placeholdersFrom start (S n) = ("$" ++ Itoa start)%string :: placeholdersFrom (S start) n.
Proof. reflexivity. Qed.

Lemma bulkFields_run (rv : list InsertField) (fieldIndices : list nat)
  (fields : list InsertField) (placeholders : list string) (values : list any)
  (paramCount : nat) :
  Forall2 (fun idx f => rv !! idx = Some f) fieldIndices fields ->
  bulkFields rv fieldIndices placeholders values paramCount
  = match interfaces fields with
    | Panicked v => Panicked v
    | Returned vs =>
      Returned ((placeholders ++ placeholdersFrom paramCount (length fieldIndices))%list,
                (values ++ vs)%list, paramCount + length fieldIndices)
    end.
Proof.
  intros H. revert placeholders values paramCount.
  induction H as [|idx f fieldIndices fields Hf _ IH]; intros placeholders values paramCount.
  - cbn. rewrite !app_nil_r, Nat.add_0_r. reflexivity.
  - cbn [bulkFields interfaces length]. rewrite Hf.
    destruct (fieldInterface f) as [v|p]; [|reflexivity].
    rewrite IH. destruct (interfaces fields) as [vs|p]; [|reflexivity].
    rewrite placeholdersFrom_cons, <- !app_assoc, Nat.add_succ_r. reflexivity.
Qed.

(** The loop `for i := range values` of getInsertSQL. *)
Lemma insert_placeholders (n : nat) :
  forRange (seq 0 n)
    (fun i placeholders => (placeholders ++ [("$" ++ Itoa (i + 1))%string])%list) []
  = placeholdersFrom 1 n.
Proof.
  induction n as [|n IH]; [reflexivity|].
  unfold forRange in *. rewrite seq_S, fold_left_app, IH. cbn [fold_left Nat.add].
  rewrite placeholdersFrom_snoc, Nat.add_1_r. reflexivity.
Qed.

Section Inserts.

Variable env : Env.

Lemma getInsertSQL_run (s : Item) (ignores : list string)
  (typeName : string) (fields : list InsertField) :
  checkAndGetStructValue' s = Returned (typeName, fields) ->
  getInsertSQL env s ignores
  = match interfaces (inserted ignores fields) with
    | Panicked v => Panicked v
    | Returned values =>
      Returned
        ("INSERT INTO " ++ toTableName env typeName
         ++ " (" ++ Join (map quotedColumn (inserted ignores fields)) ", "
         ++ ") VALUES " ++ valueGroup 1 (length (inserted ignores fields)),
         values)
    end.
Proof.
  intros Hs. unfold getInsertSQL. rewrite Hs. cbn [fst snd].
  rewrite insertLoop_run.
  destruct (interfaces (inserted ignores fields)) as [values|p] eqn:Hv; [|reflexivity].
  cbn [app]. rewrite insert_placeholders, (interfaces_length _ _ Hv).
  unfold valueGroup. rewrite !append_assoc. reflexivity.
Qed.

(** X20. getInsertSQL on a struct whose written fields reflect can read
    (every field that is not ignored is exported, or a nil pointer). The
    columns are the annotations of the fields that are not in the ignore
    list, between double quotes and in the order of the struct; there is one
    placeholder per column, numbered from 1; the values are those of these
    fields in the same order, a nil pointer giving nil and another pointer
    the value it points to. A field in the ignore list gives no column and
    no value, and is not read. *)
Theorem insert_writes_the_fields_that_are_not_ignored
  (s : Item) (ignores : list string) (typeName : string) (fields : list InsertField) :
  checkAndGetStructValue' s = Returned (typeName, fields) ->
  Forall (fun f => readable f = true) (inserted ignores fields) ->
  getInsertSQL env s ignores
  = Returned
      ("INSERT INTO " ++ toTableName env typeName
       ++ " (" ++ Join (map quotedColumn (inserted ignores fields)) ", "
       ++ ") VALUES (" ++ Join (placeholdersFrom 1 (length (inserted ignores fields))) ", "
       ++ ")",
       map boundValue (inserted ignores fields)).
Proof.
  intros Hs Hread. rewrite (getInsertSQL_run _ _ _ _ Hs), (interfaces_readable _ Hread).
  reflexivity.
Qed.

(** X21. A bulk insert of one item is the insert of that item:
    getBulkInsertSQL on a slice of one value gives the statement and the
    values getInsertSQL gives for the value, and panics with the same value
    when getInsertSQL panics. *)
Theorem bulk_insert_of_one_item_is_insert (s : Item) (ignores : list string) :
  getBulkInsertSQL env [s] ignores
  = match getInsertSQL env s ignores with
    | Returned (query, values) => Returned (query, Some values)
    | Panicked v => Panicked v
    end.
Proof.
  unfold getBulkInsertSQL.
  destruct (checkAndGetStructValue' s) as [[typeName fields]|p] eqn:Hs.
  2:{ unfold getInsertSQL. rewrite Hs. reflexivity. }
  rewrite (getInsertSQL_run _ _ _ _ Hs). cbn [fst snd].
  rewrite bulkColumns_run. cbn [app bulkItems]. rewrite Hs. cbn [snd].
  rewrite (bulkFields_run fields _ (inserted ignores fields)).
  2:{ apply (insertedIndices_lookup ignores fields fields []). reflexivity. }
  destruct (interfaces (inserted ignores fields)) as [values|p]; [|reflexivity].
  cbn [app Join].
  pose proof (Forall2_length _ _ _ (insertedIndices_lookup ignores fields fields [] eq_refl))
    as Hlen.
  cbn [length] in Hlen. rewrite Hlen.
  unfold valueGroup. rewrite !append_assoc. reflexivity.
Qed.

Lemma insertedIndices_length (ignores : list string) (shape : list InsertField) (i : nat) :
  length (insertedIndices ignores shape i) = length (inserted ignores shape).
Proof.
  revert i. induction shape as [|f shape IH]; intros i; [reflexivity|].
  rewrite inserted_cons, insertedIndices_cons.
  destruct (slicesContains ignores (insertTag f)); cbn [length]; rewrite IH; reflexivity.
Qed.

Lemma valueGroups_cons (paramCount k n : nat) :
  map (fun j => valueGroup (paramCount + j * k) k) (seq 0 (S n))
  = valueGroup paramCount k
    :: map (fun j => valueGroup (paramCount + k + j * k) k) (seq 0 n).
Proof.
  cbn [seq map]. rewrite Nat.mul_0_l, Nat.add_0_r. f_equal.
  rewrite <- seq_shift, map_map. apply map_ext. intros j. f_equal. cbn [Nat.mul]. lia.
Qed.

(** The loop over the items, when reflect can read every written field and
    the items have the columns of [shape]. *)
Lemma bulkItems_run (ignores : list string) (typeName : string) (shape : list InsertField)
  (items : list Item) (records : list (list InsertField)) :
  Forall2 (fun item fields => checkAndGetStructValue' item = Returned (typeName, fields))
    items records ->
  Forall (fun fields => map insertTag shape = map insertTag fields) records ->
  Forall (fun fields => Forall (fun f => readable f = true) (inserted ignores fields))
    records ->
  forall valueGroups values paramCount,
    bulkItems (insertedIndices ignores shape 0) items valueGroups values paramCount
    = Returned
        ((valueGroups
          ++ map (fun j => valueGroup (paramCount + j * length (inserted ignores shape))
                             (length (inserted ignores shape)))
               (seq 0 (length items)))%list,
         (values ++ concat (map (fun fields => map boundValue (inserted ignores fields))
                              records))%list,
         paramCount + length items * length (inserted ignores shape)).
Proof.
  induction 1 as [|item fields items records Hitem _ IH]; intros Htags Hread
    valueGroups values paramCount.
  - cbn. rewrite !app_nil_r, Nat.add_0_r. reflexivity.
  - apply Forall_cons in Htags as [Htag Htags]. apply Forall_cons in Hread as [Hr Hread].
    cbn [bulkItems]. rewrite Hitem. cbn [snd].
    rewrite (bulkFields_run fields _ (inserted ignores fields))
      by apply (insertedIndices_lookup ignores shape fields [] Htag).
    rewrite (interfaces_readable _ Hr), insertedIndices_length.
    rewrite (IH Htags Hread). cbn [app length].
    rewrite valueGroups_cons. cbn [map concat].
    rewrite <- !app_assoc. cbn [app].
    f_equal. apply (f_equal2 pair); [reflexivity|]. cbn [Nat.mul]. lia.
Qed.

(** X22. getBulkInsertSQL on items of one struct type whose written fields
    reflect can read. The columns are those of the first item that are not
    ignored; each item gives one group of placeholders, and the numbers run
    on from one group to the next: the group of the item at index [j] starts
    at 1 + j * k, for k columns; the values are those of the written fields,
    item after item, so the value at position n is the one bound to the
    placeholder numbered n + 1. For no item the builder gives the empty
    statement and a nil slice. *)
Theorem bulk_insert_numbers_the_values_across_items
  (item0 : Item) (items : list Item) (ignores : list string) (typeName : string)
  (fields0 : list InsertField) (records : list (list InsertField)) :
  Forall2 (fun item fields => checkAndGetStructValue' item = Returned (typeName, fields))
    (item0 :: items) (fields0 :: records) ->
  Forall (fun fields => map insertTag fields0 = map insertTag fields) records ->
  Forall (fun fields => Forall (fun f => readable f = true) (inserted ignores fields))
    (fields0 :: records) ->
  getBulkInsertSQL env (item0 :: items) ignores
  = Returned
      ("INSERT INTO " ++ toTableName env typeName
       ++ " (" ++ Join (map quotedColumn (inserted ignores fields0)) ", "
       ++ ") VALUES "
       ++ Join (map (fun j => valueGroup (1 + j * length (inserted ignores fields0))
                                (length (inserted ignores fields0)))
                  (seq 0 (S (length items)))) ", ",
       Some (concat (map (fun fields => map boundValue (inserted ignores fields))
                       (fields0 :: records))))
  /\ getBulkInsertSQL env [] ignores = Returned ("", None).
Proof.
  intros Hitems Htags Hread. split; [|reflexivity].
  pose proof Hitems as Hall. apply Forall2_cons in Hitems as [Hitem0 _].
  unfold getBulkInsertSQL. rewrite Hitem0. cbn [fst snd].
  rewrite bulkColumns_run. cbn [app].
  rewrite (bulkItems_run ignores typeName fields0 (item0 :: items) (fields0 :: records) Hall).
  - cbn [app length]. rewrite !append_assoc. reflexivity.
  - apply Forall_cons. split; [reflexivity|exact Htags].
  - exact Hread.
Qed.

Lemma Count_quotedColumn (f : InsertField) :
  Count (quotedColumn f) "$"%char = Count (insertTag f) "$"%char.
Proof.
  unfold quotedColumn. rewrite !Count_append.
  change (Count doubleQuote "$"%char) with 0. lia.
Qed.

Lemma Count_placeholders (start n : nat) :
  Count (Join (placeholdersFrom start n) ", ") "$"%char = n.
Proof.
  rewrite Count_Join by reflexivity. unfold placeholdersFrom. rewrite map_map.
  revert start. induction n as [|n IH]; intros start; [reflexivity|].
  cbn [seq map list_sum]. unfold list_sum in *. cbn [fold_right]. rewrite IH.
  rewrite Count_append, Count_Itoa by reflexivity. reflexivity.
Qed.

Lemma Count_valueGroup (start n : nat) : Count (valueGroup start n) "$"%char = n.
Proof.
  unfold valueGroup. rewrite !Count_append, Count_placeholders. cbn. lia.
Qed.

Lemma Count_columns (fields : list InsertField) :
  Forall (fun f => Count (insertTag f) "$"%char = 0) fields ->
  Count (Join (map quotedColumn fields) ", ") "$"%char = 0.
Proof.
  intros H. rewrite Count_Join by reflexivity. rewrite map_map.
  induction H as [|f fields Hf _ IH]; [reflexivity|].
  unfold list_sum in *. cbn [map fold_right]. rewrite IH, Count_quotedColumn, Hf. reflexivity.
Qed.

(** X23. The statement of an insert passes the placeholder check. When
    reflect can read the written fields, and neither the table name nor the
    name of a written column holds a "$", the statement getInsertSQL gives
    has exactly one "$" per value: Exec, which Insert and InsertWithIgnores
    call with this statement and these values, does not raise
    PanicPlaceHolderNumberNotMatch and goes on to its other checks. *)
Theorem insert_statement_has_one_placeholder_per_value
  (cfg : Config) (tx : option Conn) (s : Item) (ignores : list string) (t : Trace)
  (typeName : string) (fields : list InsertField) :
  checkAndGetStructValue' s = Returned (typeName, fields) ->
  Forall (fun f => readable f = true) (inserted ignores fields) ->
  Count (toTableName env typeName) "$"%char = 0 ->
  Forall (fun f => Count (insertTag f) "$"%char = 0) (inserted ignores fields) ->
  exists query values,
    getInsertSQL env s ignores = Returned (query, values)
    /\ Count query "$"%char = length values
    /\ InsertWithIgnores env cfg tx s ignores t
       = (let* _ := debugSQL cfg query values in
          if useWhereCheck cfg
             && StrContainWithIgnoreCase env query "DELETE "
             && negb (StrContainWithIgnoreCase env query " WHERE ")
             && negb (StrContainWithIgnoreCase env query disableWhereCheckClause)
          then panic (PanicString PanicDeleteSQLMustUseWhere)
          else if StrContainWithIgnoreCase env query "UPDATE "
          then
            if useWhereCheck cfg
               && negb (StrContainWithIgnoreCase env query " WHERE ")
               && negb (StrContainWithIgnoreCase env query disableWhereCheckClause)
            then panic (PanicString PanicUpdateSQLMustUseWhere)
            else if forceUpdatedAtCheck cfg
                    && negb (StrContainWithIgnoreCase env query "updated_at")
            then panic (PanicString PanicUpdateSQLMustHaveUpdatedAt)
            else execStatement env cfg tx query values
          else execStatement env cfg tx query values) t.
Proof.
  intros Hs Hread Htable Hcols.
  assert (Hrun : getInsertSQL env s ignores
                 = Returned
                     ("INSERT INTO " ++ toTableName env typeName
                      ++ " (" ++ Join (map quotedColumn (inserted ignores fields)) ", "
                      ++ ") VALUES ("
                      ++ Join (placeholdersFrom 1 (length (inserted ignores fields))) ", "
                      ++ ")",
                      map boundValue (inserted ignores fields))).
  { rewrite (getInsertSQL_run _ _ _ _ Hs), (interfaces_readable _ Hread). reflexivity. }
  eexists _, _. split; [exact Hrun|].
  assert (Hcount :
            Count ("INSERT INTO " ++ toTableName env typeName
                   ++ " (" ++ Join (map quotedColumn (inserted ignores fields)) ", "
                   ++ ") VALUES ("
                   ++ Join (placeholdersFrom 1 (length (inserted ignores fields))) ", "
                   ++ ")") "$"%char
            = length (map boundValue (inserted ignores fields))).
  { rewrite !Count_append, Htable, Count_columns, Count_placeholders, length_map by exact Hcols.
    cbn. lia. }
  split; [exact Hcount|].
  unfold InsertWithIgnores, liftRes.
  rewrite Hrun.
  unfold bind at 1. unfold Exec. rewrite Hcount, Nat.eqb_refl. reflexivity.
Qed.

End Inserts.

Lemma insert_writes_the_fields_that_are_not_ignored_example :
  getInsertSQL (exampleEnv noRows indexPlan None) (ItemPtr (Some (member None)))
    ["id"; "secret"]
  = Returned
      ("INSERT INTO members (" ++ doubleQuote ++ "name" ++ doubleQuote ++ ") VALUES ($1)",
       [ANil])
  /\ getInsertSQL (exampleEnv noRows indexPlan None) (member (Some "a")) ["id"]
     = Panicked (PanicString "reflect.Value.Interface: cannot return value obtained from unexported field or method").
Proof.
  split; [|reflexivity].
  rewrite (insert_writes_the_fields_that_are_not_ignored (exampleEnv noRows indexPlan None)
             (ItemPtr (Some (member None))) ["id"; "secret"] "Member" (memberFields None)
             eq_refl).
  - reflexivity.
  - repeat constructor.
Defined.

Lemma bulk_insert_numbers_the_values_across_items_example :
  getBulkInsertSQL (exampleEnv noRows indexPlan None)
    [testStruct 1 "John" 30 "" ""; testStruct 2 "Jane" 25 "" ""] defaultIgnores
  = Returned
      ("INSERT INTO test_structs (" ++ doubleQuote ++ "name" ++ doubleQuote ++ ", "
       ++ doubleQuote ++ "age" ++ doubleQuote ++ ") VALUES ($1, $2), ($3, $4)",
       Some [AString "John"; AInt 30; AString "Jane"; AInt 25]).
Proof.
  rewrite (proj1 (bulk_insert_numbers_the_values_across_items
                    (exampleEnv noRows indexPlan None)
                    (testStruct 1 "John" 30 "" "") [testStruct 2 "Jane" 25 "" ""]
                    defaultIgnores "TestStruct"
                    (testStructFields 1 "John" 30 "" "") [testStructFields 2 "Jane" 25 "" ""]
                    ltac:(repeat constructor) ltac:(repeat constructor)
                    ltac:(repeat constructor))).
  reflexivity.
Defined.

Lemma insert_statement_has_one_placeholder_per_value_example :
  exists query values,
    getInsertSQL (exampleEnv noRows indexPlan None) (testStruct 1 "John" 30 "" "")
      defaultIgnores
    = Returned (query, values)
    /\ Count query "$"%char = length values
    /\ values = [AString "John"; AInt 30].
Proof.
  destruct (insert_statement_has_one_placeholder_per_value (exampleEnv noRows indexPlan None)
              defaultConfig None (testStruct 1 "John" 30 "" "") defaultIgnores []
              "TestStruct" (testStructFields 1 "John" 30 "" "") eq_refl
              ltac:(repeat constructor) eq_refl ltac:(repeat constructor))
    as (query & values & Hq & Hc & _).
  exists query, values. split; [exact Hq|]. split; [exact Hc|].
  cbv in Hq. injection Hq as _ <-. reflexivity.
Defined.
(** * The repository's tests, replayed on the embedding *)

(** TestToTableName (src/unnamed/part_002). *)
Example test_toTableName :
  toTableName (exampleEnv noRows indexPlan None) "TestStruct" = "test_structs"
  /\ toTableName (exampleEnv noRows indexPlan None) "User" = "users"
  /\ toTableName (exampleEnv noRows indexPlan None) "OrderItem" = "order_items".
Proof. repeat split. Qed.

(** TestContainStr (src/ssql/sql_test.go). *)
Example test_StrContainWithIgnoreCase :
  map (fun '(target, str) =>
         StrContainWithIgnoreCase (exampleEnv noRows indexPlan None) target str)
      [("DELETE FROM table_for_test WHERE id = $1", "delete");
       ("delete FROM table_for_test WHERE id = $1", "DELETE");
       ("delete FROM table_for_test WHERE id = $1", "where");
       ("deLete FROM table_for_test WHERE id = $1", "delete");
       ("deLete FROM table_for_test WHERE id = $1", "delet");
       ("deLete * FROM table_for_test WHERE id = $1", "delett");
       ("deLete * FROM table_for_test WHERE id = $1", "where");
       ("select * FROM table_for_test WHERE id = $1 FOR UPDATE", "FOR UPDATE");
       ("select * FROM table_for_test WHERE id = $1 FOR UPDATE", "for update");
       ("select * FROM table_for_test WHERE id = $1 FOR UPDATE", "for select")]
  = [true; true; true; true; true; false; true; true; true; false].
Proof. reflexivity. Qed.

(** TestGetUpdateSQL (src/unnamed/part_002): the statement texts. *)
Example test_getUpdateSQL :
  map (fun '(s, whereClauses, whereValues, setClauses, setValues) =>
         match getUpdateSQL (exampleEnv noRows indexPlan None) s whereClauses whereValues
                 setClauses setValues [] with
         | (Returned (sql, _), _) => sql
         | (Panicked _, _) => "panic"
         end)
      [(VStruct "TestStruct" [], ["id = ?"], [AInt 1], ["name = ?"; "age = ?"],
        [AString "John"; AInt 30; AString "2023-10-01"]);
       (VStruct "TestStruct" [], ["name = ?"; "age = ?"], [AString "John"; AInt 30],
        ["name = ?"; "age = ?"], [AString "John"; AInt 30; AString "2023-10-01"]);
       (VStruct "TestStructWithMap" [], [], [], ["data = ?"],
        [AOpaque 0; AString "2023-10-01"]);
       (VStruct "TestStruct" [], ["id = ?"], [AInt 1], ["age = (age + 1)"],
        [AString "2023-10-01"]);
       (VOther (AInt 123), [], [], [], [])]
  = ["UPDATE test_structs SET name = $1, age = $2, updated_at = $3 WHERE id = $4";
     "UPDATE test_structs SET name = $1, age = $2, updated_at = $3 WHERE name = $4 AND age = $5";
     "UPDATE test_struct_with_maps SET data = $1, updated_at = $2";
     "UPDATE test_structs SET age = (age + 1), updated_at = $1 WHERE id = $2";
     "panic"].
Proof. reflexivity. Qed.

(** TestInvalidSQL (src/ssql/sql_test.go): the value each call panics
    with, before any call of the driver. *)
Example test_invalid_sql :
  Query (exampleEnv noRows indexPlan None) defaultConfig None (Some zeroUser)
        "SELECT * FROM table_for_test WHERE id=$1 AND id=$2" [AString "a"] []
    = (Panicked (PanicString PanicPlaceHolderNumberNotMatch), [])
  /\ Query (exampleEnv noRows indexPlan None) defaultConfig None (Some zeroUser)
        "SELECT * FROM table_for_test WHERE uid=a FOR SELECT" [] []
    = (Panicked (PanicString PanicLockingReadMustUseNowait), [])
  /\ Query (exampleEnv noRows indexPlan None) defaultConfig None (Some zeroUser)
        "DELETE FROM table_for_test" [] []
    = (Panicked (PanicString PanicQueryNotContanSelect), [])
  /\ Exec (exampleEnv noRows indexPlan None) defaultConfig None
        "DELETE FROM table_for_test" [] []
    = (Panicked (PanicString PanicDeleteSQLMustUseWhere), [])
  /\ Query (exampleEnv noRows indexPlan None) defaultConfig None (Some zeroUser)
        "SELECT * FROM table_for_test" [] []
    = (Panicked (PanicString PanicSelectSQLMustUseWhere), []).
Proof. repeat split. Qed.

(** TestIsNotSeqScanSQL (src/ssql/sql_test.go): with the marker the
    auditor answers true without a call; on a plan with a sequential scan
    it answers false, and Query panics with the statement text. *)
Example test_CheckSeqScan :
  CheckSeqScan (exampleEnv noRows seqScanPlan None) defaultConfig
    "SELECT name FROM table_for_test WHERE 'seq scan check disable' = 'seq scan check disable'"
    [] []
    = (Returned true, [])
  /\ fst (CheckSeqScan (exampleEnv noRows seqScanPlan None) defaultConfig
            "SELECT name FROM table_for_test WHERE name = $1" [AString "aaaaa"] [])
     = Returned false
  /\ fst (Query (exampleEnv noRows seqScanPlan None) defaultConfig None (Some zeroUser)
            "SELECT * FROM table_for_test WHERE name = $1" [AString "aaaaa"] [])
     = Panicked (PanicString "sql executed by Seq Scan: SELECT * FROM table_for_test WHERE name = $1").
Proof. repeat split. Qed.

(** A plan whose only sequential scan lies eleven levels below the root is
    decoded without it: the Go type has ten levels of Plans. *)
Example test_plan_depth :
  planHasSeqScan (exampleEnv noRows indexPlan None)
    (cutPlan 10
       (PlanNode "Limit" [PlanNode "a" [PlanNode "b" [PlanNode "c" [PlanNode "d"
         [PlanNode "e" [PlanNode "f" [PlanNode "g" [PlanNode "h" [PlanNode "i"
           [PlanNode "Seq Scan" []]]]]]]]]]]))
    = true
  /\ planHasSeqScan (exampleEnv noRows indexPlan None)
       (cutPlan 10
          (PlanNode "Limit" [PlanNode "a" [PlanNode "b" [PlanNode "c" [PlanNode "d"
            [PlanNode "e" [PlanNode "f" [PlanNode "g" [PlanNode "h" [PlanNode "i"
              [PlanNode "j" [PlanNode "Seq Scan" []]]]]]]]]]]]))
     = false.
Proof. split; reflexivity. Qed.

(** * What comes first, on examples *)

(** A failing rollback takes over: Transaction panics with the driver's
    error, whether the unit of work returned an error or panicked. *)
Example rollback_failure_is_fatal :
  Transaction (exampleEnv noRows indexPlan (Some (ErrOther "connection lost")))
    (fun _ => ret (Some (ErrOther "boom"))) []
    = (Panicked (PanicError (ErrOther "connection lost")),
       [EvBegin; EvLog LInfo "rollback start"; EvRollback 1])
  /\ Transaction (exampleEnv noRows indexPlan (Some (ErrOther "connection lost")))
       (fun _ => panic (PanicString "boom")) []
     = (Panicked (PanicError (ErrOther "connection lost")),
        [EvBegin; EvLog LWarn "rollback start because panic occured"; EvRollback 1]).
Proof. split; reflexivity. Qed.

(** A unit of work that succeeds is committed. *)
Example success_is_committed :
  Transaction (exampleEnv noRows indexPlan None) (fun _ => ret None) []
  = (Returned None, [EvBegin; EvCommit 1]).
Proof. reflexivity. Qed.

(** Query looks at the model pointer before the placeholders, and at the
    placeholders before the WHERE clause. *)
Example query_checks_in_order :
  Query (exampleEnv noRows indexPlan None) defaultConfig None None
        "SELECT * FROM t WHERE id=$1 AND id=$2" [AInt 1] []
    = (Panicked (PanicString "arg mp must not be null"), [])
  /\ Query (exampleEnv noRows indexPlan None) defaultConfig None (Some zeroUser)
        "SELECT * FROM t" [AInt 1] []
    = (Panicked (PanicString PanicPlaceHolderNumberNotMatch), []).
Proof. split; reflexivity. Qed.

(** TestGetQuerySQL (src/unnamed/part_002). *)
Example test_getQuerySQL :
  map (fun '(whereClauses, whereValues, orderByClauses, limitOffset) =>
         getQuerySQL (exampleEnv noRows indexPlan None) (VStruct "TestStruct" [])
           whereClauses whereValues orderByClauses limitOffset)
      [([], [], [], None);
       (["name = ?"; "age = ?"], [AString "John"; AInt 30], [], None);
       (["name = ?"; "is_valid = true"], [AString "John"], [], None);
       ([], [], ["name ASC"; "age DESC"], None);
       ([], [], [], Some (<["limit" := 10%Z]> ∅));
       ([], [], [], Some (<["offset" := 5%Z]> ∅));
       ([], [], [], Some (<["limit" := 10%Z]> (<["offset" := 5%Z]> ∅)));
       (["name = ?"], [AString "John"], ["age DESC"],
        Some (<["limit" := 10%Z]> (<["offset" := 5%Z]> ∅)))]
  = [Returned ("SELECT * FROM test_structs", []);
     Returned ("SELECT * FROM test_structs WHERE name = $1 AND age = $2",
               [AString "John"; AInt 30]);
     Returned ("SELECT * FROM test_structs WHERE name = $1 AND is_valid = true",
               [AString "John"]);
     Returned ("SELECT * FROM test_structs ORDER BY name ASC, age DESC", []);
     Returned ("SELECT * FROM test_structs LIMIT $1", [AInt 10]);
     Returned ("SELECT * FROM test_structs OFFSET $1", [AInt 5]);
     Returned ("SELECT * FROM test_structs LIMIT $1 OFFSET $2", [AInt 10; AInt 5]);
     Returned ("SELECT * FROM test_structs WHERE name = $1 ORDER BY age DESC LIMIT $2 OFFSET $3",
               [AString "John"; AInt 10; AInt 5])].
Proof. vm_compute. reflexivity. Qed.

(** TestGetDeleteSQL (src/unnamed/part_002). *)
Example test_getDeleteSQL :
  map (fun '(s, whereClauses) =>
         getDeleteSQL (exampleEnv noRows indexPlan None) s whereClauses)
      [(VStruct "TestStruct" [], ["id = ?"]);
       (VStruct "TestStruct" [], ["name = ?"; "age = ?"]);
       (VStruct "TestStructWithMap" [], ["data = ?"])]
  = [Returned "DELETE FROM test_structs WHERE id = $1";
     Returned "DELETE FROM test_structs WHERE name = $1 AND age = $2";
     Returned "DELETE FROM test_struct_with_maps WHERE data = $1"].
Proof. reflexivity. Qed.

(** TestGetInsertSQL (src/unnamed/part_002). *)
Example test_getInsertSQL :
  map (fun s => getInsertSQL (exampleEnv noRows indexPlan None) s defaultIgnores)
      [testStruct 1 "John" 30 "" "";
       ItemOther (AInt 123);
       testStruct 2 "Jane" 25 "2023-10-01" "";
       testStruct 3 "Doe" 40 "" "2023-10-02"]
  = [Returned ("INSERT INTO test_structs (" ++ doubleQuote ++ "name" ++ doubleQuote ++ ", "
               ++ doubleQuote ++ "age" ++ doubleQuote ++ ") VALUES ($1, $2)",
               [AString "John"; AInt 30]);
     Panicked (PanicString "must be a struct");
     Returned ("INSERT INTO test_structs (" ++ doubleQuote ++ "name" ++ doubleQuote ++ ", "
               ++ doubleQuote ++ "age" ++ doubleQuote ++ ") VALUES ($1, $2)",
               [AString "Jane"; AInt 25]);
     Returned ("INSERT INTO test_structs (" ++ doubleQuote ++ "name" ++ doubleQuote ++ ", "
               ++ doubleQuote ++ "age" ++ doubleQuote ++ ") VALUES ($1, $2)",
               [AString "Doe"; AInt 40])].
Proof. reflexivity. Qed.

(** TestGetBulkInsertSQL (src/unnamed/part_002). *)
Example test_getBulkInsertSQL :
  getBulkInsertSQL (exampleEnv noRows indexPlan None)
    [testStruct 1 "John" 30 "" ""; testStruct 2 "Jane" 25 "" ""] defaultIgnores
  = Returned
      ("INSERT INTO test_structs (" ++ doubleQuote ++ "name" ++ doubleQuote ++ ", "
       ++ doubleQuote ++ "age" ++ doubleQuote ++ ") VALUES ($1, $2), ($3, $4)",
       Some [AString "John"; AInt 30; AString "Jane"; AInt 25])
  /\ getBulkInsertSQL (exampleEnv noRows indexPlan None)
       [testStruct 1 "John" 30 "" ""] defaultIgnores
     = Returned
         ("INSERT INTO test_structs (" ++ doubleQuote ++ "name" ++ doubleQuote ++ ", "
          ++ doubleQuote ++ "age" ++ doubleQuote ++ ") VALUES ($1, $2)",
          Some [AString "John"; AInt 30])
  /\ getBulkInsertSQL (exampleEnv noRows indexPlan None) [] defaultIgnores
     = Returned ("", None)
  /\ getBulkInsertSQL (exampleEnv noRows indexPlan None)
       [testStruct 1 "John" 30 "" ""; testStruct 2 "Jane" 25 "" ""] ["id"; "age"]
     = Returned
         ("INSERT INTO test_structs (" ++ doubleQuote ++ "name" ++ doubleQuote ++ ", "
          ++ doubleQuote ++ "created_at" ++ doubleQuote ++ ", "
          ++ doubleQuote ++ "updated_at" ++ doubleQuote
          ++ ") VALUES ($1, $2, $3), ($4, $5, $6)",
          Some [AString "John"; AString ""; AString ""; AString "Jane"; AString "";
                AString ""]).
Proof. repeat split. Qed.

(** TestInsertBulk, empty_array (src/unnamed/part_002): no result, no
    error, and no call. *)
Example test_InsertBulk_empty :
  InsertBulk (exampleEnv noRows indexPlan None) defaultConfig None [] []
  = (Returned (None, None), []).
Proof. reflexivity. Qed.

(** TestContainStr, success_StrContainList (src/ssql/sql_test.go), on the
    part of the text that is ASCII. *)
Example test_StrContainListWithIgnoreCase :
  StrContainListWithIgnoreCase (exampleEnv noRows indexPlan None)
    "watashi ha sample no text desu." ["sample"; "ttt"] = true
  /\ StrContainListWithIgnoreCase (exampleEnv noRows indexPlan None)
       "watashi ha sample no text desu." ["watasu"; "ttt"] = false.
Proof. split; reflexivity. Qed.
